(** * Subscription tracker: the reminder workflow and its collaborators

    A shallow embedding of
    - the workflow controller ([reminders], [sendReminders],
      [fetchSubscription], [sleepUntilReminder], [triggerReminder]),
    - the mail helper ([sendReminderEmail], utils/send-email.js),
    - the subscription model's [pre("save")] hook,
    - the workflow trigger built by [createSubscription], and
    - the request handlers of the subscription controller behind
      [arcjetMiddleware] and [authorizeUser],
    followed by the properties of the reminder schedule and of the
    handlers.

    Conventions.  Instants are JavaScript time values: milliseconds since
    the epoch, in [Z].  The server's zone is a fixed offset from UTC (no
    daylight-saving jumps), so a calendar day is a block of [day_ms]
    milliseconds.  Synchronous JavaScript between two [await]s takes no
    time; the clock moves only inside the host primitives. *)

From Stdlib Require Import ZArith Lia Bool List.
From stdpp Require Import base gmap strings pretty list.

Local Open Scope Z_scope.

(* ===================================================================== *)
(** ** dayjs and Date arithmetic *)
(* ===================================================================== *)

Module Dayjs.

Definition day_ms : Z := 86400000.

(** [startOf("day")] and [endOf("day")] in a zone [off] ms east of UTC. *)
Definition startOf_day (off t : Z) : Z :=
  ((t + off) `div` day_ms) * day_ms - off.

Definition endOf_day (off t : Z) : Z :=
  startOf_day off t + day_ms - 1.

(** [a.isSame(b, "day")]: [a.startOf("day") <= b && b <= a.endOf("day")]. *)
Definition isSame_day (off a b : Z) : bool :=
  (startOf_day off a <=? b) && (b <=? endOf_day off a).

(** [a.isBefore(b)] and [a.isAfter(b)] without a unit compare instants. *)
Definition isBefore (a b : Z) : bool := a <? b.
Definition isAfter (a b : Z) : bool := b <? a.

(** [a.subtract(n, "day")]. *)
Definition subtract_day (a n : Z) : Z := a - n * day_ms.

(** [d.setDate(d.getDate() + n)]. *)
Definition setDate_plus (d n : Z) : Z := d + n * day_ms.

(** The calendar day an instant falls on, as a day number. *)
Definition day_of (off t : Z) : Z := (t + off) `div` day_ms.

End Dayjs.

(* ===================================================================== *)
(** ** The data model (models/subscription.model.js, models/user.model.js) *)
(* ===================================================================== *)

Inductive Status := active | cancelled | expired.
Inductive Frequency := daily | weekly | monthly | yearly.
Inductive Currency := USD | INR.
Inductive Category := Streaming | Music | Video | Gaming | Other.

#[global] Instance Status_eq_dec : EqDecision Status.
Proof. solve_decision. Defined.

(** A user document.  A field is [None] when a projection left it out. *)
Record User := mkUser {
  username : option string;
  email : option string;
  password : option string;
}.

(** A subscription document; [U] is what the [user] path holds: the
    owner's id in storage, the resolved owner (or [None] for [null]) after
    [populate]. The price is a JavaScript number, kept as printed. *)
Record Subscription (U : Type) := mkSubscription {
  sub_id : string;
  name : string;
  price : string;
  frequency : Frequency;
  currency : Currency;
  category : Category;
  paymentMethod : string;
  status : Status;
  startDate : Z;
  renewalDate : option Z;
  user : U;
}.

Arguments mkSubscription {U}.
Arguments sub_id {U}.
Arguments name {U}.
Arguments price {U}.
Arguments frequency {U}.
Arguments currency {U}.
Arguments category {U}.
Arguments paymentMethod {U}.
Arguments status {U}.
Arguments startDate {U}.
Arguments renewalDate {U}.
Arguments user {U}.

Definition with_user {U V} (s : Subscription U) (v : V) : Subscription V :=
  mkSubscription (sub_id s) (name s) (price s) (frequency s) (currency s)
    (category s) (paymentMethod s) (status s) (startDate s) (renewalDate s) v.

Definition with_renewalDate {U} (s : Subscription U) (d : option Z)
  : Subscription U :=
  mkSubscription (sub_id s) (name s) (price s) (frequency s) (currency s)
    (category s) (paymentMethod s) (status s) (startDate s) d (user s).

Definition with_status {U} (s : Subscription U) (st : Status)
  : Subscription U :=
  mkSubscription (sub_id s) (name s) (price s) (frequency s) (currency s)
    (category s) (paymentMethod s) st (startDate s) (renewalDate s) (user s).

Definition show_frequency (f : Frequency) : string :=
  match f with
  | daily => "daily" | weekly => "weekly"
  | monthly => "monthly" | yearly => "yearly"
  end.

Definition show_currency (c : Currency) : string :=
  match c with USD => "USD" | INR => "INR" end.

(** *** The [pre("save")] hook *)

Definition renewalPeriods (f : Frequency) : Z :=
  match f with
  | daily => 1
  | weekly => 7
  | monthly => 30
  | yearly => 365
  end.

(** [today] is the value of [new Date()] when the hook runs. *)
Definition pre_save {U} (today : Z) (this : Subscription U) : Subscription U :=
  let this :=
    match renewalDate this with
    | None =>
        with_renewalDate this
          (Some (Dayjs.setDate_plus (startDate this)
                   (renewalPeriods (frequency this))))
    | Some _ => this
    end in
  match renewalDate this with
  | Some r => if r <? today then with_status this expired else this
  | None => this
  end.

(** *** The persistence store *)

Record Store := mkStore {
  subscriptions : gmap string (Subscription string);
  users : gmap string User;
}.

(** [populate("user", "name email")]: the schema has no [name] path, so
    only [email] survives the projection. *)
Definition select_name_email (u : User) : User :=
  mkUser None (email u) None.

(** [Subscription.findById(id).populate("user", "name email")]. *)
Definition findById_populate (st : Store) (id : string)
  : option (Subscription (option User)) :=
  s ← subscriptions st !! id;
  Some (with_user s (select_name_email <$> users st !! user s)).

(** What the store is asked to do. *)
Inductive Query :=
| FindById_populate (id : string)
| Create (doc : Subscription string).

Definition is_read (q : Query) : bool :=
  match q with FindById_populate _ => true | Create _ => false end.

(* ===================================================================== *)
(** ** Mail: templates and the transport (config/nodemailer.js) *)
(* ===================================================================== *)

Record MailInfo := mkMailInfo {
  mi_userName : option string;
  mi_subscriptionName : string;
  mi_renewalDate : string;
  mi_planName : string;
  mi_price : string;
  mi_paymentMethod : string;
}.

(** An entry of [emailTemplates] (utils/email-template.js). *)
Record Template := mkTemplate {
  label : string;
  generateSubject : MailInfo -> string;
  generateBody : MailInfo -> string;
}.

(** The object [{ from, to, subject, html }]. *)
Record MailOptions := mkMailOptions {
  mail_from : string;
  mail_to : string;
  mail_subject : string;
  mail_html : string;
}.

(** What [sendMail] resolves to on success. *)
Record SentMessageInfo := mkInfo {
  envelope_from : string;
  envelope_to : string;
  messageId : string;
  response : string;
}.

(** What [transporter.sendMail] is handed as its first argument: the mail
    options, or (second call of [sendReminderEmail]) the info object of an
    earlier send. *)
Inductive MailData :=
| options (m : MailOptions)
| receipt (i : SentMessageInfo).

(** One call of [transporter.sendMail]: when, with what, and the outcome
    ([inl] accepted, [inr] the transport's error). *)
Record Dispatch := mkDispatch {
  d_time : Z;
  d_data : MailData;
  d_result : SentMessageInfo + string;
}.

Definition accountEmail : string := "ratishjain6@gmail.com".

(* ===================================================================== *)
(** ** The world a workflow run lives in *)
(* ===================================================================== *)

(** Values that travel through [context.run]. *)
Inductive Value :=
| undefined
| null
| document (s : Subscription (option User)).

Inductive Line :=
| Log (s : string)
| Error (s : string)
| Uncaught (s : string).

Record World := mkWorld {
  now : Z;
  store : Store;
  retries : nat;
  steps : gmap string Value;
  queries : list Query;
  outbox : list Dispatch;
  console : list Line;
}.

(** What a run depends on and the sources at hand do not fix. *)
Class Env := mkEnv {
  (** zone of the server, ms east of UTC *)
  utcOffset : Z;
  (** [dayjs(t).toString()] and [dayjs(t).format(pattern)] *)
  toUTCString : Z -> string;
  format : string -> Z -> string;
  (** utils/email-template.js is not among the sources: the table is a
      parameter *)
  emailTemplates : list Template;
  (** the SMTP service: accepts or rejects a message at an instant *)
  smtp : Z -> MailData -> SentMessageInfo + string;
  (** when the host resumes a run parked at [now] until [date] *)
  wake : string -> Z -> Z -> Z;
  (** when a step started at an instant has finished *)
  step_end : string -> Z -> Z;
  (** what other actors do to the store between two instants *)
  external : Z -> Z -> Store -> Store;
}.

Inductive Outcome (A : Type) :=
| Ok (a : A)
| Throw (e : string).

Arguments Ok {A}.
Arguments Throw {A}.

Definition M (A : Type) : Type := World -> Outcome A * World.

#[global] Instance M_ret : MRet M := fun A a w => (Ok a, w).

#[global] Instance M_bind : MBind M := fun A B f m w =>
  match m w with
  | (Ok a, w') => f a w'
  | (Throw e, w') => (Throw e, w')
  end.

Definition throw {A} (e : string) : M A := fun w => (Throw e, w).

Definition elapse `{Env} (t : Z) (w : World) : World :=
  let t' := Z.max (now w) t in
  mkWorld t' (external (now w) t' (store w)) (retries w) (steps w)
    (queries w) (outbox w) (console w).

Definition record (k : string) (v : Value) (w : World) : World :=
  mkWorld (now w) (store w) (retries w) (<[k := v]> (steps w))
    (queries w) (outbox w) (console w).

Definition asked (q : Query) (w : World) : World :=
  mkWorld (now w) (store w) (retries w) (steps w)
    (queries w ++ [q]) (outbox w) (console w).

Definition dispatched (d : Dispatch) (w : World) : World :=
  mkWorld (now w) (store w) (retries w) (steps w)
    (queries w) (outbox w ++ [d]) (console w).

Definition printed (l : Line) (w : World) : World :=
  mkWorld (now w) (store w) (retries w) (steps w)
    (queries w) (outbox w) (console w ++ [l]).

Definition console_log (s : string) : M unit :=
  fun w => (Ok tt, printed (Log s) w).

(** [dayjs(d)]: the given instant, the current one for [undefined]. *)
Definition dayjs (d : option Z) : M Z :=
  fun w => (Ok (default (now w) d), w).

(** [await transporter.sendMail(data)]: a rejection is thrown. *)
Definition sendMail_await `{Env} (data : MailData) : M SentMessageInfo :=
  fun w =>
    let r := smtp (now w) data in
    let w' := dispatched (mkDispatch (now w) data r) w in
    match r with
    | inl info => (Ok info, w')
    | inr e => (Throw e, w')
    end.

(** [transporter.sendMail(data, callback)]: the call returns at once; the
    outcome reaches only the callback, and what the callback throws is
    nobody's rejection. *)
Definition sendMail_callback `{Env} (data : MailData)
    (callback : SentMessageInfo + string -> World -> World) : M unit :=
  fun w =>
    let r := smtp (now w) data in
    (Ok tt, callback r (dispatched (mkDispatch (now w) data r) w)).

(** Modelled from the spec: the host's retry policy.  A step function
    that fails is run again as often as the run's [retries] allow. *)
Fixpoint attempt {A} (n : nat) (fn : M A) (w : World) : Outcome A * World :=
  match fn w with
  | (Ok a, w') => (Ok a, w')
  | (Throw e, w') =>
      match n with
      | O => (Throw e, w')
      | S k => attempt k fn w'
      end
  end.

(** Modelled from the spec: the host's [runStep(name, fn)], here
    [context.run] of @upstash/workflow, which is not part of the
    repository.  A step recorded under [stepName] is replayed from the
    record without running [fn]; otherwise [fn] runs under the retry
    policy, and a success is recorded. *)
Definition context_run `{Env} (stepName : string) (fn : M Value) : M Value :=
  fun w =>
    match steps w !! stepName with
    | Some v => (Ok v, w)
    | None =>
        match attempt (retries w) fn w with
        | (Ok v, w') =>
            (Ok v, record stepName v (elapse (step_end stepName (now w)) w'))
        | (Throw e, w') => (Throw e, w')
        end
    end.

(** Modelled from the spec: the host's [sleepUntil(name, timestamp)], here
    [context.sleepUntil].  A recorded sleep is not slept again; otherwise
    the run resumes when the host wakes it, never before [date]. *)
Definition context_sleepUntil `{Env} (stepName : string) (date : Z) : M Value :=
  fun w =>
    match steps w !! stepName with
    | Some v => (Ok v, w)
    | None =>
        (Ok undefined,
         record stepName undefined
           (elapse (Z.max date (wake stepName (now w) date)) w))
    end.

(* ===================================================================== *)
(** ** utils/send-email.js *)
(* ===================================================================== *)

(** JavaScript truthiness of an optional string and of a step value. *)
Definition truthy (s : option string) : bool :=
  match s with
  | Some s => negb (String.eqb s "")
  | None => false
  end.

Definition present (v : Value) : bool :=
  match v with
  | document _ => true
  | _ => false
  end.

Definition sendReminderEmail `{Env} (to type : option string)
    (subscription : Value) : M Value :=
  if negb (truthy to) || negb (truthy type) || negb (present subscription)
  then throw "Missing required fields"
  else
    match to, type, subscription with
    | Some to, Some type, document s =>
        match find (fun template => String.eqb (label template) type)
                emailTemplates with
        | None => throw "Invalid template type"
        | Some template =>
            match user s with
            | None =>
                throw "TypeError: Cannot read properties of null (reading 'username')"
            | Some owner =>
                renewal ← dayjs (renewalDate s);
                let mailInfo :=
                  mkMailInfo (username owner) (name s)
                    (format "MMM D, YYYY" renewal) (name s)
                    (show_currency (currency s) +:+ " " +:+ price s +:+ "("
                       +:+ show_frequency (frequency s) +:+ ")")
                    (paymentMethod s) in
                let emailBody := generateBody template mailInfo in
                let emailSubject := generateSubject template mailInfo in
                mailOptions ← sendMail_await
                  (options (mkMailOptions accountEmail to emailSubject emailBody));
                sendMail_callback (receipt mailOptions)
                  (fun r w =>
                     match r with
                     | inr error =>
                         printed (Uncaught "Failed to send email")
                           (printed (Error ("Error sending email: " +:+ error)) w)
                     | inl info =>
                         printed
                           (Log ("Email sent successfully: " +:+ response info)) w
                     end);;
                mret undefined
            end
        end
    | _, _, _ => throw "Missing required fields"
    end.

(* ===================================================================== *)
(** ** controllers/workflow.controller.js *)
(* ===================================================================== *)

Definition reminders : list Z := [7; 5; 3; 1].

(** [for (const x of xs) { await body(x) }] *)
Fixpoint forOf {A} (xs : list A) (body : A -> M unit) : M unit :=
  match xs with
  | [] => mret tt
  | x :: xs => body x;; forOf xs body
  end.

Definition fetchSubscription `{Env} (subscriptionId : string) : M Value :=
  context_run "get subscription"
    (fun w =>
       (Ok (match findById_populate (store w) subscriptionId with
            | Some s => document s
            | None => null
            end),
        asked (FindById_populate subscriptionId) w)).

Definition sleepUntilReminder `{Env} (label : string) (date : Z) : M Value :=
  console_log ("Sleeping until " +:+ label +:+ " reminder at "
               +:+ toUTCString date);;
  context_sleepUntil label date.

Definition triggerReminder `{Env} (label : string)
    (subscription : Subscription (option User)) : M Value :=
  console_log ("Triggering " +:+ label +:+ " reminder");;
  context_run label
    (match user subscription with
     | None => throw "TypeError: Cannot read properties of null (reading 'email')"
     | Some owner =>
         sendReminderEmail (email owner) (Some label) (document subscription)
     end).

Definition sleep_label (daysBefore : Z) : string :=
  "Reminder " +:+ pretty daysBefore +:+ " days before".

Definition reminder_label (daysBefore : Z) : string :=
  pretty daysBefore +:+ " days before reminder".

(** The body of the loop over [reminders]. *)
Definition remind `{Env} (subscription : Subscription (option User))
    (renewalDate : Z) (daysBefore : Z) : M unit :=
  let reminderDate := Dayjs.subtract_day renewalDate daysBefore in
  t ← dayjs None;
  (if Dayjs.isAfter reminderDate t
   then sleepUntilReminder (sleep_label daysBefore) reminderDate;; mret tt
   else mret tt);;
  t ← dayjs None;
  if Dayjs.isSame_day utcOffset t reminderDate
  then triggerReminder (reminder_label daysBefore) subscription;; mret tt
  else mret tt.

Definition stopping (subscriptionId : string) : M unit :=
  console_log ("Renewal date has passed for subscription " +:+ subscriptionId
               +:+ ". Stopping workflow.").

Definition sendReminders `{Env} (subscriptionId : string) : M unit :=
  subscription ← fetchSubscription subscriptionId;
  match subscription with
  | document s =>
      if decide (status s = active) then
        renewalDate ← dayjs (renewalDate s);
        t ← dayjs None;
        if Dayjs.isBefore renewalDate t
        then console_log "Subscription is expired"
        else forOf reminders (remind s renewalDate)
      else stopping subscriptionId
  | _ => stopping subscriptionId
  end.

(* ===================================================================== *)
(** ** controllers/subscription.controller.js: starting a run *)
(* ===================================================================== *)

(** The argument of [WorkflowClient.trigger]. *)
Record Trigger := mkTrigger {
  url : string;
  body_subscriptionId : string;
  trigger_retries : nat;
}.

(** What [createSubscription] does to the store and asks of the workflow
    client once the schema validation of [Subscription.create] has passed:
    the [pre("save")] hook runs, the document is stored under the id the
    store chose ([newId]), and the argument of [WorkflowClient.trigger] is
    built.  The handler as a whole, with the validation that comes first
    and with its two ways to fail, is [Handlers.createSubscription]. *)
Definition stored_and_triggered (SERVER_URL : string) (today : Z)
    (newId : string) (body : Subscription string) (req_user_id : string)
    (st : Store) : Store * Trigger :=
  let newSubscription :=
    pre_save today
      (mkSubscription newId (name body) (price body) (frequency body)
         (currency body) (category body) (paymentMethod body) (status body)
         (startDate body) (renewalDate body) req_user_id) in
  (mkStore (<[newId := newSubscription]> (subscriptions st)) (users st),
   mkTrigger (SERVER_URL +:+ "/api/v1/workflows/send-reminders")
     (sub_id newSubscription) 0).

(** Modelled from the spec: the host creates a run for a trigger, with
    nothing recorded and nothing sent, and hands the payload to the
    handler that [serve] wraps. *)
Definition start (tr : Trigger) (t : Z) (st : Store) : World :=
  mkWorld t st (trigger_retries tr) ∅ [] [] [].

Definition serve `{Env} (tr : Trigger) (t : Z) (st : Store)
  : Outcome unit * World :=
  sendReminders (body_subscriptionId tr) (start tr t st).

(* ===================================================================== *)
(** ** Observations on a run *)
(* ===================================================================== *)

(** The reminder mails the transport accepted, with their instants. *)
Definition delivered (d : Dispatch) : option (Z * MailOptions) :=
  match d_data d, d_result d with
  | options m, inl _ => Some (d_time d, m)
  | _, _ => None
  end.

Definition reminder_log (l : list Dispatch) : list (Z * MailOptions) :=
  omap delivered l.

(** The mail [sendReminderEmail] composes for a label, a subscription
    snapshot and its owner. *)
Definition composed `{Env} (template : Template)
    (s : Subscription (option User)) (owner : User) (to : string)
    (renewal : Z) : MailOptions :=
  let mailInfo :=
    mkMailInfo (username owner) (name s)
      (format "MMM D, YYYY" renewal) (name s)
      (show_currency (currency s) +:+ " " +:+ price s +:+ "("
         +:+ show_frequency (frequency s) +:+ ")")
      (paymentMethod s) in
  mkMailOptions accountEmail to (generateSubject template mailInfo)
    (generateBody template mailInfo).

Definition template_for `{Env} (type : string) : option Template :=
  find (fun template => String.eqb (label template) type) emailTemplates.

(* ===================================================================== *)
(** ** Assumptions on the surroundings, and the step names of a run *)
(* ===================================================================== *)

(** The host wakes a parked run on the calendar day it was parked for. *)
Definition prompt `{Env} : Prop :=
  forall stepName t date,
    t < date ->
    Dayjs.day_of utcOffset (Z.max date (wake stepName t date))
    = Dayjs.day_of utcOffset date.

(** A step is over less than a day after it began. *)
Definition brisk `{Env} : Prop :=
  forall stepName t, step_end stepName t < t + Dayjs.day_ms.

(** The transport accepts every composed mail. *)
Definition accepting `{Env} : Prop :=
  forall t m, exists info, smtp t (options m) = inl info.

(** Nobody else touches the store. *)
Definition undisturbed `{Env} : Prop :=
  forall t t' st, external t t' st = st.

(** The step names the loop uses for a list of thresholds. *)
Definition labels (ns : list Z) : list string :=
  flat_map (fun n => [sleep_label n; reminder_label n]) ns.

(** Consecutive thresholds are at least two days apart. *)
Fixpoint spaced (ns : list Z) : Prop :=
  match ns with
  | n :: (m :: _) as rest => m + 2 <= n /\ spaced rest
  | _ => True
  end.

(** The reminder the workflow owes for a threshold: sent on the calendar
    day [daysBefore] days before the renewal, composed from the template of
    the threshold's label. *)
Definition due `{Env} (s : Subscription (option User)) (owner : User)
    (to : string) (D : Z) (daysBefore : Z) (e : Z * MailOptions) : Prop :=
  Dayjs.subtract_day D daysBefore <= e.1 /\
  Dayjs.day_of utcOffset e.1
    = Dayjs.day_of utcOffset (Dayjs.subtract_day D daysBefore) /\
  exists template,
    template_for (reminder_label daysBefore) = Some template /\
    e.2 = composed template s owner to D.

(** What the transport is handed when the step of a threshold runs and the
    reminder is accepted: the reminder composed from the template of the
    threshold's label, on the calendar day [daysBefore] days before the
    renewal, and at the same instant a second message, the info object of
    that send. *)
Definition sent_twice `{Env} (s : Subscription (option User)) (owner : User)
    (to : string) (D : Z) (daysBefore : Z) (l : list Dispatch) : Prop :=
  exists t template info,
    Dayjs.subtract_day D daysBefore <= t /\
    Dayjs.day_of utcOffset t
      = Dayjs.day_of utcOffset (Dayjs.subtract_day D daysBefore) /\
    template_for (reminder_label daysBefore) = Some template /\
    l = [mkDispatch t (options (composed template s owner to D)) (inl info);
         mkDispatch t (receipt info) (smtp t (receipt info))].

(** What the first step hands back. *)
Definition fetched (st : Store) (id : string) : Value :=
  match findById_populate st id with
  | Some s => document s
  | None => null
  end.

(** A computation keeps a relation between the world it starts in and the
    world it leaves, whatever its outcome. *)
Definition keeps (R : World -> World -> Prop) {A} (m : M A) : Prop :=
  forall w, R w (m w).2.

(** The store's side of a world is left alone: no new query, and no change
    of content unless some other actor makes one. *)
Definition same_db `{Env} (w w' : World) : Prop :=
  queries w' = queries w /\ (undisturbed -> store w' = store w).

(** The transport log only grows. *)
Definition outbox_grows (w w' : World) : Prop :=
  exists l, outbox w' = outbox w ++ l.

(** Two worlds that differ at most in what the store holds. *)
Definition agree (w1 w2 : World) : Prop :=
  now w1 = now w2 /\ retries w1 = retries w2 /\ steps w1 = steps w2 /\
  queries w1 = queries w2 /\ outbox w1 = outbox w2 /\ console w1 = console w2.

(** Two computations that cannot tell such worlds apart. *)
Definition alike {A} (m1 m2 : M A) : Prop :=
  forall w1 w2, agree w1 w2 ->
    (m1 w1).1 = (m2 w2).1 /\ agree (m1 w1).2 (m2 w2).2.

(** Two surroundings that differ at most in what other actors do to the
    store. *)
Definition same_host (E1 E2 : Env) : Prop :=
  @utcOffset E1 = @utcOffset E2 /\
  @toUTCString E1 = @toUTCString E2 /\
  @format E1 = @format E2 /\
  @emailTemplates E1 = @emailTemplates E2 /\
  @smtp E1 = @smtp E2 /\
  @wake E1 = @wake E2 /\
  @step_end E1 = @step_end E2.

(** Every message the transport accepted: when, and for whom. *)
Definition transmitted (d : Dispatch) : option (Z * string) :=
  match d_result d with
  | inl info => Some (d_time d, envelope_to info)
  | inr _ => None
  end.

Definition transmissions (l : list Dispatch) : list (Z * string) :=
  omap transmitted l.

(* ===================================================================== *)
(** ** A concrete deployment, for examples *)
(* ===================================================================== *)

Module Scenario.

(** 2024-02-15T00:00:00Z and 2024-02-01T00:00:00Z, 2024-03-01T00:00:00Z. *)
Definition feb15 : Z := 1707955200000.
Definition feb01 : Z := 1706745600000.
Definition mar01 : Z := 1709251200000.

Definition template (daysBefore : Z) : Template :=
  mkTemplate (reminder_label daysBefore)
    (fun info => mi_subscriptionName info +:+ " renews in "
                 +:+ pretty daysBefore +:+ " days")
    (fun info => "<p>" +:+ mi_planName info +:+ " renews on "
                 +:+ mi_renewalDate info +:+ "</p>").

Definition recipient (data : MailData) : string :=
  match data with
  | options m => mail_to m
  | receipt i => envelope_to i
  end.

Definition accept (t : Z) (data : MailData) : SentMessageInfo + string :=
  inl (mkInfo accountEmail (recipient data) ("<" +:+ pretty t +:+ "@mail>")
         "250 2.0.0 OK").

(** A server on UTC whose host wakes runs on time, whose steps take no
    time, whose transport accepts everything and whose store nobody else
    writes to. *)
Definition punctual : Env :=
  mkEnv 0 pretty (fun _ t => pretty t) (map template [7; 5; 3; 1])
    accept (fun _ _ date => date) (fun _ t => t) (fun _ _ st => st).

Definition ada : User :=
  mkUser (Some "ada") (Some "ada@example.com") (Some "$2a$10$hash").

Definition netflix (st : Status) (renewal : Z) : Subscription string :=
  mkSubscription "s1" "Netflix Premium" "15.99" monthly USD Streaming
    "Credit Card ending in 1234" st 1705276800000 (Some renewal) "u1".

Definition shop (st : Status) (renewal : Z) : Store :=
  mkStore {[ "s1" := netflix st renewal ]} {[ "u1" := ada ]}.

Definition go : Trigger :=
  mkTrigger "http://localhost:5500/api/v1/workflows/send-reminders" "s1" 0.

(** The same deployment, but somebody cancels the subscription on
    2024-02-05, while the run is parked. *)
Definition feb05 : Z := 1707091200000.

Definition cancel (st : Store) : Store :=
  mkStore ((fun s => with_status s cancelled) <$> subscriptions st)
    (users st).

Definition meddled : Env :=
  mkEnv 0 pretty (fun _ t => pretty t) (map template [7; 5; 3; 1])
    accept (fun _ _ date => date) (fun _ t => t)
    (fun t t' st => if (t <? feb05) && (feb05 <=? t') then cancel st else st).

(** The same deployment with the transport down. *)
Definition offline : Env :=
  mkEnv 0 pretty (fun _ t => pretty t) (map template [7; 5; 3; 1])
    (fun _ _ => inr "ECONNREFUSED") (fun _ _ date => date) (fun _ t => t)
    (fun _ _ st => st).

(** The stored subscription as the first step returns it. *)
Definition snapshot (st : Status) (renewal : Z) : Subscription (option User) :=
  with_user (netflix st renewal) (Some (select_name_email ada)).

(** The same deployment with a template table for 7, 5, 2 and 1 days,
    the intervals the README lists. *)
Definition readme : Env :=
  mkEnv 0 pretty (fun _ t => pretty t) (map template [7; 5; 2; 1])
    accept (fun _ _ date => date) (fun _ t => t) (fun _ _ st => st).

End Scenario.

(* ===================================================================== *)
(** ** The life of a run, and counts over it *)
(* ===================================================================== *)

(** How many reminder mails the transport has accepted so far. *)
Definition delivered_count (w : World) : nat :=
  length (reminder_log (outbox w)).

(** How many of the reminder steps are on record. *)
Definition recorded_reminders (w : World) : nat :=
  sum_list (map (fun n => if decide (is_Some (steps w !! reminder_label n))
                          then 1%nat else 0%nat) reminders).

(** What can become of a run's world: the handler is invoked on it (a
    first time, after a sleep, again after a failure), and time passes
    between invocations. *)
Inductive lifetime `{Env} (id : string) (w0 : World) : World -> Prop :=
| lifetime_begin : lifetime id w0 w0
| lifetime_invoke w : lifetime id w0 w -> lifetime id w0 (sendReminders id w).2
| lifetime_wait w t : lifetime id w0 w -> lifetime id w0 (elapse t w).

(** A delivery is matched by a reminder step that went on record. *)
Definition accounted (w w' : World) : Prop :=
  (delivered_count w' + recorded_reminders w
   <= delivered_count w + recorded_reminders w')%nat /\
  (forall k, is_Some (steps w !! k) -> is_Some (steps w' !! k)).

(** What a step function may do to the counts: leave the record alone,
    and deliver one mail if it succeeds, none if it throws. *)
Definition delivers_on_success (fn : M Value) : Prop :=
  forall w,
    steps (fn w).2 = steps w /\
    match (fn w).1 with
    | Ok _ => delivered_count (fn w).2 = S (delivered_count w)
    | Throw _ => delivered_count (fn w).2 = delivered_count w
    end.

(* ===================================================================== *)
(** ** Requests, replies and the middlewares *)
(* ===================================================================== *)

(** The error object handed to [next]: its message and, when the code
    sets one, its [statusCode]. *)
Record HttpError := mkHttpError {
  error_message : string;
  statusCode : option nat;
}.

(** [data] of a JSON reply. *)
Inductive Data :=
| one (s : Subscription string)
| many (l : list (Subscription string)).

(** What a handler does with a request: [res.status(..).json(..)], or
    [next(error)]. *)
Inductive Reply :=
| res_json (status : nat) (success : bool) (message : string) (data : Data)
    (workflowRunId : option string)
| next (error : HttpError).

(** JavaScript values as far as [===] tells them apart: a string is never
    identical to an object, and two objects only when they are the same
    object. *)
Inductive JsValue :=
| js_undefined
| js_string (s : string)
| js_object (address : positive).

Definition strict_equal (a b : JsValue) : bool :=
  match a, b with
  | js_undefined, js_undefined => true
  | js_string x, js_string y => String.eqb x y
  | js_object p, js_object q => Pos.eqb p q
  | _, _ => false
  end.

(** An [ObjectId] is an object; [toHexString] spells the id it stands
    for. *)
Record ObjectId := mkObjectId {
  address : positive;
  toHexString : string;
}.

(** [req.params.id] as a value. *)
Definition param (p : option string) : JsValue :=
  match p with
  | Some s => js_string s
  | None => js_undefined
  end.

(** A request as the handlers see it: [req.params.id], [req.user._id] (put
    there by [authorizeUser]) and [req.body]. *)
Record Request (B : Type) := mkRequest {
  params_id : option string;
  user_id : ObjectId;
  body : B;
}.

Arguments mkRequest {B}.
Arguments params_id {B}.
Arguments user_id {B}.
Arguments body {B}.

(** *** middlewares/arcjet.middleware.js *)

Inductive Reason := rateLimit | bot | anotherReason.

Inductive Decision := allowed | denied (reason : Reason).

(** [protected] is what [aj.protect] gave: a decision, or the error it
    threw.  [None] stands for [next()]; the line the [catch] block logs is
    left out. *)
Definition arcjetMiddleware (protected : Decision + string)
  : option HttpError :=
  match protected with
  | inl allowed => None
  | inl (denied rateLimit) => Some (mkHttpError "Rate limit exceeded" (Some 429%nat))
  | inl (denied bot) => Some (mkHttpError "Bot detected" (Some 403%nat))
  | inl (denied anotherReason) => Some (mkHttpError "Access denied" (Some 403%nat))
  | inr e => Some (mkHttpError e None)
  end.

(** *** middlewares/auth.middleware.js *)

(** The character [" "]. *)
Definition space : Ascii.ascii := Ascii.ascii_of_nat 32.

(** [s.split(c)] for a one-character separator. *)
Fixpoint split (c : Ascii.ascii) (s : string) : list string :=
  match s with
  | EmptyString => [EmptyString]
  | String a s' =>
      if Ascii.eqb a c then EmptyString :: split c s'
      else match split c s' with
           | x :: xs => String a x :: xs
           | [] => [String a EmptyString]
           end
  end.

(** What the middleware leaves behind: [req.user] set and [next()], or
    [next(error)]. *)
Inductive Authorization :=
| authorized (_id : ObjectId) (u : User)
| refused (error : HttpError).

(** [verify] stands for [jwt.verify(token, JWT_SECRET)]: the [id] of the
    decoded payload (if it has one), or the error thrown.  [fresh] is the
    address of the [ObjectId] of the loaded user document.  Ids are
    well-formed throughout: the [CastError] of a lookup by a string that is
    no [ObjectId] is not modelled. *)
Definition authorizeUser (verify : string -> option string + string)
    (fresh : positive) (authorization : option string) (st : Store)
  : Authorization :=
  let token :=
    match authorization with
    | Some header =>
        if truthy (Some header) && String.prefix "Bearer" header
        then split space header !! 1%nat
        else None
    | None => None
    end in
  if negb (truthy token)
  then refused (mkHttpError "Unauthorized" (Some 401%nat))
  else
    match token with
    | Some token =>
        match verify token with
        | inr e => refused (mkHttpError e None)
        | inl decoded_id =>
            match decoded_id ≫= (fun id => (fun u => (id, u)) <$> users st !! id) with
            | None => refused (mkHttpError "Unauthorized" (Some 401%nat))
            | Some (id, user) => authorized (mkObjectId fresh id) user
            end
        end
    | None => refused (mkHttpError "Unauthorized" (Some 401%nat))
    end.

(* ===================================================================== *)
(** ** controllers/subscription.controller.js as request handlers *)
(* ===================================================================== *)

(** The body of a PUT: for each path, whether the body sets it and to
    what.  Bodies give values of the schema's types. *)
Record Patch := mkPatch {
  set_name : option string;
  set_price : option string;
  set_frequency : option Frequency;
  set_currency : option Currency;
  set_category : option Category;
  set_paymentMethod : option string;
  set_status : option Status;
  set_startDate : option Z;
  set_renewalDate : option Z;
  set_user : option string;
}.

(** The document [findByIdAndUpdate] leaves: the paths of the body set,
    the others kept.  No validator and no [save] hook runs. *)
Definition updated (p : Patch) (s : Subscription string) : Subscription string :=
  mkSubscription (sub_id s)
    (default (name s) (set_name p))
    (default (price s) (set_price p))
    (default (frequency s) (set_frequency p))
    (default (currency s) (set_currency p))
    (default (category s) (set_category p))
    (default (paymentMethod s) (set_paymentMethod p))
    (default (status s) (set_status p))
    (default (startDate s) (set_startDate p))
    (match set_renewalDate p with
     | Some r => Some r
     | None => renewalDate s
     end)
    (default (user s) (set_user p)).

(** [Subscription.find({ user })]. *)
Definition find_by_user (st : Store) (uid : string) : list (Subscription string) :=
  filter (fun s => user s = uid) (map snd (map_to_list (subscriptions st))).

(** What creating a subscription needs from outside: Mongoose's schema
    validation of the new document ([Some] a validation error), the id
    the store gives it, and the workflow client ([inl] the run id). *)
Record Outside := mkOutside {
  validation : Z -> Subscription string -> option string;
  newId : Store -> string;
  trigger : Trigger -> string + string;
  SERVER_URL : string;
}.

(** The document [Subscription.create] hands back: the body with its
    owner, given its id by the store and passed through the [save] hook. *)
Definition new_document (today : Z) (id : string) (body : Subscription string)
    (uid : string) : Subscription string :=
  pre_save today
    (mkSubscription id (name body) (price body) (frequency body)
       (currency body) (category body) (paymentMethod body) (status body)
       (startDate body) (renewalDate body) uid).

Module Handlers.

Definition createSubscription (out : Outside) (today : Z)
    (req : Request (Subscription string)) (st : Store) : Reply * Store :=
  let id := newId out st in
  let uid := toHexString (user_id req) in
  match validation out today (with_user (body req) uid) with
  | Some error => (next (mkHttpError error None), st)
  | None =>
      let (st', tr) :=
        stored_and_triggered (SERVER_URL out) today id (body req) uid st in
      match trigger out tr with
      | inr error => (next (mkHttpError error None), st')
      | inl workflowRunId =>
          (res_json 201 true "Subscription created successfully"
             (one (new_document today id (body req) uid)) (Some workflowRunId),
           st')
      end
  end.

Definition getUserSubscriptions {B} (req : Request B) (st : Store) : Reply :=
  if negb (truthy (params_id req))
  then next (mkHttpError "Subscription ID is required" (Some 400%nat))
  else if negb (strict_equal (param (params_id req))
                  (js_object (address (user_id req))))
  then next (mkHttpError "Unauthorized" (Some 401%nat))
  else res_json 200 true "Subscriptions fetched successfully"
         (many (find_by_user st (toHexString (user_id req)))) None.

Definition getSubscription {B} (req : Request B) (st : Store) : Reply :=
  match params_id req with
  | Some id =>
      if negb (truthy (Some id))
      then next (mkHttpError "Subscription ID is required" (Some 400%nat))
      else
        match subscriptions st !! id with
        | None => next (mkHttpError "Subscription not found" (Some 404%nat))
        | Some subscription =>
            res_json 200 true "Subscription fetched successfully"
              (one subscription) None
        end
  | None => next (mkHttpError "Subscription ID is required" (Some 400%nat))
  end.

Definition updateSubscription (req : Request Patch) (st : Store)
  : Reply * Store :=
  match params_id req with
  | Some id =>
      if negb (truthy (Some id))
      then (next (mkHttpError "Subscription ID is required" (Some 400%nat)), st)
      else
        match subscriptions st !! id with
        | None =>
            (next (mkHttpError "Subscription not found" (Some 404%nat)), st)
        | Some old =>
            let subscription := updated (body req) old in
            (res_json 200 true "Subscription updated successfully"
               (one subscription) None,
             mkStore (<[id := subscription]> (subscriptions st)) (users st))
        end
  | None =>
      (next (mkHttpError "Subscription ID is required" (Some 400%nat)), st)
  end.

Definition deleteSubscription {B} (req : Request B) (st : Store)
  : Reply * Store :=
  match params_id req with
  | Some id =>
      if negb (truthy (Some id))
      then (next (mkHttpError "Subscription ID is required" (Some 400%nat)), st)
      else
        match subscriptions st !! id with
        | None =>
            (next (mkHttpError "Subscription not found" (Some 404%nat)), st)
        | Some subscription =>
            (res_json 200 true "Subscription deleted successfully"
               (one subscription) None,
             mkStore (delete id (subscriptions st)) (users st))
        end
  | None =>
      (next (mkHttpError "Subscription ID is required" (Some 400%nat)), st)
  end.

End Handlers.

(** *** app.js and routes/subscription.routes.js: a route of the
    subscription router behind the two middlewares *)

Definition behind_middlewares {B} (verify : string -> option string + string)
    (fresh : positive) (protected : Decision + string)
    (authorization : option string) (params : option string) (payload : B)
    (handler : Request B -> Store -> Reply * Store) (st : Store)
  : Reply * Store :=
  match arcjetMiddleware protected with
  | Some error => (next error, st)
  | None =>
      match authorizeUser verify fresh authorization st with
      | refused error => (next error, st)
      | authorized _id _ => handler (mkRequest params _id payload) st
      end
  end.

(** [POST /api/v1/subscriptions] *)
Definition post_subscription (out : Outside) (today : Z)
    (verify : string -> option string + string) (fresh : positive)
    (protected : Decision + string) (authorization : option string)
    (payload : Subscription string) (st : Store) : Reply * Store :=
  behind_middlewares verify fresh protected authorization None payload
    (Handlers.createSubscription out today) st.

(** [DELETE /api/v1/subscriptions/:id] *)
Definition delete_subscription (verify : string -> option string + string)
    (fresh : positive) (protected : Decision + string)
    (authorization : option string) (id : string) (st : Store)
  : Reply * Store :=
  behind_middlewares verify fresh protected authorization (Some id) tt
    Handlers.deleteSubscription st.

(** A string without the character [" "]. *)
Fixpoint spaceless (s : string) : bool :=
  match s with
  | EmptyString => true
  | String a s' => negb (Ascii.eqb a space) && spaceless s'
  end.

(* ===================================================================== *)
(** ** More of the concrete deployment, for examples *)
(* ===================================================================== *)

Module Desk.

Import Scenario.

(** 2024-02-11T00:00:00Z, 2024-01-15T00:00:00Z and 2024-01-16T00:00:00Z. *)
Definition feb11 : Z := 1707609600000.
Definition jan15 : Z := 1705276800000.
Definition jan16 : Z := 1705363200000.

(** The subscription with no renewal date, and the one whose owner is
    gone. *)
Definition undated : Store :=
  mkStore {[ "s1" := with_renewalDate (netflix active feb15) None ]}
    {[ "u1" := ada ]}.

Definition orphaned : Store :=
  mkStore {[ "s1" := netflix active feb15 ]} ∅.

(** A transport that rejects the five-day reminder. *)
Definition flaky : Env :=
  mkEnv 0 pretty (fun _ t => pretty t) (map template [7; 5; 3; 1])
    (fun t data =>
       match data with
       | options m =>
           if String.eqb (mail_subject m) "Netflix Premium renews in 5 days"
           then inr "EENVELOPE" else accept t data
       | receipt _ => accept t data
       end)
    (fun _ _ date => date) (fun _ t => t) (fun _ _ st => st).

(** A store with a user and no subscription yet, and the body of a
    request that creates one. *)
Definition vacant : Store := mkStore ∅ {[ "u1" := ada ]}.

Definition wanted : Subscription string :=
  with_user (with_renewalDate (netflix active feb15) None) "somebody else".

(** A validation that checks the two dates as the validators of the schema
    do: the start date is not after today, and a renewal date that is
    given is rejected (the validator reads [this.startDate] in an arrow
    function, where [this] is not the document). *)
Definition dates_checked (today : Z) (doc : Subscription string)
  : option string :=
  if today <? startDate doc then Some "Start date must be in the past"
  else match renewalDate doc with
       | Some _ => Some "Renewal date must be after start date"
       | None => None
       end.

Definition outside : Outside :=
  mkOutside dates_checked (fun _ => "s1") (fun _ => inl "wfr_1")
    "http://localhost:5500".

Definition unreachable_workflow : Outside :=
  mkOutside dates_checked (fun _ => "s1") (fun _ => inr "fetch failed")
    "http://localhost:5500".

(** A transport that accepts the reminders, except the one-day reminder,
    and rejects every info object it is handed as a message. *)
Definition picky : Env :=
  mkEnv 0 pretty (fun _ t => pretty t) (map template [7; 5; 3; 1])
    (fun t data =>
       match data with
       | options m =>
           if String.eqb (mail_subject m) "Netflix Premium renews in 1 days"
           then inr "EENVELOPE" else accept t data
       | receipt _ => inr "No recipients defined"
       end)
    (fun _ _ date => date) (fun _ t => t) (fun _ _ st => st).

(** The store with other usernames and passwords. *)
Definition disguise (u : User) : User :=
  mkUser (Some "somebody") (email u) (Some "changed").

Definition verify (token : string) : option string + string :=
  if String.eqb token "good" then inl (Some "u1")
  else inr "JsonWebTokenError: invalid signature".

Definition caller : ObjectId := mkObjectId 1 "u1".
Definition stranger : ObjectId := mkObjectId 2 "u9".

Definition cancelling : Patch :=
  mkPatch None None None None None None (Some cancelled) None None None.

Definition reviving : Patch :=
  mkPatch None None None None None None (Some active) None
    (Some jan15) None.

End Desk.


(* ===================================================================== *)
(** * Properties *)
(* ===================================================================== *)

(** ** Calendar days *)

Ltac day_arith :=
  unfold Dayjs.isSame_day, Dayjs.endOf_day, Dayjs.startOf_day, Dayjs.day_of,
    Dayjs.subtract_day, Dayjs.setDate_plus, Dayjs.isBefore, Dayjs.isAfter,
    Dayjs.day_ms in *;
  Z.to_euclidean_division_equations; lia.

Section DayjsFacts.
Import Dayjs.
Variable off : Z.

Lemma isSame_day_iff a b :
  isSame_day off a b = true <-> day_of off a = day_of off b.
Proof.
  unfold isSame_day. rewrite andb_true_iff, !Z.leb_le. day_arith.
Qed.

Lemma isSame_day_false a b :
  isSame_day off a b = false <-> day_of off a <> day_of off b.
Proof.
  rewrite <- isSame_day_iff. destruct (isSame_day off a b); naive_solver.
Qed.

Lemma day_of_mono a b : a <= b -> day_of off a <= day_of off b.
Proof. day_arith. Qed.

(** An instant on the calendar day of [r], not before [r], is less than
    a day after [r]. *)
Lemma same_day_close r t :
  day_of off t = day_of off r -> r <= t -> t < r + day_ms.
Proof. day_arith. Qed.

(** A full day later is a later calendar day. *)
Lemma day_of_next r t : r + day_ms <= t -> day_of off r < day_of off t.
Proof. day_arith. Qed.

Lemma subtract_day_spaced d n m :
  m + 2 <= n -> subtract_day d n + 2 * day_ms <= subtract_day d m.
Proof. day_arith. Qed.
End DayjsFacts.

(** ** Steps of the host *)

Ltac run_M :=
  repeat (progress (unfold mbind, M_bind, mret, M_ret, dayjs, console_log,
                      throw; simpl)).

Section HostFacts.
Context `{Env}.

Lemma bind_Ok {A B} (m : M A) (f : A -> M B) w a w' :
  m w = (Ok a, w') -> (m ≫= f) w = f a w'.
Proof. unfold mbind, M_bind. by intros ->. Qed.

Lemma bind_Throw {A B} (m : M A) (f : A -> M B) w e w' :
  m w = (Throw e, w') -> (m ≫= f) w = (Throw e, w').
Proof. unfold mbind, M_bind. by intros ->. Qed.

Lemma attempt_Ok {A} n (fn : M A) w a w' :
  fn w = (Ok a, w') -> attempt n fn w = (Ok a, w').
Proof. destruct n; simpl; by intros ->. Qed.

Lemma attempt_0 {A} (fn : M A) w : attempt 0 fn w = fn w.
Proof. simpl. by destruct (fn w) as [[a|e] w']. Qed.

(** A recorded step is replayed: its function does not run. *)
Lemma context_run_replay stepName fn w v :
  steps w !! stepName = Some v -> context_run stepName fn w = (Ok v, w).
Proof. unfold context_run. by intros ->. Qed.

Lemma context_sleepUntil_replay stepName date w v :
  steps w !! stepName = Some v ->
  context_sleepUntil stepName date w = (Ok v, w).
Proof. unfold context_sleepUntil. by intros ->. Qed.

Lemma truthy_Some s : truthy (Some s) = true <-> s <> "".
Proof.
  unfold truthy. rewrite negb_true_iff. apply String.eqb_neq.
Qed.

(** What one successful reminder step does to the world. *)
Lemma triggerReminder_sends lbl s owner to tpl info w :
  user s = Some owner ->
  email owner = Some to ->
  to <> "" ->
  lbl <> "" ->
  template_for lbl = Some tpl ->
  steps w !! lbl = None ->
  smtp (now w)
    (options (composed tpl s owner to (default (now w) (renewalDate s))))
    = inl info ->
  exists w',
    triggerReminder lbl s w = (Ok undefined, w') /\
    now w' = Z.max (now w) (step_end lbl (now w)) /\
    steps w' = <[lbl := undefined]> (steps w) /\
    retries w' = retries w /\
    queries w' = queries w /\
    outbox w' = outbox w ++
      [mkDispatch (now w)
         (options (composed tpl s owner to (default (now w) (renewalDate s))))
         (inl info);
       mkDispatch (now w) (receipt info) (smtp (now w) (receipt info))].
Proof.
  intros Hu He Hto Hl Ht Hs Hm.
  apply truthy_Some in Hto. apply truthy_Some in Hl.
  unfold template_for in Ht. unfold composed in Hm.
  unfold triggerReminder, context_run, console_log, sendReminderEmail,
    sendMail_await, sendMail_callback, dayjs, mbind, M_bind, mret, M_ret.
  simpl. rewrite Hs, Hu, He. simpl.
  rewrite attempt_Ok with (a := undefined)
    (w' := (let w1 := printed (Log ("Triggering " +:+ lbl +:+ " reminder")) w in
            let d1 := mkDispatch (now w)
              (options (composed tpl s owner to (default (now w) (renewalDate s))))
              (inl info) in
            let d2 := mkDispatch (now w) (receipt info)
              (smtp (now w) (receipt info)) in
            match smtp (now w) (receipt info) with
            | inl i => printed (Log ("Email sent successfully: " +:+ response i))
                         (dispatched d2 (dispatched d1 w1))
            | inr e => printed (Uncaught "Failed to send email")
                         (printed (Error ("Error sending email: " +:+ e))
                            (dispatched d2 (dispatched d1 w1)))
            end)).
  - eexists; split; [reflexivity|].
    destruct (smtp (now w) (receipt info)); simpl;
      rewrite <- ?app_assoc; done.
  - unfold truthy in *. rewrite Hto, Hl. simpl. rewrite Ht. simpl.
    unfold composed. rewrite Hm. simpl.
    by destruct (smtp (now w) (receipt info)).
Qed.
End HostFacts.

(** ** The loop over the thresholds *)

Section LoopFacts.
Context `{Env}.
Import Dayjs.
Local Arguments sleep_label : simpl never.
Local Arguments reminder_label : simpl never.
Local Arguments Z.max : simpl never.

Lemma reminder_label_nonempty n : reminder_label n <> "".
Proof. unfold reminder_label. by destruct (pretty n). Qed.

Lemma labels_reminders_NoDup : NoDup (labels reminders).
Proof. apply (bool_decide_unpack _). by vm_compute. Qed.

Lemma reminders_spaced : spaced reminders.
Proof. simpl. lia. Qed.

(** An iteration that starts before its reminder date: the run is parked,
    woken on the day, and the reminder step runs once. *)
Lemma remind_on_schedule n s owner to tpl D w :
  prompt -> brisk -> accepting ->
  user s = Some owner -> email owner = Some to -> to <> "" ->
  renewalDate s = Some D ->
  template_for (reminder_label n) = Some tpl ->
  steps w !! sleep_label n = None ->
  steps w !! reminder_label n = None ->
  sleep_label n <> reminder_label n ->
  now w < subtract_day D n ->
  exists w' t info,
    remind s D n w = (Ok tt, w') /\
    subtract_day D n <= t /\
    day_of utcOffset t = day_of utcOffset (subtract_day D n) /\
    t <= now w' < subtract_day D n + 2 * day_ms /\
    steps w' = <[reminder_label n := undefined]>
                 (<[sleep_label n := undefined]> (steps w)) /\
    retries w' = retries w /\
    queries w' = queries w /\
    outbox w' = outbox w ++
      [mkDispatch t (options (composed tpl s owner to D)) (inl info);
       mkDispatch t (receipt info) (smtp t (receipt info))].
Proof.
  intros Hp Hb Ha Hu He Hto HD Ht Hs1 Hs2 Hne Hnow.
  set (r := subtract_day D n) in *.
  set (t := Z.max r (wake (sleep_label n) (now w) r)).
  set (w1 := record (sleep_label n) undefined
               (elapse t (printed
                  (Log ("Sleeping until " +:+ sleep_label n
                        +:+ " reminder at " +:+ toUTCString r)) w))).
  assert (Hday : day_of utcOffset t = day_of utcOffset r) by by apply Hp.
  assert (Hrt : r <= t) by (subst t; lia).
  assert (Hnow1 : now w1 = t) by (subst w1; simpl; lia).
  destruct (Ha t (composed tpl s owner to D)) as [info Hinfo].
  destruct (triggerReminder_sends (reminder_label n) s owner to tpl info w1)
    as (w' & Hrun & Hnow' & Hsteps & Hret & Hq & Hout); auto.
  { apply reminder_label_nonempty. }
  { subst w1. simpl. by rewrite lookup_insert_ne. }
  { by rewrite Hnow1, HD. }
  exists w', t, info. split.
  - unfold remind. fold r.
    unfold isAfter. run_M.
    destruct (Z.ltb_spec (now w) r); [|lia]. run_M.
    unfold sleepUntilReminder, context_sleepUntil. run_M.
    rewrite Hs1. fold t. fold w1. rewrite Hnow1.
    assert (isSame_day utcOffset t r = true) as -> by by apply isSame_day_iff.
    by rewrite Hrun.
  - rewrite Hnow1, HD in *. simpl in Hout.
    pose proof (Hb (reminder_label n) t).
    pose proof (same_day_close _ _ _ Hday Hrt).
    repeat split; try done; lia.
Qed.
End LoopFacts.

Section ScheduleFacts.
Context `{Env}.
Import Dayjs.
Local Arguments sleep_label : simpl never.
Local Arguments reminder_label : simpl never.

Lemma reminder_log_app l1 l2 :
  reminder_log (l1 ++ l2) = reminder_log l1 ++ reminder_log l2.
Proof. apply omap_app. Qed.

(** Thresholds at least two days apart, all still ahead: every one of
    them gets its reminder, on its day, in the order of the list. *)
Lemma forOf_on_schedule s owner to D ns :
  prompt -> brisk -> accepting ->
  user s = Some owner -> email owner = Some to -> to <> "" ->
  renewalDate s = Some D ->
  (forall n, n ∈ ns -> is_Some (template_for (reminder_label n))) ->
  spaced ns ->
  NoDup (labels ns) ->
  forall w,
    Forall (fun k => steps w !! k = None) (labels ns) ->
    match ns with n :: _ => now w < subtract_day D n | [] => True end ->
    exists w' entries,
      forOf ns (remind s D) w = (Ok tt, w') /\
      Forall2 (due s owner to D) ns entries /\
      reminder_log (outbox w') = reminder_log (outbox w) ++ entries /\
      length (outbox w') = (length (outbox w) + 2 * length ns)%nat /\
      queries w' = queries w /\
      (forall k, is_Some (steps w !! k) \/ k ∈ labels ns ->
                 is_Some (steps w' !! k)).
Proof.
  intros Hp Hb Ha Hu He Hto HD.
  induction ns as [|n ns IH]; intros Ht Hsp Hnd w Hfresh Hnow.
  - exists w, []. simpl. rewrite app_nil_r, Nat.add_0_r.
    repeat split; try constructor.
    intros k [Hk|Hk]; [done|by apply elem_of_nil in Hk].
  - simpl in Hnd, Hfresh.
    apply NoDup_cons in Hnd as [Hn1 Hnd]. apply NoDup_cons in Hnd as [Hn2 Hnd].
    apply Forall_cons in Hfresh as [Hf1 Hfresh].
    apply Forall_cons in Hfresh as [Hf2 Hfresh].
    destruct (Ht n) as [tpl Htpl]; [by left|].
    destruct (remind_on_schedule n s owner to tpl D w)
      as (w1 & t & info & Hrun & Hrt & Hday & Hnow1 & Hsteps & Hret & Hq & Hout);
      auto.
    { intros Heq. apply Hn1. rewrite Heq. by left. }
    destruct (IH (fun m Hm => Ht m (list_elem_of_further _ _ _ Hm))
                ltac:(by destruct ns as [|m ns]; [|destruct Hsp]) Hnd w1)
      as (w' & entries & Hrun' & Hdue & Hlog & Hlen & Hq' & Hrec).
    { rewrite Hsteps. rewrite Forall_forall in Hfresh.
      apply Forall_forall. intros k Hk.
      rewrite !lookup_insert_ne; [by apply Hfresh|..]; intros <-;
        [apply Hn1; by right | by apply Hn2]. }
    { destruct ns as [|m ns]; [done|]. destruct Hsp as [Hgap _].
      pose proof (subtract_day_spaced D n m Hgap). lia. }
    exists w', ((t, composed tpl s owner to D) :: entries).
    split; [|split; [|split; [|split; [|split]]]].
    + simpl. by erewrite bind_Ok.
    + constructor; [|done]. repeat split; try done. by exists tpl.
    + rewrite Hlog, Hout, reminder_log_app. simpl.
      by rewrite <- app_assoc.
    + rewrite Hlen, Hout, length_app. simpl. lia.
    + congruence.
    + intros k Hk. apply Hrec. rewrite Hsteps.
      destruct (decide (k = reminder_label n)) as [->|Hk1];
        [left; rewrite lookup_insert_eq; by eexists|].
      destruct (decide (k = sleep_label n)) as [->|Hk2];
        [left; rewrite lookup_insert_ne, lookup_insert_eq by done;
         by eexists|].
      rewrite !lookup_insert_ne by done.
      destruct Hk as [Hk|Hk]; [by left|right].
      simpl in Hk. by repeat (apply elem_of_cons in Hk as [?|Hk]; [done|]).
Qed.

(** The same loop, with everything the transport is handed: two messages
    for every threshold. *)
Lemma forOf_sends_twice s owner to D ns :
  prompt -> brisk -> accepting ->
  user s = Some owner -> email owner = Some to -> to <> "" ->
  renewalDate s = Some D ->
  (forall n, n ∈ ns -> is_Some (template_for (reminder_label n))) ->
  spaced ns ->
  NoDup (labels ns) ->
  forall w,
    Forall (fun k => steps w !! k = None) (labels ns) ->
    match ns with n :: _ => now w < subtract_day D n | [] => True end ->
    exists w' ls,
      forOf ns (remind s D) w = (Ok tt, w') /\
      Forall2 (sent_twice s owner to D) ns ls /\
      outbox w' = outbox w ++ concat ls.
Proof.
  intros Hp Hb Ha Hu He Hto HD.
  induction ns as [|n ns IH]; intros Ht Hsp Hnd w Hfresh Hnow.
  - exists w, []. simpl. rewrite app_nil_r. repeat split. constructor.
  - simpl in Hnd, Hfresh.
    apply NoDup_cons in Hnd as [Hn1 Hnd]. apply NoDup_cons in Hnd as [Hn2 Hnd].
    apply Forall_cons in Hfresh as [Hf1 Hfresh].
    apply Forall_cons in Hfresh as [Hf2 Hfresh].
    destruct (Ht n) as [tpl Htpl]; [by left|].
    destruct (remind_on_schedule n s owner to tpl D w)
      as (w1 & t & info & Hrun & Hrt & Hday & Hnow1 & Hsteps & _ & _ & Hout);
      auto.
    { intros Heq. apply Hn1. rewrite Heq. by left. }
    destruct (IH (fun m Hm => Ht m (list_elem_of_further _ _ _ Hm))
                ltac:(by destruct ns as [|m ns]; [|destruct Hsp]) Hnd w1)
      as (w' & ls & Hrun' & Htwice & Hout').
    { rewrite Hsteps. rewrite Forall_forall in Hfresh.
      apply Forall_forall. intros k Hk.
      rewrite !lookup_insert_ne; [by apply Hfresh|..]; intros <-;
        [apply Hn1; by right | by apply Hn2]. }
    { destruct ns as [|m ns]; [done|]. destruct Hsp as [Hgap _].
      pose proof (subtract_day_spaced D n m Hgap). lia. }
    exists w',
      ([mkDispatch t (options (composed tpl s owner to D)) (inl info);
        mkDispatch t (receipt info) (smtp t (receipt info))] :: ls).
    split; [|split].
    + simpl. by erewrite bind_Ok.
    + constructor; [|done]. by exists t, tpl, info.
    + rewrite Hout', Hout. simpl. by rewrite <- app_assoc.
Qed.
End ScheduleFacts.

(** ** The run as a whole *)

Section RunFacts.
Context `{Env}.
Import Dayjs.
Local Arguments sleep_label : simpl never.
Local Arguments reminder_label : simpl never.
Local Arguments reminders : simpl never.

(** The first step of a run that has not recorded it yet: one query. *)
Lemma fetchSubscription_fresh id w :
  steps w !! "get subscription" = None ->
  fetchSubscription id w =
    (Ok (fetched (store w) id),
     record "get subscription" (fetched (store w) id)
       (elapse (step_end "get subscription" (now w))
          (asked (FindById_populate id) w))).
Proof.
  intros Hs. unfold fetchSubscription, context_run. rewrite Hs.
  by rewrite attempt_Ok with (a := fetched (store w) id)
    (w' := asked (FindById_populate id) w).
Qed.

(** A run under way before the first reminder date, in surroundings that
    let it execute continuously. *)
Lemma run_on_schedule tr t0 st s owner to D :
  prompt -> brisk -> accepting ->
  (forall n, n ∈ reminders -> is_Some (template_for (reminder_label n))) ->
  findById_populate st (body_subscriptionId tr) = Some s ->
  status s = active ->
  renewalDate s = Some D ->
  user s = Some owner -> email owner = Some to -> to <> "" ->
  Z.max t0 (step_end "get subscription" t0) < subtract_day D 7 ->
  exists w' entries,
    serve tr t0 st = (Ok tt, w') /\
    Forall2 (due s owner to D) reminders entries /\
    reminder_log (outbox w') = entries /\
    length (outbox w') = 8%nat /\
    (forall k, k ∈ "get subscription" :: labels reminders ->
               is_Some (steps w' !! k)).
Proof.
  intros Hp Hb Ha Ht Hfind Hact HD Hu He Hto Hstart.
  set (w1 := record "get subscription" (document s)
               (elapse (step_end "get subscription" t0)
                  (asked (FindById_populate (body_subscriptionId tr))
                     (start tr t0 st)))).
  destruct (forOf_on_schedule s owner to D reminders Hp Hb Ha Hu He Hto HD Ht
              reminders_spaced labels_reminders_NoDup w1)
    as (w' & entries & Hrun & Hdue & Hlog & Hlen & _ & Hrec).
  { subst w1. simpl. repeat constructor; by vm_compute. }
  { done. }
  exists w', entries. split; [|split; [done|split; [done|split; [done|]]]].
  - unfold serve, sendReminders.
    erewrite bind_Ok; [|by apply fetchSubscription_fresh]. simpl.
    unfold fetched. rewrite Hfind. fold w1.
    destruct (decide (status s = active)); [|done].
    run_M. rewrite HD. simpl. unfold isBefore.
    destruct (Z.ltb_spec D (Z.max t0 (step_end "get subscription" t0)));
      [day_arith|done].
  - intros k Hk. apply Hrec.
    apply elem_of_cons in Hk as [->|Hk]; [left|by right].
    subst w1. simpl. rewrite lookup_insert_eq. by eexists.
Qed.

(** The run of [run_on_schedule], with everything the transport is
    handed. *)
Lemma run_sends_twice tr t0 st s owner to D :
  prompt -> brisk -> accepting ->
  (forall n, n ∈ reminders -> is_Some (template_for (reminder_label n))) ->
  findById_populate st (body_subscriptionId tr) = Some s ->
  status s = active ->
  renewalDate s = Some D ->
  user s = Some owner -> email owner = Some to -> to <> "" ->
  Z.max t0 (step_end "get subscription" t0) < subtract_day D 7 ->
  exists w' ls,
    serve tr t0 st = (Ok tt, w') /\
    Forall2 (sent_twice s owner to D) reminders ls /\
    outbox w' = concat ls.
Proof.
  intros Hp Hb Ha Ht Hfind Hact HD Hu He Hto Hstart.
  set (w1 := record "get subscription" (document s)
               (elapse (step_end "get subscription" t0)
                  (asked (FindById_populate (body_subscriptionId tr))
                     (start tr t0 st)))).
  destruct (forOf_sends_twice s owner to D reminders Hp Hb Ha Hu He Hto HD Ht
              reminders_spaced labels_reminders_NoDup w1)
    as (w' & ls & Hrun & Htwice & Hout).
  { subst w1. simpl. repeat constructor; by vm_compute. }
  { done. }
  exists w', ls. split; [|split; [done|exact Hout]].
  unfold serve, sendReminders.
  erewrite bind_Ok; [|by apply fetchSubscription_fresh]. simpl.
  unfold fetched. rewrite Hfind. fold w1.
  destruct (decide (status s = active)); [|done].
  run_M. rewrite HD. simpl. unfold isBefore.
  destruct (Z.ltb_spec D (Z.max t0 (step_end "get subscription" t0)));
    [day_arith|done].
Qed.

(** C1.  An active subscription renews at [D] and its owner has an
    e-mail address.  The run has loaded the subscription before
    [D - 7 days] and from then on executes continuously: the host wakes it
    on the calendar day it was parked for, a step lasts less than a day,
    the transport accepts the mails, and every threshold's label has a
    template.  Then the run ends normally, and what it has handed the
    transport is, for the thresholds 7, 5, 3, 1 in this order and for each
    on the calendar day [D - n days]: the reminder composed from the
    template of the threshold's label, and at the same instant a second
    message, the info object of that send.  The schedule is the claim's;
    the number of sends is not: eight, two for every threshold, where the
    claim has exactly four, none more than once. *)
Theorem reminders_on_schedule tr t0 st s owner to D :
  prompt -> brisk -> accepting ->
  (forall n, n ∈ reminders -> is_Some (template_for (reminder_label n))) ->
  findById_populate st (body_subscriptionId tr) = Some s ->
  status s = active ->
  renewalDate s = Some D ->
  user s = Some owner -> email owner = Some to -> to <> "" ->
  Z.max t0 (step_end "get subscription" t0) < subtract_day D 7 ->
  exists w' l7 l5 l3 l1,
    serve tr t0 st = (Ok tt, w') /\
    outbox w' = l7 ++ l5 ++ l3 ++ l1 /\
    sent_twice s owner to D 7 l7 /\ sent_twice s owner to D 5 l5 /\
    sent_twice s owner to D 3 l3 /\ sent_twice s owner to D 1 l1 /\
    length (outbox w') = 8%nat.
Proof.
  intros Hp Hb Ha Ht Hfind Hact HD Hu He Hto Hstart.
  destruct (run_sends_twice tr t0 st s owner to D)
    as (w' & ls & Hrun & Htwice & Hout); auto.
  unfold reminders in Htwice.
  repeat match goal with
         | Hd : Forall2 _ (_ :: _) _ |- _ =>
             apply Forall2_cons_inv_l in Hd as (? & ? & ? & Hd & ->)
         | Hd : Forall2 _ [] _ |- _ => apply Forall2_nil_inv_l in Hd as ->
         end.
  simpl in Hout. rewrite app_nil_r in Hout.
  match goal with
  | _ : outbox _ = ?a ++ ?b ++ ?c ++ ?d |- _ => exists w', a, b, c, d
  end.
  split; [done|]. split; [done|].
  repeat split; try done.
  rewrite Hout.
  repeat match goal with
         | Hd : sent_twice _ _ _ _ _ _ |- _ =>
             destruct Hd as (? & ? & ? & _ & _ & _ & ->)
         end.
  reflexivity.
Qed.
End RunFacts.

(** ** One threshold *)

Section ThresholdFacts.
Context `{Env}.
Import Dayjs.
Local Arguments sleep_label : simpl never.
Local Arguments reminder_label : simpl never.
Local Arguments Z.max : simpl never.

Lemma labels_differ n : n ∈ reminders -> sleep_label n <> reminder_label n.
Proof.
  unfold reminders. intros Hn.
  repeat (apply elem_of_cons in Hn as [->|Hn]; [by vm_compute|]).
  by apply elem_of_nil in Hn.
Qed.

Lemma sleepUntilReminder_fresh lbl date w :
  steps w !! lbl = None ->
  sleepUntilReminder lbl date w =
    (Ok undefined,
     record lbl undefined
       (elapse (Z.max date (wake lbl (now w) date))
          (printed (Log ("Sleeping until " +:+ lbl +:+ " reminder at "
                         +:+ toUTCString date)) w))).
Proof.
  intros Hs. unfold sleepUntilReminder, context_sleepUntil. run_M.
  by rewrite Hs.
Qed.

(** C3.  One pass of the loop, for a threshold [n] of [reminders] whose two
    steps are not on record yet.  The reminder date is [D - n days].  A
    sleep step is recorded exactly when the reminder date is strictly
    after the current instant, and the run then resumes no earlier than
    the reminder date.  With [t] the instant after resuming (the current
    instant if the run did not sleep): the reminder step is recorded
    exactly when [t] is on the calendar day of the reminder date.  If it
    is, the transport is handed two messages at [t]: the reminder composed
    for [n]'s label, and then the info object of that send; the claim has
    exactly one.  If [t] is on another day, the transport is handed
    nothing; so a threshold whose day has passed is skipped.  In every case
    the pass ends normally and the loop goes on. *)
Theorem remind_one_threshold n s owner to tpl D w :
  n ∈ reminders ->
  accepting ->
  user s = Some owner -> email owner = Some to -> to <> "" ->
  renewalDate s = Some D ->
  template_for (reminder_label n) = Some tpl ->
  steps w !! sleep_label n = None ->
  steps w !! reminder_label n = None ->
  let reminderDate := D - n * day_ms in
  let t := if decide (now w < reminderDate)
           then Z.max reminderDate (wake (sleep_label n) (now w) reminderDate)
           else now w in
  exists w',
    remind s D n w = (Ok tt, w') /\
    (is_Some (steps w' !! sleep_label n) <-> now w < reminderDate) /\
    (now w < reminderDate -> reminderDate <= now w') /\
    (is_Some (steps w' !! reminder_label n)
     <-> day_of utcOffset t = day_of utcOffset reminderDate) /\
    (day_of utcOffset t = day_of utcOffset reminderDate ->
       exists info,
         outbox w' = outbox w ++
           [mkDispatch t (options (composed tpl s owner to D)) (inl info);
            mkDispatch t (receipt info) (smtp t (receipt info))]) /\
    (day_of utcOffset t <> day_of utcOffset reminderDate ->
       outbox w' = outbox w) /\
    (day_of utcOffset reminderDate < day_of utcOffset t ->
       outbox w' = outbox w).
Proof.
  intros Hn Ha Hu He Hto HD Ht Hs1 Hs2 r t.
  pose proof (labels_differ n Hn) as Hne.
  assert (Hr : subtract_day D n = r) by done.
  set (w1 := if decide (now w < r)
             then record (sleep_label n) undefined
                    (elapse (Z.max r (wake (sleep_label n) (now w) r))
                       (printed (Log ("Sleeping until " +:+ sleep_label n
                          +:+ " reminder at " +:+ toUTCString r)) w))
             else w).
  assert (Hnow1 : now w1 = t).
  { subst w1 t. destruct (decide (now w < r)); simpl; lia. }
  assert (Hs2' : steps w1 !! reminder_label n = None).
  { subst w1. destruct (decide (now w < r)); simpl; [|done].
    by rewrite lookup_insert_ne. }
  assert (Hout1 : outbox w1 = outbox w).
  { subst w1. by destruct (decide (now w < r)). }
  assert (Hsl1 : is_Some (steps w1 !! sleep_label n) <-> now w < r).
  { subst w1. destruct (decide (now w < r)); simpl.
    - rewrite lookup_insert_eq. naive_solver.
    - rewrite Hs1. split; [by intros [? ?]|done]. }
  assert (Hpre : forall k : unit -> M unit,
             (t' ← dayjs None;
              (if isAfter r t'
               then sleepUntilReminder (sleep_label n) r;; mret tt
               else mret tt);; k tt) w = k tt w1).
  { intros k. unfold isAfter. run_M. subst w1.
    destruct (decide (now w < r)), (Z.ltb_spec (now w) r); try lia.
    - run_M. by rewrite sleepUntilReminder_fresh.
    - done. }
  unfold remind. rewrite Hr.
  rewrite (Hpre (fun _ => t' ← dayjs None;
                   if isSame_day utcOffset t' r
                   then triggerReminder (reminder_label n) s;; mret tt
                   else mret tt)).
  run_M. rewrite Hnow1.
  destruct (isSame_day utcOffset t r) eqn:Hsame.
  - apply isSame_day_iff in Hsame.
    destruct (Ha t (composed tpl s owner to D)) as [info Hinfo].
    destruct (triggerReminder_sends (reminder_label n) s owner to tpl info w1)
      as (w' & Hrun & Hnow' & Hsteps & _ & _ & Hout); auto.
    { apply reminder_label_nonempty. }
    { by rewrite Hnow1, HD. }
    exists w'. rewrite Hrun. split; [done|].
    rewrite Hnow1, HD, Hout1 in *. simpl in Hout.
    split; [|split; [|split; [|split; [|split]]]].
    + rewrite Hsteps, lookup_insert_ne by done. apply Hsl1.
    + intros Hlt. subst t. destruct (decide (now w < r)); lia.
    + split; [done|]. intros _. rewrite Hsteps, lookup_insert_eq.
      by eexists.
    + intros _. by exists info.
    + done.
    + lia.
  - apply isSame_day_false in Hsame.
    exists w1. split; [done|].
    split; [apply Hsl1|]. split; [|split; [|split; [|split]]]; try done.
    + intros Hlt. rewrite Hnow1. subst t.
      destruct (decide (now w < r)); lia.
    + rewrite Hs2'. split; [by intros [? ?]|done].
Qed.
End ThresholdFacts.

(** ** What a run leaves alone *)

Section Frame.
Context `{Env} (R : World -> World -> Prop) `{!PreOrder R}.
Hypothesis R_elapse : forall t w, R w (elapse t w).
Hypothesis R_record : forall k v w, R w (record k v w).
Hypothesis R_printed : forall l w, R w (printed l w).
Hypothesis R_dispatched : forall d w, R w (dispatched d w).

Lemma keeps_ret {A} (a : A) : keeps R (mret a).
Proof. intros w. reflexivity. Qed.

Lemma keeps_throw {A} e : keeps R (@throw A e).
Proof. intros w. reflexivity. Qed.

Lemma keeps_bind {A B} (m : M A) (f : A -> M B) :
  keeps R m -> (forall a, keeps R (f a)) -> keeps R (m ≫= f).
Proof.
  intros Hm Hf w. unfold mbind, M_bind. specialize (Hm w).
  destruct (m w) as [[a|e] w1]; simpl in *; [|done].
  etrans; [exact Hm|apply Hf].
Qed.

Lemma keeps_console_log s : keeps R (console_log s).
Proof. intros w. apply R_printed. Qed.

Lemma keeps_dayjs d : keeps R (dayjs d).
Proof. intros w. reflexivity. Qed.

Lemma keeps_attempt {A} n (fn : M A) : keeps R fn -> keeps R (attempt n fn).
Proof.
  intros Hfn. induction n as [|n IH]; intros w; simpl; specialize (Hfn w);
    destruct (fn w) as [[a|e] w1]; simpl in *; try done.
  etrans; [exact Hfn|apply IH].
Qed.

Lemma keeps_context_run stepName fn :
  keeps R fn -> keeps R (context_run stepName fn).
Proof.
  intros Hfn w. unfold context_run.
  destruct (steps w !! stepName); [reflexivity|].
  pose proof (keeps_attempt (retries w) fn Hfn w) as Ha.
  destruct (attempt (retries w) fn w) as [[v|e] w1]; simpl in *; [|done].
  etrans; [exact Ha|]. etrans; [apply R_elapse|apply R_record].
Qed.

Lemma keeps_context_sleepUntil stepName date :
  keeps R (context_sleepUntil stepName date).
Proof.
  intros w. unfold context_sleepUntil.
  destruct (steps w !! stepName); [reflexivity|]. simpl.
  etrans; [apply R_elapse|apply R_record].
Qed.

Lemma keeps_sendMail_await data : keeps R (sendMail_await data).
Proof.
  intros w. unfold sendMail_await.
  destruct (smtp (now w) data); apply R_dispatched.
Qed.

Lemma keeps_sendReminderEmail to type subscription :
  keeps R (sendReminderEmail to type subscription).
Proof.
  unfold sendReminderEmail.
  destruct (_ || _); [apply keeps_throw|].
  destruct to as [to|], type as [type|], subscription as [| |s];
    try apply keeps_throw.
  destruct (find _ _) as [template|]; [|apply keeps_throw].
  destruct (user s) as [owner|]; [|apply keeps_throw].
  apply keeps_bind; [apply keeps_dayjs|]. intros renewal.
  apply keeps_bind; [apply keeps_sendMail_await|]. intros info.
  apply keeps_bind; [|intros; apply keeps_ret].
  intros w. unfold sendMail_callback. simpl.
  destruct (smtp (now w) (receipt info)); simpl.
  - etrans; [apply R_dispatched|apply R_printed].
  - etrans; [apply R_dispatched|]. etrans; apply R_printed.
Qed.

Lemma keeps_triggerReminder lbl s : keeps R (triggerReminder lbl s).
Proof.
  unfold triggerReminder.
  apply keeps_bind; [apply keeps_console_log|]. intros _.
  apply keeps_context_run.
  destruct (user s); [apply keeps_sendReminderEmail|apply keeps_throw].
Qed.

Lemma keeps_remind s D n : keeps R (remind s D n).
Proof.
  unfold remind.
  apply keeps_bind; [apply keeps_dayjs|]. intros t.
  apply keeps_bind.
  { destruct (Dayjs.isAfter _ _); [|apply keeps_ret].
    apply keeps_bind; [|intros; apply keeps_ret].
    apply keeps_bind; [apply keeps_console_log|]. intros _.
    apply keeps_context_sleepUntil. }
  intros _. apply keeps_bind; [apply keeps_dayjs|]. intros t'.
  destruct (Dayjs.isSame_day _ _ _); [|apply keeps_ret].
  apply keeps_bind; [apply keeps_triggerReminder|intros; apply keeps_ret].
Qed.

Lemma keeps_forOf {A} (xs : list A) body :
  (forall x, keeps R (body x)) -> keeps R (forOf xs body).
Proof.
  intros Hb. induction xs as [|x xs IH]; simpl; [apply keeps_ret|].
  apply keeps_bind; [apply Hb|]. by intros _.
Qed.

(** Everything the handler does once the subscription is in hand. *)
Lemma keeps_after_fetch id subscription :
  keeps R
    (match subscription with
     | document s =>
         if decide (status s = active) then
           renewalDate ← dayjs (renewalDate s);
           t ← dayjs None;
           if Dayjs.isBefore renewalDate t
           then console_log "Subscription is expired"
           else forOf reminders (remind s renewalDate)
         else stopping id
     | _ => stopping id
     end).
Proof.
  destruct subscription as [| |s]; try apply keeps_console_log.
  destruct (decide _); [|apply keeps_console_log].
  apply keeps_bind; [apply keeps_dayjs|]. intros D.
  apply keeps_bind; [apply keeps_dayjs|]. intros t.
  destruct (Dayjs.isBefore _ _); [apply keeps_console_log|].
  apply keeps_forOf. intros n. apply keeps_remind.
Qed.
End Frame.

Section FrameInstances.
Context `{Env}.

#[local] Instance same_db_preorder : PreOrder same_db.
Proof.
  split.
  - by intros w.
  - intros w1 w2 w3 [Hq1 Hs1] [Hq2 Hs2]. split; [congruence|].
    intros Hu. by rewrite Hs2, Hs1.
Qed.

#[local] Instance outbox_grows_preorder : PreOrder outbox_grows.
Proof.
  split.
  - intros w. exists []. by rewrite app_nil_r.
  - intros w1 w2 w3 [l1 H1] [l2 H2]. exists (l1 ++ l2).
    by rewrite H2, H1, app_assoc.
Qed.

Lemma same_db_after_fetch id subscription w :
  same_db w
    ((match subscription with
      | document s =>
          if decide (status s = active) then
            renewalDate ← dayjs (renewalDate s);
            t ← dayjs None;
            if Dayjs.isBefore renewalDate t
            then console_log "Subscription is expired"
            else forOf reminders (remind s renewalDate)
          else stopping id
      | _ => stopping id
      end) w).2.
Proof.
  apply (keeps_after_fetch same_db); try done.
  intros t w0. split; [done|]. intros Hu. simpl. apply Hu.
Qed.

Lemma outbox_grows_sendReminders id : keeps outbox_grows (sendReminders id).
Proof.
  assert (Hd : forall d w, outbox_grows w (dispatched d w))
    by (intros d w; by exists [d]).
  assert (Hrefl : forall w w', outbox w' = outbox w -> outbox_grows w w')
    by (intros w w' Heq; exists []; by rewrite app_nil_r).
  unfold sendReminders. apply keeps_bind; try apply _.
  - unfold fetchSubscription. apply keeps_context_run; try apply _; auto.
    intros w. by apply Hrefl.
  - intros v. apply keeps_after_fetch; try apply _; auto.
Qed.
End FrameInstances.

(** ** Runs that stop at the guard, and what a run asks of the store *)

Section GuardFacts.
Context `{Env}.
Import Dayjs.

Lemma serve_unfold tr t0 st :
  serve tr t0 st =
    (match fetched st (body_subscriptionId tr) with
     | document s =>
         if decide (status s = active) then
           renewalDate ← dayjs (renewalDate s);
           t ← dayjs None;
           if isBefore renewalDate t
           then console_log "Subscription is expired"
           else forOf reminders (remind s renewalDate)
         else stopping (body_subscriptionId tr)
     | _ => stopping (body_subscriptionId tr)
     end)
      (record "get subscription" (fetched st (body_subscriptionId tr))
         (elapse (step_end "get subscription" t0)
            (asked (FindById_populate (body_subscriptionId tr))
               (start tr t0 st)))).
Proof.
  unfold serve, sendReminders.
  erewrite bind_Ok; [|by apply fetchSubscription_fresh]. done.
Qed.

Lemma serve_queries tr t0 st :
  queries (serve tr t0 st).2 = [FindById_populate (body_subscriptionId tr)].
Proof.
  rewrite serve_unfold.
  match goal with
  | |- context [ (?m ?w).2 ] =>
      destruct (same_db_after_fetch (body_subscriptionId tr)
                  (fetched st (body_subscriptionId tr)) w) as [Hq _]
  end.
  by rewrite Hq.
Qed.

(** C4.  When the store has no subscription under the run's id, or has
    one whose status is not [active], the run ends at once and normally:
    no error, nothing handed to the transport, no sleep (the only step on
    record is the fetch), and the clock where the fetch left it. *)
Theorem inactive_or_absent_stops tr t0 st :
  (findById_populate st (body_subscriptionId tr) = None \/
   exists s, findById_populate st (body_subscriptionId tr) = Some s /\
             status s <> active) ->
  exists w',
    serve tr t0 st = (Ok tt, w') /\
    outbox w' = [] /\
    steps w' = {[ "get subscription" := fetched st (body_subscriptionId tr) ]} /\
    now w' = Z.max t0 (step_end "get subscription" t0).
Proof.
  intros Hcase. rewrite serve_unfold. unfold fetched.
  destruct Hcase as [->|(s & -> & Hs)].
  - eexists. split; [reflexivity|]. done.
  - destruct (decide (status s = active)); [done|].
    eexists. split; [reflexivity|]. done.
Qed.

(** C5.  When the subscription's renewal date is before the instant the
    run starts at, the run ends normally with nothing handed to the
    transport and no step on record but the fetch. *)
Theorem past_renewal_stops tr t0 st s D :
  findById_populate st (body_subscriptionId tr) = Some s ->
  renewalDate s = Some D ->
  D < t0 ->
  exists w',
    serve tr t0 st = (Ok tt, w') /\
    outbox w' = [] /\
    steps w' = {[ "get subscription" := document s ]}.
Proof.
  intros Hfind HD Hpast. rewrite serve_unfold. unfold fetched.
  rewrite Hfind.
  destruct (decide (status s = active)).
  - run_M. rewrite HD. simpl. unfold isBefore.
    destruct (Z.ltb_spec D (Z.max t0 (step_end "get subscription" t0)));
      [|lia].
    eexists. split; [reflexivity|]. done.
  - eexists. split; [reflexivity|]. done.
Qed.

(** C8.  A run asks the store exactly one thing, in its first step and
    before anything is handed to the transport: the subscription by id,
    with the owner's [name] and [email] populated.  The query is a read,
    no other query follows until the run is over, whatever its outcome, and
    unless another actor writes to it the store is at the end what it was
    at the start. *)
Theorem run_reads_once tr t0 st :
  exists v w1,
    fetchSubscription (body_subscriptionId tr) (start tr t0 st) = (Ok v, w1) /\
    queries w1 = [FindById_populate (body_subscriptionId tr)] /\
    outbox w1 = [] /\
    queries (serve tr t0 st).2 = queries w1 /\
    forallb is_read (queries (serve tr t0 st).2) = true /\
    (undisturbed -> store (serve tr t0 st).2 = st).
Proof.
  eexists _, _. split; [by apply fetchSubscription_fresh|].
  rewrite serve_unfold.
  match goal with
  | |- context [ (?m ?w).2 ] =>
      destruct (same_db_after_fetch (body_subscriptionId tr)
                  (fetched st (body_subscriptionId tr)) w) as [Hq Hs]
  end.
  repeat split; try done.
  - by rewrite Hq.
  - intros Hu. rewrite (Hs Hu). simpl. apply Hu.
Qed.
End GuardFacts.

(** ** A failing transport *)

Section FailureFacts.
Context `{Env}.

Lemma stored_and_triggered_retries url today newId body uid st :
  trigger_retries (stored_and_triggered url today newId body uid st).2 = 0%nat.
Proof. reflexivity. Qed.

(** C7.  A run started by [createSubscription]'s trigger, hence with zero
    retries, reaches a reminder step.  There are two sends the transport
    can report a failure for.  When it rejects the first, the awaited one,
    the step throws the transport's error; the mail was offered once and
    not again; the step is not recorded; and the transport log of the
    earlier steps is still there, unchanged: what the claim says.  When it
    accepts the first and rejects the second, the failure is logged and
    thrown inside the callback, where it fails nothing: the step returns
    normally and is recorded as complete, against the claim. *)
Theorem only_the_awaited_send_fails_the_step
    url today newId body uid st0 lbl s owner to tpl w :
  retries w
    = trigger_retries (stored_and_triggered url today newId body uid st0).2 ->
  user s = Some owner -> email owner = Some to -> to <> "" ->
  lbl <> "" ->
  template_for lbl = Some tpl ->
  steps w !! lbl = None ->
  let reminder :=
    options (composed tpl s owner to (default (now w) (renewalDate s))) in
  (forall e,
     smtp (now w) reminder = inr e ->
     exists w',
       triggerReminder lbl s w = (Throw e, w') /\
       outbox w' = outbox w ++ [mkDispatch (now w) reminder (inr e)] /\
       steps w' = steps w) /\
  (forall info e,
     smtp (now w) reminder = inl info ->
     smtp (now w) (receipt info) = inr e ->
     exists w',
       triggerReminder lbl s w = (Ok undefined, w') /\
       steps w' = <[lbl := undefined]> (steps w) /\
       outbox w' = outbox w ++
         [mkDispatch (now w) reminder (inl info);
          mkDispatch (now w) (receipt info) (inr e)] /\
       console w' = console w ++
         [Log ("Triggering " +:+ lbl +:+ " reminder");
          Error ("Error sending email: " +:+ e);
          Uncaught "Failed to send email"]).
Proof.
  intros Hr Hu He Hto Hl Ht Hs reminder. simpl in Hr.
  apply truthy_Some in Hto. apply truthy_Some in Hl.
  unfold template_for in Ht. subst reminder. unfold composed.
  split.
  - intros e Hm.
    unfold triggerReminder, context_run. run_M.
    rewrite Hs, Hr, Hu, He. rewrite attempt_0.
    unfold sendReminderEmail. unfold truthy in *. rewrite Hto, Hl. simpl.
    rewrite Ht, Hu. unfold sendMail_await. run_M. rewrite Hm.
    eexists. split; [reflexivity|]. by simpl.
  - intros info e Hm Hrec.
    unfold triggerReminder, context_run, console_log, sendReminderEmail,
      sendMail_await, sendMail_callback, dayjs, mbind, M_bind, mret, M_ret.
    simpl. rewrite Hs, Hu, He. simpl.
    rewrite attempt_Ok with (a := undefined)
      (w' := (let w1 := printed (Log ("Triggering " +:+ lbl +:+ " reminder")) w in
              let d1 := mkDispatch (now w)
                (options (composed tpl s owner to
                            (default (now w) (renewalDate s))))
                (inl info) in
              let d2 := mkDispatch (now w) (receipt info) (inr e) in
              printed (Uncaught "Failed to send email")
                (printed (Error ("Error sending email: " +:+ e))
                   (dispatched d2 (dispatched d1 w1))))).
    + eexists; split; [reflexivity|]. simpl.
      rewrite <- !app_assoc. done.
    + unfold truthy in *. rewrite Hto, Hl. simpl. rewrite Ht. simpl.
      rewrite Hm. simpl. by rewrite Hrec.
Qed.
End FailureFacts.

(** ** The save hook and the mail helper's guards *)

Section HookFacts.
Import Dayjs.

(** C9.  After the [pre("save")] hook: a renewal date that was unset is the
    start date plus the period of the frequency (daily 1, weekly 7,
    monthly 30, yearly 365 days); one that was set is kept; if the renewal
    date is before the current instant the status is [expired]; so no
    document leaves the hook [active] with a renewal date in the past. *)
Theorem pre_save_establishes {U} (today : Z) (this : Subscription U) :
  let saved := pre_save today this in
  (renewalDate this = None ->
     renewalDate saved =
       Some (startDate this
             + match frequency this with
               | daily => 1 | weekly => 7 | monthly => 30 | yearly => 365
               end * day_ms)) /\
  (forall r, renewalDate this = Some r -> renewalDate saved = Some r) /\
  (forall r, renewalDate saved = Some r -> r < today ->
     status saved = expired) /\
  ~ (status saved = active /\
     exists r, renewalDate saved = Some r /\ r < today).
Proof.
  intros saved. subst saved. unfold pre_save.
  destruct (renewalDate this) as [r0|] eqn:Hr0.
  - rewrite Hr0. destruct (Z.ltb_spec r0 today) as [Hlt|Hge].
    + simpl. rewrite Hr0. repeat split; try done. by intros [? _].
    + rewrite Hr0. repeat split; try done.
      * intros r [= <-] ?. lia.
      * intros [_ (r & [= <-] & ?)]. lia.
  - simpl. unfold setDate_plus.
    assert (Hp : renewalPeriods (frequency this)
                 = match frequency this with
                   | daily => 1 | weekly => 7 | monthly => 30 | yearly => 365
                   end) by done.
    rewrite <- Hp.
    destruct (Z.ltb_spec (startDate this
                + renewalPeriods (frequency this) * day_ms) today)
      as [Hlt|Hge]; simpl.
    + repeat split; try done. by intros [? _].
    + repeat split; try done.
      * intros r [= <-] ?. lia.
      * intros [_ (r & [= <-] & ?)]. lia.
Qed.
End HookFacts.

Section GuardsOfTheMailHelper.
Context `{Env}.

(** C10.  [sendReminderEmail] throws "Missing required fields" when the
    recipient, the type label or the subscription is missing, and throws
    "Invalid template type" when all three are there but no template has
    the label; in both cases the world is left as it was, so nothing has
    been handed to the transport. *)
Theorem sendReminderEmail_guards to type subscription w :
  (truthy to = false \/ truthy type = false \/ present subscription = false ->
     sendReminderEmail to type subscription w
     = (Throw "Missing required fields", w)) /\
  (forall label,
     truthy to = true -> type = Some label -> label <> "" ->
     present subscription = true ->
     template_for label = None ->
     sendReminderEmail to type subscription w
     = (Throw "Invalid template type", w)).
Proof.
  split.
  - intros Hmiss. unfold sendReminderEmail.
    destruct Hmiss as [-> | [-> | ->]]; simpl; rewrite ?orb_true_r; done.
  - intros lbl Hto -> Hl Hp Ht. apply truthy_Some in Hl.
    unfold sendReminderEmail. rewrite Hto, Hl, Hp. simpl.
    destruct to as [to|]; [|done]. destruct subscription as [| |s]; try done.
    unfold template_for in Ht. by rewrite Ht.
Qed.
End GuardsOfTheMailHelper.

(** ** What a run cannot see: later contents of the store *)

Section Blind.
Variables E1 E2 : Env.
Hypothesis Hhost : same_host E1 E2.

Ltac agreed :=
  repeat match goal with
         | Ha : agree _ _ |- _ =>
             destruct Ha as (? & ? & ? & ? & ? & ?)
         end;
  unfold agree; simpl; repeat split; congruence.

Lemma alike_ret {A} (a : A) : alike (mret a) (mret a).
Proof. intros w1 w2 Ha. by split. Qed.

Lemma alike_throw {A} e : alike (@throw A e) (@throw A e).
Proof. intros w1 w2 Ha. by split. Qed.

Lemma alike_bind {A B} (m1 m2 : M A) (f1 f2 : A -> M B) :
  alike m1 m2 -> (forall a, alike (f1 a) (f2 a)) ->
  alike (m1 ≫= f1) (m2 ≫= f2).
Proof.
  intros Hm Hf w1 w2 Ha. unfold mbind, M_bind.
  destruct (Hm w1 w2 Ha) as [Ho Hw].
  destruct (m1 w1) as [[a1|e1] w1'], (m2 w2) as [[a2|e2] w2'];
    simpl in *; simplify_eq; [by apply Hf|done].
Qed.

Lemma alike_console_log s : alike (console_log s) (console_log s).
Proof. intros w1 w2 Ha. split; [done|]. agreed. Qed.

Lemma alike_dayjs d : alike (dayjs d) (dayjs d).
Proof.
  intros w1 w2 Ha. unfold dayjs. simpl. split; [|done].
  destruct Ha as (-> & _). done.
Qed.

Lemma agree_elapse t w1 w2 :
  agree w1 w2 -> agree (@elapse E1 t w1) (@elapse E2 t w2).
Proof. intros Ha. agreed. Qed.

Lemma agree_record k v w1 w2 :
  agree w1 w2 -> agree (record k v w1) (record k v w2).
Proof. intros Ha. agreed. Qed.

Lemma alike_attempt {A} n (fn1 fn2 : M A) :
  alike fn1 fn2 -> alike (attempt n fn1) (attempt n fn2).
Proof.
  intros Hfn. induction n as [|n IH]; intros w1 w2 Ha; simpl;
    destruct (Hfn w1 w2 Ha) as [Ho Hw];
    destruct (fn1 w1) as [[a1|e1] w1'], (fn2 w2) as [[a2|e2] w2'];
    simpl in *; simplify_eq; try done.
  by apply IH.
Qed.

Lemma alike_context_run stepName fn1 fn2 :
  alike fn1 fn2 ->
  alike (@context_run E1 stepName fn1) (@context_run E2 stepName fn2).
Proof.
  intros Hfn w1 w2 Ha. unfold context_run.
  destruct Hhost as (_ & _ & _ & _ & _ & _ & Hend).
  pose proof Ha as (Hnow & Hret & Hsteps & _).
  rewrite Hsteps, Hret, Hnow, Hend.
  destruct (steps w2 !! stepName); [done|].
  destruct (alike_attempt (retries w2) fn1 fn2 Hfn w1 w2 Ha) as [Ho Hw].
  destruct (attempt _ fn1 w1) as [[a1|e1] w1'],
           (attempt _ fn2 w2) as [[a2|e2] w2'];
    simpl in *; simplify_eq; [|done].
  split; [done|]. by apply agree_record, agree_elapse.
Qed.

Lemma alike_context_sleepUntil stepName date :
  alike (@context_sleepUntil E1 stepName date)
        (@context_sleepUntil E2 stepName date).
Proof.
  intros w1 w2 Ha. unfold context_sleepUntil.
  destruct Hhost as (_ & _ & _ & _ & _ & Hwake & _).
  pose proof Ha as (Hnow & _ & Hsteps & _).
  rewrite Hsteps, Hnow, Hwake.
  destruct (steps w2 !! stepName); [done|].
  split; [done|]. by apply agree_record, agree_elapse.
Qed.

Lemma alike_sendReminderEmail to type subscription :
  alike (@sendReminderEmail E1 to type subscription)
        (@sendReminderEmail E2 to type subscription).
Proof.
  unfold sendReminderEmail.
  destruct Hhost as (_ & _ & Hfmt & Htpl & Hsmtp & _).
  rewrite Htpl, Hfmt.
  destruct (_ || _); [apply alike_throw|].
  destruct to as [to|], type as [type|], subscription as [| |s];
    try apply alike_throw.
  destruct (find _ _) as [template|]; [|apply alike_throw].
  destruct (user s) as [owner|]; [|apply alike_throw].
  apply alike_bind; [apply alike_dayjs|]. intros renewal.
  apply alike_bind.
  { intros w1 w2 Ha. unfold sendMail_await. rewrite Hsmtp.
    pose proof Ha as (-> & _).
    destruct (smtp _ _); (split; [done|agreed]). }
  intros info. apply alike_bind; [|intros; apply alike_ret].
  intros w1 w2 Ha. unfold sendMail_callback. rewrite Hsmtp.
  pose proof Ha as (-> & _). simpl.
  destruct (smtp _ _); (split; [done|agreed]).
Qed.

Lemma alike_remind s D n : alike (@remind E1 s D n) (@remind E2 s D n).
Proof.
  unfold remind, sleepUntilReminder, triggerReminder.
  destruct Hhost as (Hoff & Hstr & _). rewrite Hoff, Hstr.
  apply alike_bind; [apply alike_dayjs|]. intros t.
  apply alike_bind.
  { destruct (Dayjs.isAfter _ _); [|apply alike_ret].
    apply alike_bind; [|intros; apply alike_ret].
    apply alike_bind; [apply alike_console_log|]. intros _.
    apply alike_context_sleepUntil. }
  intros _. apply alike_bind; [apply alike_dayjs|]. intros t'.
  destruct (Dayjs.isSame_day _ _ _); [|apply alike_ret].
  apply alike_bind; [|intros; apply alike_ret].
  apply alike_bind; [apply alike_console_log|]. intros _.
  apply alike_context_run.
  destruct (user s); [apply alike_sendReminderEmail|apply alike_throw].
Qed.

Lemma alike_forOf {A} (xs : list A) body1 body2 :
  (forall x, alike (body1 x) (body2 x)) ->
  alike (forOf xs body1) (forOf xs body2).
Proof.
  intros Hb. induction xs as [|x xs IH]; simpl; [apply alike_ret|].
  apply alike_bind; [apply Hb|]. by intros _.
Qed.

(** C6, as the code has it.  A run reads the subscription from the store
    once, in its first step, and works from that snapshot afterwards:
    two runs from the same start, in surroundings that differ only in
    what other actors do to the store meanwhile (a cancellation, say),
    ask the store the same single query, end with the same outcome and
    hand the transport the same messages. *)
Theorem snapshot_decides_the_run tr t0 st :
  queries (@serve E1 tr t0 st).2 = [FindById_populate (body_subscriptionId tr)] /\
  queries (@serve E2 tr t0 st).2 = [FindById_populate (body_subscriptionId tr)] /\
  (@serve E1 tr t0 st).1 = (@serve E2 tr t0 st).1 /\
  outbox (@serve E1 tr t0 st).2 = outbox (@serve E2 tr t0 st).2.
Proof.
  split; [apply serve_queries|]. split; [apply serve_queries|].
  rewrite !serve_unfold.
  match goal with
  | |- (?m1 ?a).1 = (?m2 ?b).1 /\ _ =>
      assert (Hal : alike m1 m2);
      [|assert (Hag : agree a b);
        [|destruct (Hal a b Hag) as [Ho Hw]]]
  end.
  - destruct (fetched _ _) as [| |s]; try apply alike_console_log.
    destruct (decide _); [|apply alike_console_log].
    apply alike_bind; [apply alike_dayjs|]. intros D.
    apply alike_bind; [apply alike_dayjs|]. intros t.
    destruct (Dayjs.isBefore _ _); [apply alike_console_log|].
    apply alike_forOf, alike_remind.
  - destruct Hhost as (_ & _ & _ & _ & _ & _ & ->).
    by apply agree_record, agree_elapse.
  - split; [done|]. by destruct Hw as (_ & _ & _ & _ & ? & _).
Qed.
End Blind.

(** ** Replaying a run *)

Section Replay.
Context `{Env}.
Local Arguments sleep_label : simpl never.
Local Arguments reminder_label : simpl never.

(** An iteration whose steps are both on record sends nothing and
    records nothing. *)
Lemma remind_replay s D n w :
  is_Some (steps w !! sleep_label n) ->
  is_Some (steps w !! reminder_label n) ->
  exists w',
    remind s D n w = (Ok tt, w') /\
    outbox w' = outbox w /\ steps w' = steps w /\ queries w' = queries w.
Proof.
  intros [v1 Hv1] [v2 Hv2]. unfold remind. run_M.
  unfold sleepUntilReminder, triggerReminder, context_sleepUntil,
    context_run.
  destruct (Dayjs.isAfter _ _); run_M; rewrite ?Hv1; simpl;
    destruct (Dayjs.isSame_day _ _ _); run_M; rewrite ?Hv2; simpl;
    eexists; (split; [reflexivity|done]).
Qed.

Lemma forOf_replay s D ns :
  forall w,
    (forall k, k ∈ labels ns -> is_Some (steps w !! k)) ->
    exists w',
      forOf ns (remind s D) w = (Ok tt, w') /\
      outbox w' = outbox w /\ steps w' = steps w /\ queries w' = queries w.
Proof.
  induction ns as [|n ns IH]; intros w Hrec.
  - by exists w.
  - destruct (remind_replay s D n w) as (w1 & Hrun & Ho & Hs & Hq).
    { apply Hrec. simpl. by left. }
    { apply Hrec. simpl. right. by left. }
    destruct (IH w1) as (w' & Hrun' & Ho' & Hs' & Hq').
    { intros k Hk. rewrite Hs. apply Hrec. simpl. by do 2 right. }
    exists w'. simpl. erewrite bind_Ok by exact Hrun.
    repeat split; congruence.
Qed.

(** Memoisation: a handler invocation that finds every step of the run
    on record hands nothing to the transport and asks the store
    nothing. *)
Lemma replay_is_silent id w :
  (forall k, k ∈ "get subscription" :: labels reminders ->
             is_Some (steps w !! k)) ->
  exists w',
    sendReminders id w = (Ok tt, w') /\
    outbox w' = outbox w /\ queries w' = queries w.
Proof.
  intros Hrec.
  destruct (Hrec "get subscription") as [v Hv]; [by left|].
  unfold sendReminders, fetchSubscription.
  erewrite bind_Ok by (by apply context_run_replay).
  destruct v as [| |s]; try (eexists; split; [reflexivity|done]).
  destruct (decide _); [|eexists; split; [reflexivity|done]].
  run_M. destruct (Dayjs.isBefore _ _);
    [eexists; split; [reflexivity|done]|].
  destruct (forOf_replay s (default (now w) (renewalDate s)) reminders w)
    as (w' & Hrun & Ho & _ & Hq).
  { intros k Hk. apply Hrec. by right. }
  by exists w'.
Qed.

(** X7.  Idempotence under replay: when the run of [run_on_schedule] is
    over, invoking the handler again on the world it left ends normally and
    transmits nothing: the outbox, with its four reminders, is as the run
    left it. *)
Lemma completed_run_replays_silently tr t0 st s owner to D :
  prompt -> brisk -> accepting ->
  (forall n, n ∈ reminders -> is_Some (template_for (reminder_label n))) ->
  findById_populate st (body_subscriptionId tr) = Some s ->
  status s = active ->
  renewalDate s = Some D ->
  user s = Some owner -> email owner = Some to -> to <> "" ->
  Z.max t0 (step_end "get subscription" t0) < Dayjs.subtract_day D 7 ->
  exists w' w'',
    serve tr t0 st = (Ok tt, w') /\
    sendReminders (body_subscriptionId tr) w' = (Ok tt, w'') /\
    outbox w'' = outbox w' /\
    length (reminder_log (outbox w'')) = 4%nat.
Proof.
  intros Hp Hb Ha Ht Hfind Hact HD Hu He Hto Hstart.
  destruct (run_on_schedule tr t0 st s owner to D)
    as (w' & entries & Hrun & Hdue & Hlog & _ & Hrec); auto.
  destruct (replay_is_silent (body_subscriptionId tr) w' Hrec)
    as (w'' & Hrun' & Hout & _).
  exists w', w''. repeat split; try done.
  rewrite Hout, Hlog. by apply Forall2_length in Hdue as <-.
Qed.
End Replay.

(** ** The deployment of [Scenario], run *)

Section Examples.
Import Scenario Dayjs.

Lemma punctual_prompt : @prompt punctual.
Proof. intros stepName t date _. simpl. by rewrite Z.max_id. Qed.

Lemma punctual_brisk : @brisk punctual.
Proof. intros stepName t. simpl. unfold day_ms. lia. Qed.

Lemma punctual_accepting : @accepting punctual.
Proof. intros t m. by eexists. Qed.

Lemma punctual_templates n :
  n ∈ reminders -> is_Some (@template_for punctual (reminder_label n)).
Proof.
  unfold reminders. intros Hn.
  repeat (apply elem_of_cons in Hn as [->|Hn]; [by eexists|]).
  by apply elem_of_nil in Hn.
Qed.

(** The end-to-end scenario: renewal on 2024-02-15, run started on
    2024-02-01; the reminders go out on February 8, 10, 12 and 14. *)
Example february_run :
  let r := @serve punctual go feb01 (shop active feb15) in
  r.1 = Ok tt /\
  map (fun e => (e.1, mail_subject e.2)) (reminder_log (outbox r.2))
  = [(1707350400000, "Netflix Premium renews in 7 days");
     (1707523200000, "Netflix Premium renews in 5 days");
     (1707696000000, "Netflix Premium renews in 3 days");
     (1707868800000, "Netflix Premium renews in 1 days")].
Proof. by vm_compute. Qed.

(** With no template labelled "3 days before reminder" the third
    threshold's step throws, and the one-day reminder is never reached. *)
Example three_day_label_needs_a_template :
  let r := @serve readme go feb01 (shop active feb15) in
  r.1 = Throw "Invalid template type" /\
  map (fun e => (e.1, mail_subject e.2)) (reminder_log (outbox r.2))
  = [(1707350400000, "Netflix Premium renews in 7 days");
     (1707523200000, "Netflix Premium renews in 5 days")].
Proof. by vm_compute. Qed.

Lemma reminders_on_schedule_witness :
  exists w',
    @serve punctual go feb01 (shop active feb15) = (Ok tt, w') /\
    length (outbox w') = 8%nat.
Proof.
  destruct (@reminders_on_schedule punctual go feb01 (shop active feb15)
              (snapshot active feb15) (select_name_email ada)
              "ada@example.com" feb15)
    as (w' & l7 & l5 & l3 & l1 & Hrun & _ & _ & _ & _ & _ & Hlen).
  - exact punctual_prompt.
  - exact punctual_brisk.
  - exact punctual_accepting.
  - exact punctual_templates.
  - reflexivity.
  - reflexivity.
  - reflexivity.
  - reflexivity.
  - reflexivity.
  - discriminate.
  - reflexivity.
  - exists w'. split; [exact Hrun|exact Hlen].
Defined.

(** C2.  The claim allows one send per threshold.  In this run every
    threshold's step makes the transport transmit two messages to the
    subscriber: the reminder, and then the receipt of the reminder, which
    [sendReminderEmail] hands to [sendMail] a second time. *)
Theorem each_threshold_transmits_twice :
  let r := @serve punctual go feb01 (shop active feb15) in
  r.1 = Ok tt /\
  transmissions (outbox r.2)
  = [(1707350400000, "ada@example.com"); (1707350400000, "ada@example.com");
     (1707523200000, "ada@example.com"); (1707523200000, "ada@example.com");
     (1707696000000, "ada@example.com"); (1707696000000, "ada@example.com");
     (1707868800000, "ada@example.com"); (1707868800000, "ada@example.com")].
Proof. by vm_compute. Qed.

Lemma remind_one_threshold_witness :
  exists w',
    @remind punctual (snapshot active feb15) feb15 7
      (start go feb01 (shop active feb15)) = (Ok tt, w') /\
    map d_time (outbox w') = [1707350400000; 1707350400000].
Proof.
  destruct (@remind_one_threshold punctual 7 (snapshot active feb15)
              (select_name_email ada) "ada@example.com" (template 7) feb15
              (start go feb01 (shop active feb15)))
    as (w' & Hrun & _ & _ & _ & Hsame & _).
  - unfold reminders. by left.
  - exact punctual_accepting.
  - reflexivity.
  - reflexivity.
  - discriminate.
  - reflexivity.
  - reflexivity.
  - reflexivity.
  - reflexivity.
  - destruct Hsame as [info Hout]; [reflexivity|].
    exists w'. split; [exact Hrun|].
    rewrite Hout. reflexivity.
Defined.

Lemma inactive_or_absent_stops_witness :
  exists w',
    @serve punctual go feb01 (shop cancelled feb15) = (Ok tt, w') /\
    outbox w' = [].
Proof.
  destruct (@inactive_or_absent_stops punctual go feb01 (shop cancelled feb15))
    as (w' & Hrun & Hout & _).
  - right. exists (snapshot cancelled feb15). split; [reflexivity|discriminate].
  - by exists w'.
Defined.

Lemma past_renewal_stops_witness :
  exists w',
    @serve punctual go mar01 (shop active feb15) = (Ok tt, w') /\
    outbox w' = [].
Proof.
  destruct (@past_renewal_stops punctual go mar01 (shop active feb15)
              (snapshot active feb15) feb15) as (w' & Hrun & Hout & _).
  - reflexivity.
  - reflexivity.
  - reflexivity.
  - by exists w'.
Defined.

(** C6 as stated fails: the subscription is cancelled in the store on
    February 5, before the run first resumes; the run asks the store
    once, at its start, and delivers all four reminders. *)
Lemma cancelled_mid_run_unnoticed :
  let st := shop active feb15 in
  let r := @serve meddled go feb01 st in
  status <$> subscriptions (@external meddled feb01 (feb15 - 7 * day_ms) st)
               !! "s1" = Some cancelled /\
  status <$> subscriptions (store r.2) !! "s1" = Some cancelled /\
  queries r.2 = [FindById_populate "s1"] /\
  map fst (reminder_log (outbox r.2))
  = [feb15 - 7 * day_ms; feb15 - 5 * day_ms;
     feb15 - 3 * day_ms; feb15 - 1 * day_ms].
Proof. by vm_compute. Qed.

Lemma snapshot_decides_the_run_witness :
  outbox (@serve punctual go feb01 (shop active feb15)).2
  = outbox (@serve meddled go feb01 (shop active feb15)).2.
Proof.
  destruct (snapshot_decides_the_run punctual meddled) with
    (tr := go) (t0 := feb01) (st := shop active feb15)
    as (_ & _ & _ & Hout).
  - repeat split; reflexivity.
  - exact Hout.
Defined.

Lemma only_the_awaited_send_fails_the_step_witness :
  let start5 :=
    @elapse Desk.picky (feb15 - 5 * day_ms)
      (@remind Desk.picky (snapshot active feb15) feb15 7
         (start go feb01 (shop active feb15))).2 in
  let start1 :=
    @elapse Desk.picky (feb15 - 1 * day_ms)
      (forOf [7; 5; 3] (@remind Desk.picky (snapshot active feb15) feb15)
         (start go feb01 (shop active feb15))).2 in
  (exists w',
     @triggerReminder Desk.picky (reminder_label 5) (snapshot active feb15) start5
     = (Ok undefined, w') /\
     steps w' !! reminder_label 5 = Some undefined /\
     length (reminder_log (outbox start5)) = 1%nat /\
     length (reminder_log (outbox w')) = 2%nat /\
     last (console w') = Some (Uncaught "Failed to send email")) /\
  (exists w',
     @triggerReminder Desk.picky (reminder_label 1) (snapshot active feb15) start1
     = (Throw "EENVELOPE", w') /\
     steps w' !! reminder_label 1 = None /\
     length (reminder_log (outbox start1)) = 3%nat /\
     reminder_log (outbox w') = reminder_log (outbox start1)).
Proof.
  split.
  - destruct (@only_the_awaited_send_fails_the_step Desk.picky
                "http://localhost:5500" feb01 "s1" (netflix active feb15) "u1"
                (shop active feb15) (reminder_label 5) (snapshot active feb15)
                (select_name_email ada) "ada@example.com" (template 5)
                (@elapse Desk.picky (feb15 - 5 * day_ms)
                   (@remind Desk.picky (snapshot active feb15) feb15 7
                      (start go feb01 (shop active feb15))).2))
      as [_ Hsecond]; try reflexivity; try discriminate.
    destruct (Hsecond
                (mkInfo accountEmail "ada@example.com"
                   "<1707523200000@mail>" "250 2.0.0 OK")
                "No recipients defined")
      as (w' & Hrun & Hsteps & Hout & Hcon); try reflexivity.
    exists w'. split; [exact Hrun|].
    split; [rewrite Hsteps; apply lookup_insert_eq|].
    split; [by vm_compute|].
    split; [rewrite Hout; by vm_compute|].
    rewrite Hcon. by vm_compute.
  - destruct (@only_the_awaited_send_fails_the_step Desk.picky
                "http://localhost:5500" feb01 "s1" (netflix active feb15) "u1"
                (shop active feb15) (reminder_label 1) (snapshot active feb15)
                (select_name_email ada) "ada@example.com" (template 1)
                (@elapse Desk.picky (feb15 - 1 * day_ms)
                   (forOf [7; 5; 3]
                      (@remind Desk.picky (snapshot active feb15) feb15)
                      (start go feb01 (shop active feb15))).2))
      as [Hfirst _]; try reflexivity; try discriminate.
    destruct (Hfirst "EENVELOPE") as (w' & Hrun & Hout & Hsteps);
      try reflexivity.
    exists w'. split; [exact Hrun|].
    split; [rewrite Hsteps; by vm_compute|].
    split; [by vm_compute|].
    rewrite Hout. by vm_compute.
Defined.

(** With the transport down the zero-retry run offers the mail once; a run
    allowed one retry would offer it twice. *)
Example retries_decide_the_attempts :
  let w := start go (feb15 - 7 * day_ms) (shop active feb15) in
  let again := start (mkTrigger (url go) "s1" 1) (feb15 - 7 * day_ms)
                 (shop active feb15) in
  length (outbox (@triggerReminder offline (reminder_label 7)
                    (snapshot active feb15) w).2) = 1%nat /\
  length (outbox (@triggerReminder offline (reminder_label 7)
                    (snapshot active feb15) again).2) = 2%nat.
Proof. by vm_compute. Qed.

Lemma run_reads_once_witness :
  queries (@serve punctual go feb01 (shop active feb15)).2
  = [FindById_populate "s1"] /\
  store (@serve punctual go feb01 (shop active feb15)).2 = shop active feb15.
Proof.
  destruct (@run_reads_once punctual go feb01 (shop active feb15))
    as (v & w1 & _ & Hq & _ & Hsame & _ & Hstore).
  split.
  - rewrite Hsame. exact Hq.
  - apply Hstore. intros t t' st. reflexivity.
Defined.

Lemma pre_save_establishes_witness :
  renewalDate (pre_save mar01
                 (with_renewalDate (netflix active feb15) None))
  = Some (1705276800000 + 30 * day_ms) /\
  status (pre_save mar01 (with_renewalDate (netflix active feb15) None))
  = expired.
Proof.
  destruct (pre_save_establishes mar01
              (with_renewalDate (netflix active feb15) None))
    as (Hset & _ & Hexp & _).
  split.
  - apply Hset. reflexivity.
  - apply (Hexp (1705276800000 + 30 * day_ms)).
    + apply Hset. reflexivity.
    + reflexivity.
Defined.

Lemma sendReminderEmail_guards_witness :
  @sendReminderEmail punctual None (Some "7 days before reminder")
    (document (snapshot active feb15)) (start go feb01 (shop active feb15))
  = (Throw "Missing required fields", start go feb01 (shop active feb15)) /\
  @sendReminderEmail punctual (Some "ada@example.com")
    (Some "2 days before reminder")
    (document (snapshot active feb15)) (start go feb01 (shop active feb15))
  = (Throw "Invalid template type", start go feb01 (shop active feb15)).
Proof.
  split.
  - apply (@sendReminderEmail_guards punctual). left. reflexivity.
  - apply (@sendReminderEmail_guards punctual) with
      (label := "2 days before reminder").
    + reflexivity.
    + reflexivity.
    + discriminate.
    + reflexivity.
    + reflexivity.
Defined.
End Examples.

(* ===================================================================== *)
(** * Further properties of the workflow *)
(* ===================================================================== *)

(** ** Thresholds that are already over *)

Section LateRuns.
Context `{Env}.
Import Dayjs.
Local Arguments sleep_label : simpl never.
Local Arguments reminder_label : simpl never.
Local Arguments reminders : simpl never.

(** A threshold whose calendar day is over leaves the world as it is. *)
Lemma remind_skips s D n w :
  day_of utcOffset (subtract_day D n) < day_of utcOffset (now w) ->
  remind s D n w = (Ok tt, w).
Proof.
  intros Hlate. unfold remind. run_M. unfold isAfter.
  assert (Hr : subtract_day D n <= now w).
  { destruct (Z.le_gt_cases (subtract_day D n) (now w)); [done|].
    pose proof (day_of_mono utcOffset (now w) (subtract_day D n)). lia. }
  destruct (Z.ltb_spec (now w) (subtract_day D n)); [lia|]. run_M.
  assert (isSame_day utcOffset (now w) (subtract_day D n) = false) as ->;
    [|done].
  apply isSame_day_false. lia.
Qed.

Lemma forOf_skips s D ns w :
  (forall n, n ∈ ns ->
     day_of utcOffset (subtract_day D n) < day_of utcOffset (now w)) ->
  forOf ns (remind s D) w = (Ok tt, w).
Proof.
  induction ns as [|n ns IH]; intros Hlate; [done|].
  simpl. erewrite bind_Ok; [|apply remind_skips, Hlate; by left].
  apply IH. intros m Hm. apply Hlate. by right.
Qed.

Lemma forOf_app_Ok {A} (l1 l2 : list A) body w w1 :
  forOf l1 body w = (Ok tt, w1) ->
  forOf (l1 ++ l2) body w = forOf l2 body w1.
Proof.
  revert w. induction l1 as [|x l1 IH]; intros w Hrun; simpl in *.
  - by injection Hrun as ->.
  - unfold mbind, M_bind in *.
    destruct (body x w) as [[[]|e] wx]; [|done]. by apply IH.
Qed.

Lemma forOf_app_Throw {A} (l1 l2 : list A) body w e w1 :
  forOf l1 body w = (Throw e, w1) ->
  forOf (l1 ++ l2) body w = (Throw e, w1).
Proof.
  revert w. induction l1 as [|x l1 IH]; intros w Hrun; simpl in *; [done|].
  unfold mbind, M_bind in *.
  destruct (body x w) as [[[]|e'] wx]; [by apply IH|done].
Qed.

Lemma spaced_app_r l1 l2 : spaced (l1 ++ l2) -> spaced l2.
Proof.
  induction l1 as [|x l1 IH]; [done|]. simpl.
  destruct (l1 ++ l2) eqn:E; [|intros [_ ?]; by apply IH].
  intros _. by destruct l1, l2.
Qed.

Lemma labels_app l1 l2 : labels (l1 ++ l2) = labels l1 ++ labels l2.
Proof. apply flat_map_app. Qed.

Lemma labels_reminders_fresh (v : Value) k :
  k ∈ labels reminders ->
  ({[ "get subscription" := v ]} : gmap string Value) !! k = None.
Proof.
  intros Hk. apply lookup_singleton_ne. intros <-. revert Hk.
  apply (bool_decide_unpack _). by vm_compute.
Qed.

(** X1.  Late start.  When a run of an active subscription first reads the
    clock after the calendar day of some thresholds (the first ones of 7, 5,
    3, 1) and before the reminder date of the next one, the passed
    thresholds are skipped without a sleep or a mail, and exactly the
    reminders of the thresholds still ahead are delivered, each on its
    day; the run ends normally. *)
Theorem passed_thresholds_are_skipped tr t0 st s owner to D late ahead :
  reminders = late ++ ahead ->
  prompt -> brisk -> accepting ->
  (forall n, n ∈ ahead -> is_Some (template_for (reminder_label n))) ->
  findById_populate st (body_subscriptionId tr) = Some s ->
  status s = active ->
  renewalDate s = Some D ->
  user s = Some owner -> email owner = Some to -> to <> "" ->
  Z.max t0 (step_end "get subscription" t0) <= D ->
  (forall n, n ∈ late ->
     day_of utcOffset (subtract_day D n)
     < day_of utcOffset (Z.max t0 (step_end "get subscription" t0))) ->
  match ahead with
  | m :: _ => Z.max t0 (step_end "get subscription" t0) < subtract_day D m
  | [] => True
  end ->
  exists w' entries,
    serve tr t0 st = (Ok tt, w') /\
    Forall2 (due s owner to D) ahead entries /\
    reminder_log (outbox w') = entries.
Proof.
  intros Hsplit Hp Hb Ha Ht Hfind Hact HD Hu He Hto Hguard Hlate Hahead.
  set (w1 := record "get subscription" (document s)
               (elapse (step_end "get subscription" t0)
                  (asked (FindById_populate (body_subscriptionId tr))
                     (start tr t0 st)))).
  pose proof reminders_spaced as Hsp. pose proof labels_reminders_NoDup as Hnd.
  rewrite Hsplit in Hsp, Hnd. apply spaced_app_r in Hsp.
  rewrite labels_app in Hnd. apply NoDup_app in Hnd as (_ & _ & Hnd).
  destruct (forOf_on_schedule s owner to D ahead Hp Hb Ha Hu He Hto HD Ht
              Hsp Hnd w1)
    as (w' & entries & Hrun & Hdue & Hlog & _).
  { apply Forall_forall. intros k Hk. subst w1. simpl.
    apply labels_reminders_fresh. rewrite Hsplit, labels_app.
    apply elem_of_app. by right. }
  { done. }
  exists w', entries. split; [|done].
  rewrite serve_unfold. unfold fetched. rewrite Hfind. fold w1.
  destruct (decide (status s = active)); [|done].
  rewrite Hsplit. run_M. rewrite HD. simpl. unfold isBefore.
  destruct (Z.ltb_spec D (Z.max t0 (step_end "get subscription" t0))); [lia|].
  rewrite (forOf_app_Ok late ahead (remind s D) w1 w1); [done|].
  by apply forOf_skips.
Qed.

(** X2.  A subscription that has no renewal date ([dayjs(undefined)] is the
    current instant) gets no reminder whatever its status: the instant read
    first is before the one read next only if the clock ran backwards, which
    it does not; for an active subscription every reminder date is then on
    an earlier day.  The run ends normally with an empty outbox and only the
    fetch step on record. *)
Theorem no_renewal_date_no_reminder tr t0 st s :
  findById_populate st (body_subscriptionId tr) = Some s ->
  renewalDate s = None ->
  exists w',
    serve tr t0 st = (Ok tt, w') /\
    outbox w' = [] /\
    steps w' = {[ "get subscription" := document s ]}.
Proof.
  intros Hfind HD. rewrite serve_unfold. unfold fetched. rewrite Hfind.
  destruct (decide (status s = active));
    [|eexists; split; [reflexivity|done]].
  assert (Hskip : forall w, forOf reminders (remind s (now w)) w = (Ok tt, w)).
  { intros w. apply forOf_skips. unfold reminders. intros n Hn.
    repeat (apply elem_of_cons in Hn as [->|Hn]; [day_arith|]).
    by apply elem_of_nil in Hn. }
  unfold mbind, M_bind, dayjs. rewrite HD. cbn [default fst snd].
  unfold isBefore. rewrite Z.ltb_irrefl. rewrite Hskip.
  eexists; split; [reflexivity|done].
Qed.
End LateRuns.

(** ** Runs that fail at a threshold *)

Section FailingRuns.
Context `{Env}.
Import Dayjs.
Local Arguments sleep_label : simpl never.
Local Arguments reminder_label : simpl never.
Local Arguments reminders : simpl never.
Local Arguments Z.max : simpl never.

(** The world in which the reminder step of a threshold starts when the
    run had to be parked for it. *)
Lemma remind_parks_then_triggers s D n w :
  prompt ->
  steps w !! sleep_label n = None ->
  now w < subtract_day D n ->
  exists w1,
    remind s D n w
    = (triggerReminder (reminder_label n) s;; mret tt) w1 /\
    subtract_day D n <= now w1 < subtract_day D n + day_ms /\
    day_of utcOffset (now w1) = day_of utcOffset (subtract_day D n) /\
    steps w1 = <[sleep_label n := undefined]> (steps w) /\
    outbox w1 = outbox w /\ retries w1 = retries w /\ queries w1 = queries w.
Proof.
  intros Hp Hs Hnow.
  set (r := subtract_day D n) in *.
  set (t := Z.max r (wake (sleep_label n) (now w) r)).
  assert (Hday : day_of utcOffset t = day_of utcOffset r) by by apply Hp.
  assert (Hrt : r <= t) by (subst t; lia).
  exists (record (sleep_label n) undefined
            (elapse t (printed
               (Log ("Sleeping until " +:+ sleep_label n
                     +:+ " reminder at " +:+ toUTCString r)) w))).
  assert (Hmax : Z.max (now w) t = t) by lia.
  split; [|simpl; rewrite Hmax;
           pose proof (same_day_close _ _ _ Hday Hrt); done].
  unfold remind. fold r. unfold isAfter. run_M.
  destruct (Z.ltb_spec (now w) r); [|lia]. run_M.
  rewrite sleepUntilReminder_fresh by done. fold t. simpl. rewrite Hmax.
  assert (isSame_day utcOffset t r = true) as -> by by apply isSame_day_iff.
  done.
Qed.

Lemma attempt_throw {A} n (fn : M A) e w :
  (forall w, fn w = (Throw e, w)) -> attempt n fn w = (Throw e, w).
Proof. intros Hfn. induction n; simpl; rewrite Hfn; [done|apply IHn]. Qed.

(** A reminder step whose function throws before it reaches the
    transport: the step fails and nothing but the console has changed. *)
Lemma triggerReminder_throws lbl s e w :
  steps w !! lbl = None ->
  match user s with
  | None => e = "TypeError: Cannot read properties of null (reading 'email')"
  | Some owner =>
      sendReminderEmail (email owner) (Some lbl) (document s) = throw e
  end ->
  exists w',
    triggerReminder lbl s w = (Throw e, w') /\
    outbox w' = outbox w /\ steps w' = steps w /\ queries w' = queries w.
Proof.
  intros Hs Hfn. unfold triggerReminder, context_run, console_log.
  unfold mbind, M_bind. simpl. rewrite Hs.
  rewrite (attempt_throw _ _ e); [by eexists|].
  intros w0. destruct (user s) as [owner|]; [by rewrite Hfn|by subst e].
Qed.

(** A run whose first reminder step throws before reaching the transport. *)
Lemma run_throws_at_first_threshold tr t0 st s D e :
  prompt ->
  fetched st (body_subscriptionId tr) = document s ->
  status s = active ->
  renewalDate s = Some D ->
  Z.max t0 (step_end "get subscription" t0) < subtract_day D 7 ->
  match user s with
  | None => e = "TypeError: Cannot read properties of null (reading 'email')"
  | Some owner =>
      sendReminderEmail (email owner) (Some (reminder_label 7)) (document s)
      = throw e
  end ->
  exists w',
    serve tr t0 st = (Throw e, w') /\
    outbox w' = [] /\
    queries w' = [FindById_populate (body_subscriptionId tr)].
Proof.
  intros Hp Hfetch Hact HD Hstart Hfn.
  rewrite serve_unfold, Hfetch.
  remember (record "get subscription" (document s)
              (elapse (step_end "get subscription" t0)
                 (asked (FindById_populate (body_subscriptionId tr))
                    (start tr t0 st)))) as w1 eqn:Ew1.
  assert (Hnow1 : now w1 = Z.max t0 (step_end "get subscription" t0))
    by (by subst w1).
  assert (Hout1 : outbox w1 = []) by (by subst w1).
  assert (Hq1 : queries w1 = [FindById_populate (body_subscriptionId tr)])
    by (by subst w1).
  assert (Hfresh : forall k, k ∈ labels reminders -> steps w1 !! k = None)
    by (intros k Hk; subst w1; by apply labels_reminders_fresh).
  clear Ew1.
  destruct (remind_parks_then_triggers s D 7 w1 Hp)
    as (w2 & Hrem & _ & _ & Hsteps & Hout & _ & Hq).
  { apply Hfresh. apply (bool_decide_unpack _). by vm_compute. }
  { by rewrite Hnow1. }
  destruct (triggerReminder_throws (reminder_label 7) s e w2)
    as (w' & Hrun & Hout' & _ & Hq'); [|done|].
  { rewrite Hsteps, lookup_insert_ne by (by vm_compute).
    apply Hfresh. apply (bool_decide_unpack _). by vm_compute. }
  exists w'. split; [|by rewrite Hout', Hout, Hq', Hq].
  destruct (decide (status s = active)); [|done].
  unfold mbind at 1, M_bind at 1, dayjs at 1. rewrite HD. cbn [default].
  unfold mbind at 1, M_bind at 1, dayjs at 1. cbn [default]. unfold isBefore.
  change (id D) with D.
  destruct (Z.ltb_spec D (now w1)); [rewrite Hnow1 in *; day_arith|].
  unfold reminders. cbn [forOf].
  erewrite bind_Throw; [done|]. rewrite Hrem. by erewrite bind_Throw.
Qed.

(** X3.  When [populate] cannot resolve the owner of an active
    subscription ([subscription.user] is [null]), the run started more than
    seven days ahead sleeps until the first reminder date and then fails
    with the TypeError of [subscription.user.email]: nothing is sent, and
    the store has been read once. *)
Theorem unresolved_owner_fails_the_run tr t0 st doc D :
  prompt ->
  subscriptions st !! body_subscriptionId tr = Some doc ->
  users st !! user doc = None ->
  status doc = active ->
  renewalDate doc = Some D ->
  Z.max t0 (step_end "get subscription" t0) < subtract_day D 7 ->
  exists w',
    serve tr t0 st
    = (Throw "TypeError: Cannot read properties of null (reading 'email')", w') /\
    outbox w' = [] /\
    queries w' = [FindById_populate (body_subscriptionId tr)].
Proof.
  intros Hp Hdoc Hnouser Hact HD Hstart.
  apply (run_throws_at_first_threshold tr t0 st (with_user doc None) D);
    try done.
  unfold fetched, findById_populate. rewrite Hdoc. simpl.
  by rewrite Hnouser.
Qed.

(** An iteration that is due, with a transport that accepts its mail. *)
Lemma remind_due n s owner to tpl D w :
  prompt -> brisk ->
  user s = Some owner -> email owner = Some to -> to <> "" ->
  renewalDate s = Some D ->
  template_for (reminder_label n) = Some tpl ->
  (forall t, exists info,
     smtp t (options (composed tpl s owner to D)) = inl info) ->
  steps w !! sleep_label n = None ->
  steps w !! reminder_label n = None ->
  sleep_label n <> reminder_label n ->
  now w < subtract_day D n ->
  exists w' t,
    remind s D n w = (Ok tt, w') /\
    subtract_day D n <= t /\
    day_of utcOffset t = day_of utcOffset (subtract_day D n) /\
    now w' < subtract_day D n + 2 * day_ms /\
    steps w' = <[reminder_label n := undefined]>
                 (<[sleep_label n := undefined]> (steps w)) /\
    retries w' = retries w /\
    queries w' = queries w /\
    reminder_log (outbox w')
    = reminder_log (outbox w) ++ [(t, composed tpl s owner to D)] /\
    length (outbox w') = (length (outbox w) + 2)%nat.
Proof.
  intros Hp Hb Hu He Hto HD Ht Ha Hs1 Hs2 Hne Hnow.
  destruct (remind_parks_then_triggers s D n w Hp Hs1 Hnow)
    as (w1 & Hrem & [Hr1 Hr2] & Hday & Hsteps & Hout & Hret & Hq).
  destruct (Ha (now w1)) as [info Hinfo].
  destruct (triggerReminder_sends (reminder_label n) s owner to tpl info w1)
    as (w' & Hrun & Hnow' & Hsteps' & Hret' & Hq' & Hout'); auto.
  { apply reminder_label_nonempty. }
  { by rewrite Hsteps, lookup_insert_ne. }
  { by rewrite HD. }
  exists w', (now w1). rewrite Hrem. erewrite bind_Ok by exact Hrun.
  pose proof (Hb (reminder_label n) (now w1)).
  rewrite HD in Hout'. simpl in Hout'.
  split; [done|]. split; [done|]. split; [done|]. split; [lia|].
  split; [by rewrite Hsteps', Hsteps|]. split; [congruence|].
  split; [congruence|]. split.
  - rewrite Hout', reminder_log_app, Hout. done.
  - rewrite Hout', length_app, Hout. simpl. lia.
Qed.

(** The loop over thresholds that are all due and all deliverable, with
    what it leaves for the thresholds after them. *)
Lemma forOf_due s owner to D ns :
  prompt -> brisk ->
  user s = Some owner -> email owner = Some to -> to <> "" ->
  renewalDate s = Some D ->
  (forall n, n ∈ ns ->
     exists tpl, template_for (reminder_label n) = Some tpl /\
       forall t, exists info,
         smtp t (options (composed tpl s owner to D)) = inl info) ->
  spaced ns ->
  NoDup (labels ns) ->
  forall w,
    Forall (fun k => steps w !! k = None) (labels ns) ->
    match ns with n :: _ => now w < subtract_day D n | [] => True end ->
    exists w' entries,
      forOf ns (remind s D) w = (Ok tt, w') /\
      Forall2 (due s owner to D) ns entries /\
      reminder_log (outbox w') = reminder_log (outbox w) ++ entries /\
      length (outbox w') = (length (outbox w) + 2 * length ns)%nat /\
      queries w' = queries w /\
      retries w' = retries w /\
      (forall k, k ∉ labels ns -> steps w' !! k = steps w !! k) /\
      (forall m, (forall n, n ∈ ns -> m + 2 <= n) ->
                 now w < subtract_day D m -> now w' < subtract_day D m).
Proof.
  intros Hp Hb Hu He Hto HD.
  induction ns as [|n ns IH]; intros Ht Hsp Hnd w Hfresh Hnow.
  - exists w, []. simpl. rewrite app_nil_r, Nat.add_0_r.
    repeat split; try done.
  - simpl in Hnd, Hfresh.
    apply NoDup_cons in Hnd as [Hn1 Hnd]. apply NoDup_cons in Hnd as [Hn2 Hnd].
    apply Forall_cons in Hfresh as [Hf1 Hfresh].
    apply Forall_cons in Hfresh as [Hf2 Hfresh].
    destruct (Ht n) as (tpl & Htpl & Hacc); [by left|].
    destruct (remind_due n s owner to tpl D w)
      as (w1 & t & Hrun & Hrt & Hday & Hnow1 & Hsteps & Hret & Hq & Hlog1 & Hlen1);
      auto.
    { intros Heq. apply Hn1. rewrite Heq. by left. }
    destruct (IH (fun m Hm => Ht m (list_elem_of_further _ _ _ Hm))
                ltac:(by destruct ns as [|m ns]; [|destruct Hsp]) Hnd w1)
      as (w' & entries & Hrun' & Hdue & Hlog & Hlen & Hq' & Hret' & Hfr & Hclk).
    { rewrite Hsteps. rewrite Forall_forall in Hfresh.
      apply Forall_forall. intros k Hk.
      rewrite !lookup_insert_ne; [by apply Hfresh|..]; intros <-;
        [apply Hn1; by right | by apply Hn2]. }
    { destruct ns as [|m ns]; [done|]. destruct Hsp as [Hgap _].
      pose proof (subtract_day_spaced D n m Hgap). lia. }
    exists w', ((t, composed tpl s owner to D) :: entries).
    split; [|split; [|split; [|split; [|split; [|split; [|split]]]]]].
    + simpl. by erewrite bind_Ok.
    + constructor; [|done]. repeat split; try done. by exists tpl.
    + rewrite Hlog, Hlog1. by rewrite <- app_assoc.
    + rewrite Hlen, Hlen1. simpl. lia.
    + congruence.
    + congruence.
    + intros k Hk. simpl in Hk.
      rewrite Hfr, Hsteps by (intros ?; apply Hk; by do 2 right).
      rewrite !lookup_insert_ne; [done|..]; intros <-; apply Hk;
        [by left|right; by left].
    + intros m Hm Hw. apply Hclk; [intros k Hk; apply Hm; by right|].
      pose proof (subtract_day_spaced D n m (Hm n ltac:(by left))). lia.
Qed.

Lemma spaced_app_l l1 l2 : spaced (l1 ++ l2) -> spaced l1.
Proof.
  induction l1 as [|x l1 IH]; [done|]. simpl.
  destruct l1 as [|y l1]; [done|]. simpl. intros [? ?]. split; [done|].
  by apply IH.
Qed.

Lemma spaced_app_head l1 n l2 :
  spaced (l1 ++ n :: l2) -> forall k, k ∈ l1 -> n + 2 <= k.
Proof.
  induction l1 as [|x l1 IH]; intros Hsp k Hk; [by apply elem_of_nil in Hk|].
  simpl in Hsp. destruct l1 as [|y l1]; simpl in *.
  - destruct Hsp as [Hx _]. apply elem_of_cons in Hk as [->|Hk]; [done|].
    by apply elem_of_nil in Hk.
  - destruct Hsp as [Hx Hsp].
    pose proof (IH Hsp y ltac:(by left)).
    apply elem_of_cons in Hk as [->|Hk]; [lia|by apply IH].
Qed.

(** The world a run is in when the thresholds of [before] have had
    their reminders and the step of threshold [n] is about to start. *)
Lemma run_reaches_threshold tr t0 st s owner to D before n after :
  reminders = before ++ n :: after ->
  prompt -> brisk ->
  (forall k, k ∈ before ->
     exists tpl, template_for (reminder_label k) = Some tpl /\
       forall t, exists info,
         smtp t (options (composed tpl s owner to D)) = inl info) ->
  findById_populate st (body_subscriptionId tr) = Some s ->
  status s = active ->
  renewalDate s = Some D ->
  user s = Some owner -> email owner = Some to -> to <> "" ->
  Z.max t0 (step_end "get subscription" t0) < subtract_day D 7 ->
  exists w2 entries,
    (forall e w',
       triggerReminder (reminder_label n) s w2 = (Throw e, w') ->
       serve tr t0 st = (Throw e, w')) /\
    Forall2 (due s owner to D) before entries /\
    reminder_log (outbox w2) = entries /\
    length (outbox w2) = (2 * length before)%nat /\
    retries w2 = trigger_retries tr /\
    steps w2 !! reminder_label n = None /\
    day_of utcOffset (now w2) = day_of utcOffset (subtract_day D n).
Proof.
  intros Hsplit Hp Hb Ht Hfind Hact HD Hu He Hto Hstart.
  remember (record "get subscription" (document s)
              (elapse (step_end "get subscription" t0)
                 (asked (FindById_populate (body_subscriptionId tr))
                    (start tr t0 st)))) as w1 eqn:Ew1.
  assert (Hnow1 : now w1 = Z.max t0 (step_end "get subscription" t0))
    by (by subst w1).
  assert (Hout1 : outbox w1 = []) by (by subst w1).
  assert (Hret1 : retries w1 = trigger_retries tr) by (by subst w1).
  assert (Hfresh : forall k, k ∈ labels reminders -> steps w1 !! k = None)
    by (intros k Hk; subst w1; by apply labels_reminders_fresh).
  pose proof reminders_spaced as Hsp. pose proof labels_reminders_NoDup as Hnd.
  rewrite Hsplit in Hsp, Hnd.
  pose proof (spaced_app_head _ _ _ Hsp) as Hhead.
  rewrite labels_app in Hnd. simpl in Hnd.
  pose proof Hnd as Hnd0.
  apply NoDup_app in Hnd as (Hnd1 & Hdisj & Hnd2).
  assert (Hn7 : n <= 7).
  { assert (Hin : n ∈ reminders)
      by (rewrite Hsplit; apply elem_of_app; right; by left).
    unfold reminders in Hin.
    repeat (apply elem_of_cons in Hin as [->|Hin]; [lia|]).
    by apply elem_of_nil in Hin. }
  destruct (forOf_due s owner to D before Hp Hb Hu He Hto HD Ht
              (spaced_app_l _ _ Hsp) Hnd1 w1)
    as (w2 & entries & Hrun & Hdue & Hlog & Hlen & _ & Hret & Hfr & Hclk).
  { apply Forall_forall. intros k Hk. apply Hfresh.
    rewrite Hsplit, labels_app. apply elem_of_app. by left. }
  { destruct before as [|m before]; [done|].
    unfold reminders in Hsplit. injection Hsplit as <- _. by rewrite Hnow1. }
  assert (Hnow2 : now w2 < subtract_day D n).
  { apply Hclk; [done|]. rewrite Hnow1. day_arith. }
  assert (Hs2 : forall k, k ∈ [sleep_label n; reminder_label n] ->
                          steps w2 !! k = None).
  { intros k Hk.
    assert (Hin : k ∈ sleep_label n :: reminder_label n :: labels after).
    { apply elem_of_cons in Hk as [->|Hk]; [by left|].
      apply elem_of_cons in Hk as [->|Hk]; [right; by left|].
      by apply elem_of_nil in Hk. }
    rewrite Hfr.
    - apply Hfresh. rewrite Hsplit, labels_app. apply elem_of_app. by right.
    - intros Hk'. by apply (Hdisj k Hk'). }
  destruct (remind_parks_then_triggers s D n w2 Hp)
    as (w3 & Hrem & _ & Hday & Hsteps3 & Hout3 & Hret3 & _);
    [apply Hs2; by left|done|].
  exists w3, entries. split; [|repeat split; try done].
  - intros e w' Hthrow.
    rewrite serve_unfold. unfold fetched. rewrite Hfind, <- Ew1.
    destruct (decide (status s = active)); [|done].
    unfold mbind at 1, M_bind at 1, dayjs at 1. rewrite HD. cbn [default].
    unfold mbind at 1, M_bind at 1, dayjs at 1. cbn [default].
    unfold isBefore. change (id D) with D.
    destruct (Z.ltb_spec D (now w1)); [rewrite Hnow1 in *; day_arith|].
    rewrite Hsplit.
    rewrite (forOf_app_Ok before (n :: after) (remind s D) w1 w2 Hrun).
    cbn [forOf]. erewrite bind_Throw; [done|].
    rewrite Hrem. by erewrite bind_Throw.
  - by rewrite Hout3, Hlog, Hout1.
  - rewrite Hout3, Hlen, Hout1. simpl. lia.
  - congruence.
  - rewrite Hsteps3, lookup_insert_ne; [apply Hs2; right; by left|].
    apply NoDup_cons in Hnd2 as [Hnd2 _]. intros Heq. apply Hnd2.
    rewrite Heq. by left.
Qed.

Lemma sendReminderEmail_no_template to lbl s :
  to <> "" -> lbl <> "" -> template_for lbl = None ->
  sendReminderEmail (Some to) (Some lbl) (document s)
  = throw "Invalid template type".
Proof.
  intros Hto Hl Ht. apply truthy_Some in Hto. apply truthy_Some in Hl.
  unfold sendReminderEmail. rewrite Hto, Hl. simpl.
  unfold template_for in Ht. by rewrite Ht.
Qed.

(** X4.  When the template table lacks the entry of one label, the run
    delivers the reminders of the thresholds before it, each on its day,
    and then fails with "Invalid template type": the thresholds after it
    are never reached. *)
Theorem missing_template_stops_the_run
    tr t0 st s owner to D before n after :
  reminders = before ++ n :: after ->
  prompt -> brisk -> accepting ->
  (forall k, k ∈ before -> is_Some (template_for (reminder_label k))) ->
  template_for (reminder_label n) = None ->
  findById_populate st (body_subscriptionId tr) = Some s ->
  status s = active ->
  renewalDate s = Some D ->
  user s = Some owner -> email owner = Some to -> to <> "" ->
  Z.max t0 (step_end "get subscription" t0) < subtract_day D 7 ->
  exists w' entries,
    serve tr t0 st = (Throw "Invalid template type", w') /\
    Forall2 (due s owner to D) before entries /\
    reminder_log (outbox w') = entries.
Proof.
  intros Hsplit Hp Hb Ha Ht Hnone Hfind Hact HD Hu He Hto Hstart.
  destruct (run_reaches_threshold tr t0 st s owner to D before n after)
    as (w2 & entries & Hfail & Hdue & Hlog & _ & _ & Hfresh & _); auto.
  { intros k Hk. destruct (Ht k Hk) as [tpl Htpl]. exists tpl.
    split; [done|]. intros t. apply Ha. }
  destruct (triggerReminder_throws (reminder_label n) s
              "Invalid template type" w2) as (w' & Hrun & Hout & _);
    [done| |].
  { rewrite Hu, He. apply sendReminderEmail_no_template; try done.
    apply reminder_label_nonempty. }
  exists w', entries. split; [by apply Hfail|]. by rewrite Hout.
Qed.

(** A reminder step of a zero-retry run whose mail the transport
    rejects. *)
Lemma triggerReminder_rejected lbl s owner to tpl e w :
  retries w = 0%nat ->
  user s = Some owner -> email owner = Some to -> to <> "" ->
  lbl <> "" ->
  template_for lbl = Some tpl ->
  steps w !! lbl = None ->
  smtp (now w)
    (options (composed tpl s owner to (default (now w) (renewalDate s))))
    = inr e ->
  exists w',
    triggerReminder lbl s w = (Throw e, w') /\
    reminder_log (outbox w') = reminder_log (outbox w) /\
    length (outbox w') = (length (outbox w) + 1)%nat.
Proof.
  intros Hr Hu He Hto Hl Ht Hs Hm.
  apply truthy_Some in Hto. apply truthy_Some in Hl.
  unfold template_for in Ht. unfold composed in Hm.
  unfold triggerReminder, context_run. run_M.
  rewrite Hs, Hr, Hu, He. rewrite attempt_0.
  unfold sendReminderEmail. unfold truthy in *. rewrite Hto, Hl. simpl.
  rewrite Ht, Hu. unfold sendMail_await. run_M. rewrite Hm.
  eexists. split; [reflexivity|]. simpl.
  rewrite reminder_log_app, length_app. simpl. by rewrite app_nil_r.
Qed.

(** X5.  With [retries: 0], when the transport accepts the reminders of
    the first thresholds and rejects the reminder of the next one, the run
    fails with the transport's error at that threshold: the earlier
    reminders are delivered, each on its day, the outbox holds their two
    transmissions each and the one rejected attempt, and no later threshold
    is tried. *)
Theorem rejected_reminder_ends_the_run
    tr t0 st s owner to D before n after tpl e :
  reminders = before ++ n :: after ->
  prompt -> brisk ->
  trigger_retries tr = 0%nat ->
  (forall k, k ∈ before ->
     exists tpl, template_for (reminder_label k) = Some tpl /\
       forall t, exists info,
         smtp t (options (composed tpl s owner to D)) = inl info) ->
  template_for (reminder_label n) = Some tpl ->
  (forall t, smtp t (options (composed tpl s owner to D)) = inr e) ->
  findById_populate st (body_subscriptionId tr) = Some s ->
  status s = active ->
  renewalDate s = Some D ->
  user s = Some owner -> email owner = Some to -> to <> "" ->
  Z.max t0 (step_end "get subscription" t0) < subtract_day D 7 ->
  exists w' entries,
    serve tr t0 st = (Throw e, w') /\
    Forall2 (due s owner to D) before entries /\
    reminder_log (outbox w') = entries /\
    length (outbox w') = (2 * length before + 1)%nat.
Proof.
  intros Hsplit Hp Hb Hzero Ht Htpl Hrej Hfind Hact HD Hu He Hto Hstart.
  destruct (run_reaches_threshold tr t0 st s owner to D before n after)
    as (w2 & entries & Hfail & Hdue & Hlog & Hlen & Hret & Hfresh & _); auto.
  destruct (triggerReminder_rejected (reminder_label n) s owner to tpl e w2)
    as (w' & Hrun & Hlog' & Hlen'); auto.
  { congruence. }
  { apply reminder_label_nonempty. }
  { rewrite HD. apply Hrej. }
  exists w', entries. split; [by apply Hfail|].
  split; [done|]. split; congruence.
Qed.
End FailingRuns.

(** ** Memoisation over the life of a run *)

Section Memoisation.
Context `{Env}.
Local Arguments sleep_label : simpl never.
Local Arguments reminder_label : simpl never.

#[local] Instance accounted_preorder : PreOrder accounted.
Proof.
  split.
  - intros w. by split.
  - intros w1 w2 w3 [Hc1 Hs1] [Hc2 Hs2]. split; [lia|]. auto.
Qed.

Lemma recorded_mono (steps1 steps2 : gmap string Value) (l : list Z) :
  (forall k, is_Some (steps1 !! k) -> is_Some (steps2 !! k)) ->
  (sum_list (map (fun n => if decide (is_Some (steps1 !! reminder_label n))
                           then 1 else 0) l)
   <= sum_list (map (fun n => if decide (is_Some (steps2 !! reminder_label n))
                              then 1 else 0) l))%nat.
Proof.
  intros Hsub. induction l as [|n l IH]; simpl; [done|].
  repeat case_decide; try lia. exfalso. auto.
Qed.

Lemma recorded_reminders_le_4 w : (recorded_reminders w <= 4)%nat.
Proof.
  unfold recorded_reminders, reminders. simpl. repeat case_decide; lia.
Qed.

(** Recording a reminder step that was not on record adds one. *)
Lemma recorded_reminders_fresh n v w :
  n ∈ reminders ->
  steps w !! reminder_label n = None ->
  recorded_reminders (record (reminder_label n) v w)
  = S (recorded_reminders w).
Proof.
  unfold reminders. intros Hn Hfresh.
  assert (Hnone : ~ is_Some (steps w !! reminder_label n))
    by (rewrite Hfresh; by intros [? ?]).
  unfold recorded_reminders, reminders. simpl.
  repeat (apply elem_of_cons in Hn as [->|Hn];
          [rewrite lookup_insert_eq, !lookup_insert_ne by (by vm_compute);
           repeat case_decide; try lia;
           (done || (exfalso; by eauto))|]).
  by apply elem_of_nil in Hn.
Qed.

Lemma accounted_same w w' :
  outbox w' = outbox w -> steps w' = steps w -> accounted w w'.
Proof.
  intros Ho Hs. unfold accounted, delivered_count, recorded_reminders.
  rewrite Ho, Hs. by split.
Qed.

Lemma accounted_record k v w : accounted w (record k v w).
Proof.
  split.
  - unfold delivered_count. simpl.
    pose proof (recorded_mono (steps w) (<[k := v]> (steps w)) reminders) as Hm.
    unfold recorded_reminders. simpl.
    apply Nat.add_le_mono_l, Hm. intros k' Hk'.
    apply lookup_insert_is_Some. destruct (decide (k = k')); auto.
  - intros k' Hk'. simpl.
    apply lookup_insert_is_Some. destruct (decide (k = k')); auto.
Qed.

Lemma sendReminderEmail_delivers to type subscription :
  delivers_on_success (sendReminderEmail to type subscription).
Proof.
  intros w. unfold sendReminderEmail.
  destruct (_ || _); [done|].
  destruct to as [to|], type as [type|], subscription as [| |s]; try done.
  destruct (find _ _) as [template|]; [|done].
  destruct (user s) as [owner|]; [|done].
  unfold sendMail_await, sendMail_callback, delivered_count. run_M.
  destruct (smtp (now w) (options _)) as [info|e]; simpl.
  - destruct (smtp (now w) (receipt info)); simpl;
      rewrite !reminder_log_app, !length_app; simpl; split; (done || lia).
  - rewrite reminder_log_app, length_app. simpl. split; (done || lia).
Qed.

Lemma attempt_delivers n fn :
  delivers_on_success fn -> delivers_on_success (attempt n fn).
Proof.
  intros Hfn. induction n as [|n IH]; intros w; simpl;
    destruct (Hfn w) as [Hs Hd];
    destruct (fn w) as [[v|e] w1]; simpl in *; try done.
  destruct (IH w1) as [Hs' Hd']. split; [congruence|].
  destruct (attempt n fn w1) as [[v|e'] w2]; simpl in *; congruence.
Qed.

Lemma triggerReminder_accounted n s :
  n ∈ reminders -> keeps accounted (triggerReminder (reminder_label n) s).
Proof.
  intros Hn w. unfold triggerReminder, context_run, console_log.
  unfold mbind, M_bind. simpl.
  destruct (steps w !! reminder_label n) eqn:Hrec; simpl;
    [by apply accounted_same|].
  assert (Hfn : delivers_on_success
                  match user s with
                  | Some owner =>
                      sendReminderEmail (email owner)
                        (Some (reminder_label n)) (document s)
                  | None =>
                      throw "TypeError: Cannot read properties of null (reading 'email')"
                  end).
  { destruct (user s); [apply sendReminderEmail_delivers|done]. }
  destruct (attempt_delivers (retries w) _ Hfn
              (printed (Log ("Triggering " +:+ reminder_label n +:+ " reminder")) w))
    as [Hs Hd].
  destruct (attempt _ _ _) as [[v|e] w1]; simpl in *.
  - split.
    + unfold delivered_count in *. simpl.
      pose proof (recorded_reminders_fresh n v
                    (elapse (step_end (reminder_label n) (now w)) w1) Hn) as Hr.
      simpl in Hr. rewrite Hs in Hr. specialize (Hr Hrec).
      unfold record in Hr. simpl in Hr. unfold recorded_reminders in *.
      simpl in *. rewrite Hs in *. lia.
    + intros k Hk. simpl. rewrite Hs.
      apply lookup_insert_is_Some. destruct (decide (reminder_label n = k)); auto.
  - split.
    + unfold delivered_count, recorded_reminders in *. rewrite Hs. simpl in Hd. lia.
    + intros k Hk. by rewrite Hs.
Qed.

Lemma remind_accounted s D n :
  n ∈ reminders -> keeps accounted (remind s D n).
Proof.
  intros Hn. unfold remind.
  apply keeps_bind; [apply _|apply keeps_dayjs; apply _|]. intros t.
  apply keeps_bind; [apply _| |].
  { destruct (Dayjs.isAfter _ _); [|apply keeps_ret; apply _].
    apply keeps_bind; [apply _| |intros; apply keeps_ret; apply _].
    apply keeps_bind; [apply _| |].
    - intros w. by apply accounted_same.
    - intros _. apply keeps_context_sleepUntil;
        first [apply _|apply accounted_record
              |unfold keeps; intros; simpl; by apply accounted_same]. }
  intros _. apply keeps_bind; [apply _|apply keeps_dayjs; apply _|]. intros t'.
  destruct (Dayjs.isSame_day _ _ _); [|apply keeps_ret; apply _].
  apply keeps_bind; [apply _| |intros; apply keeps_ret; apply _].
  by apply triggerReminder_accounted.
Qed.

Lemma forOf_keeps_elem {A} R `{!PreOrder R} (xs : list A) body :
  (forall x, x ∈ xs -> keeps R (body x)) -> keeps R (forOf xs body).
Proof.
  induction xs as [|x xs IH]; intros Hb; simpl; [by apply keeps_ret|].
  apply keeps_bind; [done|apply Hb; by left|]. intros _.
  apply IH. intros y Hy. apply Hb. by right.
Qed.

Lemma sendReminders_accounted id : keeps accounted (sendReminders id).
Proof.
  unfold sendReminders. apply keeps_bind; [apply _| |].
  - unfold fetchSubscription.
    apply keeps_context_run;
      first [apply _|apply accounted_record
            |unfold keeps; intros; simpl; by apply accounted_same].
  - intros v. destruct v as [| |s];
      try (intros w; by apply accounted_same).
    destruct (decide _); [|intros w; by apply accounted_same].
    apply keeps_bind; [apply _|apply keeps_dayjs; apply _|]. intros D.
    apply keeps_bind; [apply _|apply keeps_dayjs; apply _|]. intros t.
    destruct (Dayjs.isBefore _ _); [intros w; by apply accounted_same|].
    apply forOf_keeps_elem; [apply _|]. intros n Hn.
    by apply remind_accounted.
Qed.

Lemma lifetime_accounted id w0 w : lifetime id w0 w -> accounted w0 w.
Proof.
  induction 1 as [|w Hl IH|w t Hl IH]; [reflexivity|..].
  - etrans; [exact IH|apply sendReminders_accounted].
  - etrans; [exact IH|by apply accounted_same].
Qed.

(** X6.  Whatever happens to a run over its life (invocations of the
    handler: the first, those after a sleep, those after a failure; time
    passing in between), the reminder mails the transport has accepted never
    outnumber the reminder steps on record, so there are never more than
    four of them. *)
Theorem deliveries_match_recorded_steps tr t0 st w :
  lifetime (body_subscriptionId tr) (start tr t0 st) w ->
  (delivered_count w <= recorded_reminders w)%nat /\
  (delivered_count w <= 4)%nat.
Proof.
  intros Hl. apply lifetime_accounted in Hl as [Hc _].
  pose proof (recorded_reminders_le_4 w).
  unfold delivered_count, recorded_reminders in Hc. simpl in Hc.
  unfold delivered_count, recorded_reminders in *. simpl in *. lia.
Qed.
End Memoisation.

(** ** What of the store a run depends on *)

Section StoreDependence.
Context `{Env}.

Lemma same_host_refl : same_host H H.
Proof. by repeat split. Qed.

(** Two stores that hold the same populated document for the run's id
    give the same run. *)
Lemma serve_same_fetch tr t0 st1 st2 :
  fetched st1 (body_subscriptionId tr) = fetched st2 (body_subscriptionId tr) ->
  (serve tr t0 st1).1 = (serve tr t0 st2).1 /\
  outbox (serve tr t0 st1).2 = outbox (serve tr t0 st2).2.
Proof.
  intros Hsame. rewrite !serve_unfold, Hsame. clear Hsame.
  match goal with
  | |- (?m1 ?a).1 = (?m2 ?b).1 /\ _ =>
      assert (Hal : alike m1 m2);
      [|assert (Hag : agree a b);
        [|destruct (Hal a b Hag) as [Ho Hw]]]
  end.
  - pose proof same_host_refl as Hh.
    destruct (fetched st2 _) as [| |s]; try apply alike_console_log.
    destruct (decide (status s = active)); [|apply alike_console_log].
    apply alike_bind; [apply alike_dayjs|]. intros D.
    apply alike_bind; [apply alike_dayjs|]. intros t.
    destruct (Dayjs.isBefore _ _); [apply alike_console_log|].
    apply alike_forOf. intros n. by apply alike_remind.
  - by repeat split.
  - split; [done|]. by destruct Hw as (_ & _ & _ & _ & ? & _).
Qed.

(** X8.  A run depends on the store only through the document it is
    started for and the e-mail address of that document's owner: two stores
    that agree on these give the same outcome and the same outbox, whatever
    else they hold. *)
Theorem run_depends_only_on_its_document tr t0 st1 st2 :
  subscriptions st1 !! body_subscriptionId tr
  = subscriptions st2 !! body_subscriptionId tr ->
  (forall doc, subscriptions st1 !! body_subscriptionId tr = Some doc ->
               email <$> users st1 !! user doc = email <$> users st2 !! user doc) ->
  (serve tr t0 st1).1 = (serve tr t0 st2).1 /\
  outbox (serve tr t0 st1).2 = outbox (serve tr t0 st2).2.
Proof.
  intros Hdoc Hmail. apply serve_same_fetch.
  unfold fetched, findById_populate. rewrite <- Hdoc.
  destruct (subscriptions st1 !! body_subscriptionId tr) as [doc|] eqn:E;
    [|done].
  simpl. specialize (Hmail doc eq_refl).
  destruct (users st1 !! user doc) as [u1|], (users st2 !! user doc) as [u2|];
    simpl in *; try done.
  unfold select_name_email. by injection Hmail as ->.
Qed.

(** Two stores that hold the same populated document for the run's id
    leave the same world behind, the store apart. *)
Lemma serve_same_fetch_agree tr t0 st1 st2 :
  fetched st1 (body_subscriptionId tr) = fetched st2 (body_subscriptionId tr) ->
  (serve tr t0 st1).1 = (serve tr t0 st2).1 /\
  agree (serve tr t0 st1).2 (serve tr t0 st2).2.
Proof.
  intros Hsame. rewrite !serve_unfold, Hsame. clear Hsame.
  match goal with
  | |- (?m1 ?a).1 = (?m2 ?b).1 /\ _ =>
      assert (Hal : alike m1 m2); [|apply Hal; by repeat split]
  end.
  pose proof same_host_refl as Hh.
  destruct (fetched st2 _) as [| |s]; try apply alike_console_log.
  destruct (decide (status s = active)); [|apply alike_console_log].
  apply alike_bind; [apply alike_dayjs|]. intros D.
  apply alike_bind; [apply alike_dayjs|]. intros t.
  destruct (Dayjs.isBefore _ _); [apply alike_console_log|].
  apply alike_forOf. intros n. by apply alike_remind.
Qed.

(** X9.  [populate("user", "name email")] keeps the username and the
    password out of the run.  Change the usernames and the passwords of the
    store at will, leaving the e-mail addresses: the run has the same
    outcome and leaves the same step record (what the host keeps of the
    fetched document included), the same outbox and the same console. *)
Theorem credentials_never_reach_the_run tr t0 st (other : User -> User) :
  (forall u, email (other u) = email u) ->
  let st' := mkStore (subscriptions st) (other <$> users st) in
  (serve tr t0 st').1 = (serve tr t0 st).1 /\
  steps (serve tr t0 st').2 = steps (serve tr t0 st).2 /\
  outbox (serve tr t0 st').2 = outbox (serve tr t0 st).2 /\
  console (serve tr t0 st').2 = console (serve tr t0 st).2.
Proof.
  intros Hmail st'.
  destruct (serve_same_fetch_agree tr t0 st' st)
    as (Hout & _ & _ & Hsteps & _ & Hbox & Hcon).
  - unfold fetched, findById_populate. subst st'. simpl.
    destruct (subscriptions st !! body_subscriptionId tr) as [doc|]; [|done].
    simpl. rewrite lookup_fmap.
    destruct (users st !! user doc) as [u|]; [|done].
    simpl. unfold select_name_email. by rewrite Hmail.
  - done.
Qed.
End StoreDependence.

(** ** The second call of the mail helper *)

Section SecondSend.
Context `{Env}.

(** X10.  Once the first [sendMail] call is accepted, [sendReminderEmail]
    returns normally whatever the transport says to the second call: the
    outbox gains exactly the composed mail and then the info object handed
    back as a message, and a rejection of that second message only reaches
    the console, from inside the callback. *)
Theorem second_send_cannot_fail_the_helper to lbl s owner tpl info w :
  to <> "" -> lbl <> "" ->
  template_for lbl = Some tpl ->
  user s = Some owner ->
  smtp (now w)
    (options (composed tpl s owner to (default (now w) (renewalDate s))))
    = inl info ->
  exists w',
    sendReminderEmail (Some to) (Some lbl) (document s) w = (Ok undefined, w') /\
    outbox w' = outbox w ++
      [mkDispatch (now w)
         (options (composed tpl s owner to (default (now w) (renewalDate s))))
         (inl info);
       mkDispatch (now w) (receipt info) (smtp (now w) (receipt info))] /\
    (forall e, smtp (now w) (receipt info) = inr e ->
       console w' = console w ++
         [Error ("Error sending email: " +:+ e);
          Uncaught "Failed to send email"]).
Proof.
  intros Hto Hl Ht Hu Hm.
  apply truthy_Some in Hto. apply truthy_Some in Hl.
  unfold template_for in Ht. unfold composed in Hm.
  unfold sendReminderEmail. unfold truthy in *. rewrite Hto, Hl. simpl.
  rewrite Ht, Hu. unfold sendMail_await, sendMail_callback. run_M.
  unfold composed. rewrite Hm. simpl.
  destruct (smtp (now w) (receipt info)) as [i|e0] eqn:E; simpl;
    eexists; (split; [reflexivity|]); simpl;
    rewrite <- ?app_assoc; (split; [done|]); intros e' [= <-].
  done.
Qed.
End SecondSend.

(* ===================================================================== *)
(** * Further properties of the save hook and of creation *)
(* ===================================================================== *)

Section SaveHook.
Import Dayjs.

(** The renewal date a document has once the hook has run. *)
Lemma pre_save_renewalDate {U} today (this : Subscription U) :
  renewalDate (pre_save today this)
  = Some (default (startDate this + renewalPeriods (frequency this) * day_ms)
            (renewalDate this)).
Proof.
  unfold pre_save, setDate_plus.
  destruct (renewalDate this) as [r|] eqn:Hr; simpl.
  - rewrite Hr. by destruct (r <? today); simpl.
  - by destruct (_ <? today); simpl.
Qed.

(** Status, id and owner after the hook. *)
Lemma pre_save_touches_two_fields_aux {U} today (this : Subscription U) :
  status (pre_save today this)
  = (if default (startDate this + renewalPeriods (frequency this) * day_ms)
          (renewalDate this) <? today
     then expired else status this) /\
  sub_id (pre_save today this) = sub_id this /\
  user (pre_save today this) = user this.
Proof.
  destruct this as [i n p f c g m st sd [r|] u];
    unfold pre_save, setDate_plus; simpl.
  - by destruct (r <? today).
  - by destruct (_ <? today).
Qed.

(** X11.  Saving a document again on a later day gives what saving it once
    on that day gives: the hook neither moves a renewal date it has set nor
    revives a status it has expired. *)
Theorem pre_save_again_later {U} (today today' : Z) (this : Subscription U) :
  today <= today' ->
  pre_save today' (pre_save today this) = pre_save today' this.
Proof.
  intros Hle. destruct this as [i n p f c g m st sd [r|] u];
    unfold pre_save, setDate_plus; simpl.
  - destruct (Z.ltb_spec r today), (Z.ltb_spec r today'); simpl;
      rewrite ?Z.ltb_irrefl; try done; try lia.
    + destruct (Z.ltb_spec r today'); [done|lia].
    + destruct (Z.ltb_spec r today'); [done|lia].
    + destruct (Z.ltb_spec r today'); [lia|done].
  - set (r := sd + renewalPeriods f * day_ms).
    destruct (Z.ltb_spec r today), (Z.ltb_spec r today'); simpl;
      try done; try lia.
    + destruct (Z.ltb_spec r today'); [done|lia].
    + destruct (Z.ltb_spec r today'); [done|lia].
    + destruct (Z.ltb_spec r today'); [lia|done].
Qed.

(** X12.  The [save] hook touches two fields only.  The status becomes
    [expired] exactly when the renewal date (the given one, or the one the
    hook computes) is before today, and is kept otherwise; a computed renewal
    date lies between one day and 365 days after the start date; every other
    field is kept. *)
Theorem pre_save_touches_two_fields {U} (today : Z) (this : Subscription U) :
  let saved := pre_save today this in
  let r := default (startDate this + renewalPeriods (frequency this) * day_ms)
             (renewalDate this) in
  status saved = (if r <? today then expired else status this) /\
  (renewalDate this = None ->
     startDate this + day_ms <= r <= startDate this + 365 * day_ms) /\
  sub_id saved = sub_id this /\ name saved = name this /\
  price saved = price this /\ frequency saved = frequency this /\
  currency saved = currency this /\ category saved = category this /\
  paymentMethod saved = paymentMethod this /\
  startDate saved = startDate this /\ user saved = user this.
Proof.
  destruct this as [i n p f c g m st sd [r|] u];
    unfold pre_save, setDate_plus; simpl.
  - destruct (r <? today); simpl; repeat split; done.
  - destruct (_ <? today); simpl; repeat split; try done;
      destruct f; simpl; unfold day_ms; lia.
Qed.
End SaveHook.

Section Creation.
Context `{Env}.
Import Dayjs.

(** The document that is stored, and the run that is asked for. *)
Lemma stored_and_triggered_stores url today newId body uid st :
  subscriptions (stored_and_triggered url today newId body uid st).1 !! newId
  = Some (pre_save today
            (mkSubscription newId (name body) (price body) (frequency body)
               (currency body) (category body) (paymentMethod body)
               (status body) (startDate body) (renewalDate body) uid)) /\
  users (stored_and_triggered url today newId body uid st).1 = users st /\
  body_subscriptionId (stored_and_triggered url today newId body uid st).2 = newId.
Proof.
  unfold stored_and_triggered. simpl. rewrite lookup_insert_eq.
  split; [done|]. split; [done|].
  unfold pre_save. simpl. destruct (renewalDate body) as [r|]; simpl.
  - by destruct (r <? today).
  - by destruct (_ <? today).
Qed.

(** What storing leaves behind: the new document under its id, owned by
    the requester, with a renewal date, and not active unless that date is
    today or later; the populated lookup finds it; the run is asked for
    this id; every other document and every user is untouched. *)
Lemma stored_document_round_trip url today newId body uid st :
  let st' := (stored_and_triggered url today newId body uid st).1 in
  let tr := (stored_and_triggered url today newId body uid st).2 in
  exists doc,
    subscriptions st' !! newId = Some doc /\
    sub_id doc = newId /\
    user doc = uid /\
    is_Some (renewalDate doc) /\
    (status doc = active ->
       forall r, renewalDate doc = Some r -> today <= r) /\
    findById_populate st' newId
    = Some (with_user doc (select_name_email <$> users st !! uid)) /\
    body_subscriptionId tr = newId /\
    (forall id, id <> newId ->
       subscriptions st' !! id = subscriptions st !! id) /\
    users st' = users st.
Proof.
  intros st' tr.
  destruct (stored_and_triggered_stores url today newId body uid st)
    as (Hdoc & Husers & Hid).
  set (doc0 := mkSubscription newId (name body) (price body) (frequency body)
                 (currency body) (category body) (paymentMethod body)
                 (status body) (startDate body) (renewalDate body) uid) in *.
  pose proof (pre_save_touches_two_fields_aux today doc0) as Hframe.
  exists (pre_save today doc0). subst st' tr.
  destruct Hframe as (Hst & Hid' & Huser).
  split; [done|]. split; [by rewrite Hid'|]. split; [by rewrite Huser|].
  split; [rewrite pre_save_renewalDate; by eexists|].
  split.
  { intros Hact r Hr. rewrite pre_save_renewalDate in Hr.
    injection Hr as <-. rewrite Hst in Hact. subst doc0. simpl in *.
    match goal with
    | |- today <= ?x =>
        destruct (Z.ltb_spec x today) as [Hlt|Hge]; [done|exact Hge]
    end. }
  split.
  { unfold findById_populate. rewrite Hdoc. simpl.
    by rewrite ?Husers, ?Huser. }
  split; [done|]. split; [|done].
  intros id Hne. unfold stored_and_triggered. simpl.
  by rewrite lookup_insert_ne.
Qed.

(** A document stored with a renewal date before today is [expired], and
    a run for it sends nothing. *)
Lemma stored_expired_gets_no_reminder url today newId body uid st t0 :
  default (startDate body + renewalPeriods (frequency body) * day_ms)
    (renewalDate body) < today ->
  exists w',
    serve (stored_and_triggered url today newId body uid st).2 t0
      (stored_and_triggered url today newId body uid st).1 = (Ok tt, w') /\
    outbox w' = [] /\
    (status <$> subscriptions (stored_and_triggered url today newId body uid st).1
                  !! newId) = Some expired.
Proof.
  intros Hpast.
  destruct (stored_and_triggered_stores url today newId body uid st)
    as (Hdoc & Husers & Hid).
  set (doc0 := mkSubscription newId (name body) (price body) (frequency body)
                 (currency body) (category body) (paymentMethod body)
                 (status body) (startDate body) (renewalDate body) uid) in *.
  destruct (pre_save_touches_two_fields_aux today doc0) as (Hst & _ & _).
  simpl in Hst. apply Z.ltb_lt in Hpast. rewrite Hpast in Hst.
  rewrite serve_unfold, Hid. unfold fetched, findById_populate.
  rewrite Hdoc. cbn [mbind option_bind].
  destruct (decide (status (with_user (pre_save today doc0)
                              (select_name_email <$>
                               users (stored_and_triggered url today newId body
                                        uid st).1 !! user (pre_save today doc0)))
                    = active)) as [Hact|_].
  { simpl in Hact. by rewrite Hst in Hact. }
  eexists. split; [reflexivity|]. split; [done|].
  simpl. by rewrite Hst.
Qed.

(** A document stored active without a renewal date, and a run for it
    that starts more than seven days before the computed date. *)
Lemma stored_then_reminded url today newId body uid st t0 u to :
  prompt -> brisk -> accepting ->
  (forall n, n ∈ reminders -> is_Some (template_for (reminder_label n))) ->
  renewalDate body = None ->
  status body = active ->
  users st !! uid = Some u -> email u = Some to -> to <> "" ->
  let D := startDate body + renewalPeriods (frequency body) * day_ms in
  today <= D ->
  Z.max t0 (step_end "get subscription" t0) < D - 7 * day_ms ->
  exists w' s entries,
    serve (stored_and_triggered url today newId body uid st).2 t0
      (stored_and_triggered url today newId body uid st).1 = (Ok tt, w') /\
    findById_populate (stored_and_triggered url today newId body uid st).1 newId
    = Some s /\
    renewalDate s = Some D /\
    Forall2 (due s (select_name_email u) to D) reminders entries /\
    reminder_log (outbox w') = entries /\
    length (outbox w') = 8%nat.
Proof.
  intros Hp Hb Ha Ht Hnone Hact Hu He Hto D Hfuture Hstart.
  destruct (stored_and_triggered_stores url today newId body uid st)
    as (Hdoc & Husers & Hid).
  set (doc0 := mkSubscription newId (name body) (price body) (frequency body)
                 (currency body) (category body) (paymentMethod body)
                 (status body) (startDate body) (renewalDate body) uid) in *.
  destruct (pre_save_touches_two_fields_aux today doc0) as (Hst & _ & Huser).
  pose proof (pre_save_renewalDate today doc0) as Hren.
  simpl in Hst, Huser, Hren. rewrite Hnone in Hst, Hren. simpl in Hst, Hren.
  fold D in Hst, Hren.
  destruct (Z.ltb_spec D today); [lia|].
  set (s := with_user (pre_save today doc0) (Some (select_name_email u))).
  assert (Hfind : findById_populate
                    (stored_and_triggered url today newId body uid st).1 newId
                  = Some s).
  { unfold findById_populate. rewrite Hdoc. cbn [mbind option_bind].
    by rewrite Husers, Huser, Hu. }
  destruct (run_on_schedule (stored_and_triggered url today newId body uid st).2
              t0 (stored_and_triggered url today newId body uid st).1
              s (select_name_email u) to D)
    as (w' & entries & Hrun & Hdue & Hlog & Hlen & _); auto.
  { by rewrite Hid. }
  { subst s. simpl. by rewrite Hst. }
  exists w', s, entries. by repeat split.
Qed.
End Creation.

(* ===================================================================== *)
(** * Properties of the request handlers and the middlewares *)
(* ===================================================================== *)

Section HandlerFacts.

(** X16.  [getUserSubscriptions] never lists anything: [req.params.id] is
    a string and [req.user._id] an [ObjectId], so [!==] holds for every
    request, and the handler answers 401 (or 400 when the id is missing)
    whoever asks. *)
Theorem getUserSubscriptions_always_refuses {B} (req : Request B) (st : Store) :
  Handlers.getUserSubscriptions req st
  = if truthy (params_id req)
    then next (mkHttpError "Unauthorized" (Some 401%nat))
    else next (mkHttpError "Subscription ID is required" (Some 400%nat)).
Proof.
  unfold Handlers.getUserSubscriptions.
  destruct (truthy (params_id req)) eqn:Hid; simpl; [|done].
  by destruct (params_id req).
Qed.

(** What a successful creation stores and answers. *)
Lemma createSubscription_succeeds out today req st run :
  validation out today (with_user (body req) (toHexString (user_id req))) = None ->
  trigger out (stored_and_triggered (SERVER_URL out) today (newId out st)
                 (body req) (toHexString (user_id req)) st).2 = inl run ->
  Handlers.createSubscription out today req st
  = (res_json 201 true "Subscription created successfully"
       (one (new_document today (newId out st) (body req)
               (toHexString (user_id req)))) (Some run),
     (stored_and_triggered (SERVER_URL out) today (newId out st)
        (body req) (toHexString (user_id req)) st).1).
Proof.
  intros Hv Ht. unfold Handlers.createSubscription. rewrite Hv.
  destruct (stored_and_triggered _ _ _ _ _ _) as [st' tr] eqn:E.
  simpl in *. by rewrite Ht.
Qed.

(** X17.  A subscription that was created can be read back by its id, and
    by any authenticated requester: [getSubscription] does not compare the
    document's owner with [req.user]. *)
Theorem created_is_readable_by_any_requester
    out today (req : Request (Subscription string)) st run :
  validation out today (with_user (body req) (toHexString (user_id req))) = None ->
  trigger out (stored_and_triggered (SERVER_URL out) today (newId out st)
                 (body req) (toHexString (user_id req)) st).2 = inl run ->
  newId out st <> "" ->
  exists doc st',
    Handlers.createSubscription out today req st
    = (res_json 201 true "Subscription created successfully" (one doc)
         (Some run), st') /\
    user doc = toHexString (user_id req) /\
    sub_id doc = newId out st /\
    forall B (req' : Request B),
      params_id req' = Some (newId out st) ->
      Handlers.getSubscription req' st'
      = res_json 200 true "Subscription fetched successfully" (one doc) None.
Proof.
  intros Hv Ht Hid.
  eexists _, _. split; [by apply createSubscription_succeeds|].
  destruct (pre_save_touches_two_fields_aux today
              (mkSubscription (newId out st) (name (body req)) (price (body req))
                 (frequency (body req)) (currency (body req))
                 (category (body req)) (paymentMethod (body req))
                 (status (body req)) (startDate (body req))
                 (renewalDate (body req)) (toHexString (user_id req))))
    as (_ & Hi & Hu).
  split; [exact Hu|]. split; [exact Hi|].
  intros B req' Hp. unfold Handlers.getSubscription. rewrite Hp.
  apply truthy_Some in Hid. rewrite Hid. simpl.
  by rewrite lookup_insert_eq.
Qed.

(** X18.  Deleting an existing subscription answers 200 with the deleted
    document, removes that document and nothing else, and is final: reading
    it or deleting it again answers 404.  The requester need not be the
    owner. *)
Theorem deleted_is_gone {B} (req : Request B) st id doc :
  params_id req = Some id -> id <> "" ->
  subscriptions st !! id = Some doc ->
  exists st',
    Handlers.deleteSubscription req st
    = (res_json 200 true "Subscription deleted successfully" (one doc) None,
       st') /\
    subscriptions st' !! id = None /\
    (forall id', id' <> id ->
       subscriptions st' !! id' = subscriptions st !! id') /\
    users st' = users st /\
    (forall C (req' : Request C),
       params_id req' = Some id ->
       Handlers.getSubscription req' st'
       = next (mkHttpError "Subscription not found" (Some 404%nat))) /\
    Handlers.deleteSubscription req st'
    = (next (mkHttpError "Subscription not found" (Some 404%nat)), st').
Proof.
  intros Hp Hid Hdoc. apply truthy_Some in Hid.
  eexists. split.
  { unfold Handlers.deleteSubscription. by rewrite Hp, Hid, Hdoc. }
  simpl. rewrite lookup_delete_eq. split; [done|].
  split; [intros id' Hne; by rewrite lookup_delete_ne|]. split; [done|].
  split.
  - intros C req' Hp'. unfold Handlers.getSubscription. rewrite Hp', Hid. simpl.
    by rewrite lookup_delete_eq.
  - unfold Handlers.deleteSubscription. rewrite Hp, Hid. simpl.
    by rewrite lookup_delete_eq.
Qed.

(** X19.  Updating an existing subscription answers 200 with the document
    after the update ([new: true]), which keeps its id and is what a later
    read returns; no other document and no user changes. *)
Theorem updated_round_trip (req : Request Patch) st id old :
  params_id req = Some id -> id <> "" ->
  subscriptions st !! id = Some old ->
  exists st',
    Handlers.updateSubscription req st
    = (res_json 200 true "Subscription updated successfully"
         (one (updated (body req) old)) None, st') /\
    sub_id (updated (body req) old) = sub_id old /\
    (forall C (req' : Request C),
       params_id req' = Some id ->
       Handlers.getSubscription req' st'
       = res_json 200 true "Subscription fetched successfully"
           (one (updated (body req) old)) None) /\
    (forall id', id' <> id ->
       subscriptions st' !! id' = subscriptions st !! id') /\
    users st' = users st.
Proof.
  intros Hp Hid Hdoc. apply truthy_Some in Hid.
  eexists. split.
  { unfold Handlers.updateSubscription. by rewrite Hp, Hid, Hdoc. }
  simpl. split; [done|]. split.
  - intros C req' Hp'. unfold Handlers.getSubscription. rewrite Hp', Hid. simpl.
    by rewrite lookup_insert_eq.
  - split; [|done]. intros id' Hne. by rewrite lookup_insert_ne.
Qed.

(** X20.  [findByIdAndUpdate] runs no [save] hook: an update can leave a
    document [active] with a renewal date in the past, which saving the
    same document would have marked [expired]. *)
Theorem update_bypasses_the_save_hook (req : Request Patch) st id old r today :
  params_id req = Some id -> id <> "" ->
  subscriptions st !! id = Some old ->
  set_status (body req) = Some active ->
  set_renewalDate (body req) = Some r ->
  r < today ->
  exists doc,
    subscriptions (Handlers.updateSubscription req st).2 !! id = Some doc /\
    status doc = active /\
    renewalDate doc = Some r /\
    status (pre_save today doc) = expired.
Proof.
  intros Hp Hid Hdoc Hs Hr Hpast. apply truthy_Some in Hid.
  exists (updated (body req) old).
  unfold Handlers.updateSubscription. rewrite Hp, Hid, Hdoc. simpl.
  rewrite lookup_insert_eq. split; [done|].
  unfold updated. rewrite Hs, Hr. simpl. split; [done|]. split; [done|].
  unfold pre_save. simpl. apply Z.ltb_lt in Hpast. by rewrite Hpast.
Qed.

(** X21.  How [createSubscription] fails.  When validation rejects the
    document, the error goes to [next] and the store is unchanged.  When the
    document is stored and the workflow trigger then fails, the error goes
    to [next] as well, but the document stays in the store: the client is
    told of a failure and the subscription exists, with no run to remind
    of it. *)
Theorem failed_creation out today (req : Request (Subscription string)) st :
  (forall e,
     validation out today (with_user (body req) (toHexString (user_id req)))
     = Some e ->
     Handlers.createSubscription out today req st
     = (next (mkHttpError e None), st)) /\
  (forall e,
     validation out today (with_user (body req) (toHexString (user_id req)))
     = None ->
     trigger out (stored_and_triggered (SERVER_URL out) today (newId out st)
                    (body req) (toHexString (user_id req)) st).2 = inr e ->
     exists st',
       Handlers.createSubscription out today req st
       = (next (mkHttpError e None), st') /\
       subscriptions st' !! newId out st
       = Some (new_document today (newId out st) (body req)
                 (toHexString (user_id req)))).
Proof.
  split.
  - intros e Hv. unfold Handlers.createSubscription. by rewrite Hv.
  - intros e Hv Ht. unfold Handlers.createSubscription. rewrite Hv.
    destruct (stored_and_triggered _ _ _ _ _ _) as [st' tr] eqn:E.
    simpl in Ht. rewrite Ht. exists st'. split; [done|].
    unfold stored_and_triggered in E. injection E as <- _. simpl.
    by rewrite lookup_insert_eq.
Qed.
End HandlerFacts.

(** ** Creation through the handler *)

Section CreationThroughTheHandler.
Context `{Env}.
Import Dayjs.

(** Once validation has passed the document is stored, whatever the
    workflow client answers. *)
Lemma createSubscription_store out today
    (req : Request (Subscription string)) st :
  validation out today (with_user (body req) (toHexString (user_id req))) = None ->
  (Handlers.createSubscription out today req st).2
  = (stored_and_triggered (SERVER_URL out) today (newId out st) (body req)
       (toHexString (user_id req)) st).1.
Proof.
  intros Hv. unfold Handlers.createSubscription. rewrite Hv.
  destruct (stored_and_triggered _ _ _ _ _ _) as [st' tr].
  by destruct (trigger out tr).
Qed.

(** X13.  What [createSubscription] leaves behind for a body that passes
    the schema validation: the store holds the new document under its id,
    owned by the requester, with a renewal date, and not active unless
    that date is today or later; [findById(..).populate(..)] finds it with
    its owner resolved; the run is asked for this id; every other document
    and every user is untouched. *)
Theorem created_document_round_trip out today
    (req : Request (Subscription string)) st :
  validation out today (with_user (body req) (toHexString (user_id req))) = None ->
  exists doc,
    subscriptions (Handlers.createSubscription out today req st).2
      !! newId out st = Some doc /\
    sub_id doc = newId out st /\
    user doc = toHexString (user_id req) /\
    is_Some (renewalDate doc) /\
    (status doc = active ->
       forall r, renewalDate doc = Some r -> today <= r) /\
    findById_populate (Handlers.createSubscription out today req st).2
      (newId out st)
    = Some (with_user doc
              (select_name_email <$> users st !! toHexString (user_id req))) /\
    body_subscriptionId
      (stored_and_triggered (SERVER_URL out) today (newId out st) (body req)
         (toHexString (user_id req)) st).2 = newId out st /\
    (forall id, id <> newId out st ->
       subscriptions (Handlers.createSubscription out today req st).2 !! id
       = subscriptions st !! id) /\
    users (Handlers.createSubscription out today req st).2 = users st.
Proof.
  intros Hv. rewrite (createSubscription_store out today req st Hv).
  apply stored_document_round_trip.
Qed.

(** X14.  A subscription created without a renewal date, by a body that
    passes the schema validation, whose computed renewal date (start date
    plus the period of the frequency) is before the day of its creation, is
    stored as [expired] and answered with 201 all the same; the run
    triggered for it ends normally without sending anything. *)
Theorem born_expired_gets_no_reminder out today
    (req : Request (Subscription string)) st run t0 :
  validation out today (with_user (body req) (toHexString (user_id req))) = None ->
  trigger out (stored_and_triggered (SERVER_URL out) today (newId out st)
                 (body req) (toHexString (user_id req)) st).2 = inl run ->
  renewalDate (body req) = None ->
  startDate (body req) + renewalPeriods (frequency (body req)) * day_ms
    < today ->
  exists doc st' w',
    Handlers.createSubscription out today req st
    = (res_json 201 true "Subscription created successfully" (one doc)
         (Some run), st') /\
    subscriptions st' !! newId out st = Some doc /\
    status doc = expired /\
    serve (stored_and_triggered (SERVER_URL out) today (newId out st)
             (body req) (toHexString (user_id req)) st).2 t0 st'
    = (Ok tt, w') /\
    outbox w' = [].
Proof.
  intros Hv Ht Hnone Hpast.
  destruct (stored_expired_gets_no_reminder (SERVER_URL out) today
              (newId out st) (body req) (toHexString (user_id req)) st t0)
    as (w' & Hrun & Hout & Hst).
  { by rewrite Hnone. }
  destruct (stored_and_triggered_stores (SERVER_URL out) today (newId out st)
              (body req) (toHexString (user_id req)) st) as (Hdoc & _ & _).
  eexists _, _, w'.
  split; [by apply createSubscription_succeeds|].
  split; [exact Hdoc|]. split; [|split; [exact Hrun|exact Hout]].
  rewrite Hdoc in Hst. simpl in Hst. by injection Hst.
Qed.

(** X15.  End to end: an active subscription created without a renewal
    date, by a body that passes the schema validation, for a user with an
    e-mail address.  If the computed renewal date is more than seven days
    after the run first reads the clock, the run delivers the four
    reminders, each on its day, counted from start date plus the period of
    the frequency (and hands the transport eight messages in all, every
    reminder being followed by the second send of the mail helper). *)
Theorem created_then_reminded out today
    (req : Request (Subscription string)) st run t0 u to :
  prompt -> brisk -> accepting ->
  (forall n, n ∈ reminders -> is_Some (template_for (reminder_label n))) ->
  validation out today (with_user (body req) (toHexString (user_id req))) = None ->
  trigger out (stored_and_triggered (SERVER_URL out) today (newId out st)
                 (body req) (toHexString (user_id req)) st).2 = inl run ->
  renewalDate (body req) = None ->
  status (body req) = active ->
  users st !! toHexString (user_id req) = Some u ->
  email u = Some to -> to <> "" ->
  let D := startDate (body req)
           + renewalPeriods (frequency (body req)) * day_ms in
  today <= D ->
  Z.max t0 (step_end "get subscription" t0) < D - 7 * day_ms ->
  exists doc st' w' s entries,
    Handlers.createSubscription out today req st
    = (res_json 201 true "Subscription created successfully" (one doc)
         (Some run), st') /\
    serve (stored_and_triggered (SERVER_URL out) today (newId out st)
             (body req) (toHexString (user_id req)) st).2 t0 st'
    = (Ok tt, w') /\
    findById_populate st' (newId out st) = Some s /\
    renewalDate s = Some D /\
    Forall2 (due s (select_name_email u) to D) reminders entries /\
    reminder_log (outbox w') = entries /\
    length (outbox w') = 8%nat.
Proof.
  intros Hp Hb Ha Htpl Hv Ht Hnone Hact Hu He Hto D Hfuture Hstart.
  destruct (stored_then_reminded (SERVER_URL out) today (newId out st)
              (body req) (toHexString (user_id req)) st t0 u to)
    as (w' & s & entries & Hrun & Hfind & HD & Hdue & Hlog & Hlen); auto.
  eexists _, _, w', s, entries.
  split; [by apply createSubscription_succeeds|].
  by repeat split.
Qed.
End CreationThroughTheHandler.

Section HandlersAndRuns.
Context `{Env}.

(** A run whose store holds no active document under its id. *)
Lemma serve_stops tr t0 st :
  (forall doc, subscriptions st !! body_subscriptionId tr = Some doc ->
               status doc <> active) ->
  exists w', serve tr t0 st = (Ok tt, w') /\ outbox w' = [].
Proof.
  intros Hno. rewrite serve_unfold. unfold fetched, findById_populate.
  destruct (subscriptions st !! body_subscriptionId tr) as [doc|] eqn:E;
    simpl; [|by eexists].
  destruct (decide (status doc = active)) as [Hact|]; [|by eexists].
  by destruct (Hno doc eq_refl).
Qed.

(** X22.  A subscription cancelled through [updateSubscription], or
    deleted through [deleteSubscription], before its run first reads it gets
    no reminder: the run ends normally with an empty outbox. *)
Theorem cancelled_or_deleted_before_the_run tr t0 st old :
  body_subscriptionId tr <> "" ->
  subscriptions st !! body_subscriptionId tr = Some old ->
  (forall (req : Request Patch),
     params_id req = Some (body_subscriptionId tr) ->
     set_status (body req) = Some cancelled ->
     exists w',
       serve tr t0 (Handlers.updateSubscription req st).2 = (Ok tt, w') /\
       outbox w' = []) /\
  (forall B (req : Request B),
     params_id req = Some (body_subscriptionId tr) ->
     exists w',
       serve tr t0 (Handlers.deleteSubscription req st).2 = (Ok tt, w') /\
       outbox w' = []).
Proof.
  intros Hid Hold. apply truthy_Some in Hid. split.
  - intros req Hp Hs. apply serve_stops. intros doc.
    unfold Handlers.updateSubscription. rewrite Hp, Hid, Hold. simpl.
    rewrite lookup_insert_eq. intros [= <-]. simpl. by rewrite Hs.
  - intros B req Hp. apply serve_stops. intros doc.
    unfold Handlers.deleteSubscription. rewrite Hp, Hid, Hold. simpl.
    by rewrite lookup_delete_eq.
Qed.
End HandlersAndRuns.

(** ** The bearer token *)

Section Bearer.

Lemma split_spaceless t : spaceless t = true -> split space t = [t].
Proof.
  induction t as [|a t IH]; [done|]. simpl.
  intros [Ha Ht]%andb_true_iff. apply negb_true_iff in Ha.
  by rewrite Ha, IH.
Qed.

Lemma split_Bearer t :
  spaceless t = true -> split space ("Bearer " +:+ t) = ["Bearer"; t].
Proof. intros Ht. simpl. by rewrite split_spaceless. Qed.

(** When the middleware lets a request through. *)
Lemma authorizeUser_authorized_inv verify fresh authorization st _id u :
  authorizeUser verify fresh authorization st = authorized _id u ->
  exists header token id,
    authorization = Some header /\
    String.prefix "Bearer" header = true /\
    split space header !! 1%nat = Some token /\
    token <> "" /\
    verify token = inl (Some id) /\
    users st !! id = Some u /\
    _id = mkObjectId fresh id.
Proof.
  unfold authorizeUser.
  destruct authorization as [header|]; [|done].
  destruct (truthy (Some header) && String.prefix "Bearer" header) eqn:Hh;
    [|done].
  apply andb_true_iff in Hh as [_ Hpre].
  destruct (split space header !! 1%nat) as [token|] eqn:Htok; [|done].
  destruct (truthy (Some token)) eqn:Ht; [|done]. simpl.
  destruct (verify token) as [[id|]|e] eqn:Hv; try done. simpl.
  destruct (users st !! id) as [u'|] eqn:Hu; [|done]. simpl.
  intros [= <- <-]. exists header, token, id.
  apply truthy_Some in Ht. by repeat split.
Qed.

(** X23.  [authorizeUser] lets a request through exactly when its
    [Authorization] header starts with "Bearer", the second of its
    space-separated parts is a non-empty token that [jwt.verify] accepts,
    and the decoded id is that of a stored user; [req.user] is then that
    user. *)
Theorem authorizeUser_passes_iff verify fresh authorization st _id u :
  authorizeUser verify fresh authorization st = authorized _id u <->
  exists header token id,
    authorization = Some header /\
    String.prefix "Bearer" header = true /\
    split space header !! 1%nat = Some token /\
    token <> "" /\
    verify token = inl (Some id) /\
    users st !! id = Some u /\
    _id = mkObjectId fresh id.
Proof.
  split; [apply authorizeUser_authorized_inv|].
  intros (header & token & id & -> & Hpre & Htok & Ht & Hv & Hu & ->).
  unfold authorizeUser.
  assert (Hh : truthy (Some header) = true).
  { apply truthy_Some. intros ->. by simpl in Hpre. }
  rewrite Hh, Hpre. simpl. rewrite Htok.
  apply truthy_Some in Ht. rewrite Ht. simpl.
  rewrite Hv. simpl. by rewrite Hu.
Qed.

(** X24.  The header "Bearer <token>" of a token without spaces hands
    exactly that token to [jwt.verify], and the outcome is decided by the
    verification and the user lookup; with two spaces after "Bearer", with
    the bare token, or with no header at all, the request is refused with
    401 before any verification. *)
Theorem bearer_header_round_trip verify fresh token st :
  spaceless token = true -> token <> "" ->
  authorizeUser verify fresh (Some ("Bearer " +:+ token)) st
  = match verify token with
    | inr e => refused (mkHttpError e None)
    | inl None => refused (mkHttpError "Unauthorized" (Some 401%nat))
    | inl (Some id) =>
        match users st !! id with
        | Some u => authorized (mkObjectId fresh id) u
        | None => refused (mkHttpError "Unauthorized" (Some 401%nat))
        end
    end /\
  authorizeUser verify fresh (Some ("Bearer  " +:+ token)) st
  = refused (mkHttpError "Unauthorized" (Some 401%nat)) /\
  authorizeUser verify fresh (Some token) st
  = refused (mkHttpError "Unauthorized" (Some 401%nat)) /\
  authorizeUser verify fresh None st
  = refused (mkHttpError "Unauthorized" (Some 401%nat)).
Proof.
  intros Hsp Ht. split; [|split; [|split; [|done]]].
  - unfold authorizeUser.
    change (truthy (Some ("Bearer " +:+ token))
            && String.prefix "Bearer" ("Bearer " +:+ token)) with true.
    cbv iota. rewrite split_Bearer by done. cbn [lookup list_lookup].
    apply truthy_Some in Ht. rewrite Ht. simpl.
    destruct (verify token) as [[id|]|e]; try done. simpl.
    by destruct (users st !! id).
  - unfold authorizeUser.
    change (truthy (Some ("Bearer  " +:+ token))
            && String.prefix "Bearer" ("Bearer  " +:+ token)) with true.
    cbv iota. simpl. by destruct (split space token).
  - unfold authorizeUser.
    destruct (truthy (Some token) && String.prefix "Bearer" token); [|done].
    by rewrite split_spaceless.
Qed.
End Bearer.

(** ** A route behind its middlewares *)

Section Routes.

(** X25.  [POST /api/v1/subscriptions] behind the two middlewares: if the
    request changed the store at all, then Arcjet allowed it, it carried a
    bearer token that verified to the id of a stored user, and what was
    stored is the new document owned by that user, whatever [user] the body
    named. *)
Theorem only_authenticated_requests_create
    out today verify fresh protected authorization payload st reply st' :
  post_subscription out today verify fresh protected authorization payload st
  = (reply, st') ->
  st' <> st ->
  protected = inl allowed /\
  exists header token id u,
    authorization = Some header /\
    String.prefix "Bearer" header = true /\
    split space header !! 1%nat = Some token /\
    verify token = inl (Some id) /\
    users st !! id = Some u /\
    subscriptions st' !! newId out st
    = Some (new_document today (newId out st) payload id) /\
    user (new_document today (newId out st) payload id) = id.
Proof.
  unfold post_subscription, behind_middlewares. intros Hrun Hchanged.
  destruct (arcjetMiddleware protected) as [e|] eqn:Haj;
    [injection Hrun as _ <-; done|].
  assert (protected = inl allowed) as ->.
  { destruct protected as [[|[| |]]|e]; by simpl in Haj. }
  split; [done|].
  destruct (authorizeUser verify fresh authorization st) as [_id u|e] eqn:Hau;
    [|injection Hrun as _ <-; done].
  apply authorizeUser_authorized_inv in Hau
    as (header & token & id & -> & Hpre & Htok & _ & Hv & Hu & ->).
  exists header, token, id, u. repeat split; try done.
  - unfold Handlers.createSubscription in Hrun. simpl in Hrun.
    destruct (validation out today _) as [e|];
      [injection Hrun as _ <-; done|].
    destruct (trigger out _); injection Hrun as _ <-; simpl;
      by rewrite lookup_insert_eq.
  - apply pre_save_touches_two_fields_aux.
Qed.
End Routes.

(* ===================================================================== *)
(** * The further properties at work *)
(* ===================================================================== *)

Section MoreExamples.
Import Scenario Desk Dayjs.

Lemma passed_thresholds_are_skipped_witness :
  exists w' entries,
    @serve punctual go feb11 (shop active feb15) = (Ok tt, w') /\
    Forall2 (@due punctual (snapshot active feb15) (select_name_email ada)
               "ada@example.com" feb15) [3; 1] entries /\
    reminder_log (outbox w') = entries.
Proof.
  apply (@passed_thresholds_are_skipped punctual go feb11 (shop active feb15)
           (snapshot active feb15) (select_name_email ada) "ada@example.com"
           feb15 [7; 5] [3; 1]).
  - reflexivity.
  - exact punctual_prompt.
  - exact punctual_brisk.
  - exact punctual_accepting.
  - intros n Hn. apply punctual_templates. unfold reminders.
    rewrite !elem_of_cons. rewrite !elem_of_cons in Hn. tauto.
  - reflexivity.
  - reflexivity.
  - reflexivity.
  - reflexivity.
  - reflexivity.
  - discriminate.
  - by vm_compute.
  - intros n Hn.
    repeat (apply elem_of_cons in Hn as [->|Hn]; [by vm_compute|]).
    by apply elem_of_nil in Hn.
  - by vm_compute.
Defined.

Lemma no_renewal_date_no_reminder_witness :
  exists w',
    @serve punctual go feb01 undated = (Ok tt, w') /\ outbox w' = [].
Proof.
  destruct (@no_renewal_date_no_reminder punctual go feb01 undated
              (with_renewalDate (snapshot active feb15) None))
    as (w' & Hrun & Hout & _).
  - reflexivity.
  - reflexivity.
  - exists w'. split; [exact Hrun|exact Hout].
Defined.

Lemma unresolved_owner_fails_the_run_witness :
  exists w',
    @serve punctual go feb01 orphaned
    = (Throw "TypeError: Cannot read properties of null (reading 'email')", w') /\
    outbox w' = [].
Proof.
  destruct (@unresolved_owner_fails_the_run punctual go feb01 orphaned
              (netflix active feb15) feb15) as (w' & Hrun & Hout & _).
  - exact punctual_prompt.
  - reflexivity.
  - reflexivity.
  - reflexivity.
  - reflexivity.
  - by vm_compute.
  - exists w'. split; [exact Hrun|exact Hout].
Defined.

Lemma readme_prompt : @prompt readme.
Proof. intros stepName t date _. simpl. by rewrite Z.max_id. Qed.

Lemma readme_brisk : @brisk readme.
Proof. intros stepName t. simpl. unfold day_ms. lia. Qed.

Lemma missing_template_stops_the_run_witness :
  exists w' entries,
    @serve readme go feb01 (shop active feb15)
    = (Throw "Invalid template type", w') /\
    reminder_log (outbox w') = entries /\ length entries = 2%nat.
Proof.
  destruct (@missing_template_stops_the_run readme go feb01 (shop active feb15)
              (snapshot active feb15) (select_name_email ada) "ada@example.com"
              feb15 [7; 5] 3 [1]) as (w' & entries & Hrun & Hdue & Hlog).
  - reflexivity.
  - exact readme_prompt.
  - exact readme_brisk.
  - intros t m. by eexists.
  - intros k Hk.
    repeat (apply elem_of_cons in Hk as [->|Hk]; [by eexists|]).
    by apply elem_of_nil in Hk.
  - reflexivity.
  - reflexivity.
  - reflexivity.
  - reflexivity.
  - reflexivity.
  - reflexivity.
  - discriminate.
  - by vm_compute.
  - exists w', entries. split; [exact Hrun|]. split; [exact Hlog|].
    symmetry. exact (Forall2_length _ _ _ Hdue).
Defined.

Lemma flaky_prompt : @prompt flaky.
Proof. intros stepName t date _. simpl. by rewrite Z.max_id. Qed.

Lemma flaky_brisk : @brisk flaky.
Proof. intros stepName t. simpl. unfold day_ms. lia. Qed.

Lemma rejected_reminder_ends_the_run_witness :
  exists w' entries,
    @serve flaky go feb01 (shop active feb15) = (Throw "EENVELOPE", w') /\
    reminder_log (outbox w') = entries /\
    length (outbox w') = 3%nat.
Proof.
  destruct (@rejected_reminder_ends_the_run flaky go feb01 (shop active feb15)
              (snapshot active feb15) (select_name_email ada) "ada@example.com"
              feb15 [7] 5 [3; 1] (template 5) "EENVELOPE")
    as (w' & entries & Hrun & _ & Hlog & Hlen).
  - reflexivity.
  - exact flaky_prompt.
  - exact flaky_brisk.
  - reflexivity.
  - intros k Hk. apply elem_of_cons in Hk as [->|Hk];
      [|by apply elem_of_nil in Hk].
    exists (template 7). split; [reflexivity|]. intros t. by eexists.
  - reflexivity.
  - reflexivity.
  - reflexivity.
  - reflexivity.
  - reflexivity.
  - reflexivity.
  - reflexivity.
  - discriminate.
  - by vm_compute.
  - exists w', entries. split; [exact Hrun|]. split; [exact Hlog|exact Hlen].
Defined.

Lemma deliveries_match_recorded_steps_witness :
  (delivered_count
     (@sendReminders punctual "s1"
        (@sendReminders punctual "s1" (start go feb01 (shop active feb15))).2).2
   <= 4)%nat.
Proof.
  apply (@deliveries_match_recorded_steps punctual go feb01 (shop active feb15)).
  apply (@lifetime_invoke punctual). apply (@lifetime_invoke punctual).
  apply lifetime_begin.
Defined.

Lemma completed_run_replays_silently_witness :
  exists w' w'',
    @serve punctual go feb01 (shop active feb15) = (Ok tt, w') /\
    @sendReminders punctual "s1" w' = (Ok tt, w'') /\
    outbox w'' = outbox w'.
Proof.
  destruct (@completed_run_replays_silently punctual go feb01
              (shop active feb15) (snapshot active feb15)
              (select_name_email ada) "ada@example.com" feb15)
    as (w' & w'' & Hrun & Hagain & Hout & _).
  - exact punctual_prompt.
  - exact punctual_brisk.
  - exact punctual_accepting.
  - exact punctual_templates.
  - reflexivity.
  - reflexivity.
  - reflexivity.
  - reflexivity.
  - reflexivity.
  - discriminate.
  - reflexivity.
  - exists w', w''. split; [exact Hrun|]. split; [exact Hagain|exact Hout].
Defined.

Lemma run_depends_only_on_its_document_witness :
  outbox (@serve punctual go feb01 (shop active feb15)).2
  = outbox (@serve punctual go feb01
              (mkStore (<["s7" := netflix cancelled feb01]>
                          (subscriptions (shop active feb15)))
                 (<["u9" := mkUser (Some "eve") (Some "eve@example.com") None]>
                    (users (shop active feb15))))).2.
Proof.
  apply (@run_depends_only_on_its_document punctual go feb01).
  - reflexivity.
  - intros doc [= <-]. reflexivity.
Defined.

Lemma credentials_never_reach_the_run_witness :
  steps (@serve punctual go feb01
           (mkStore (subscriptions (shop active feb15))
              (disguise <$> users (shop active feb15)))).2
  = steps (@serve punctual go feb01 (shop active feb15)).2.
Proof.
  destruct (@credentials_never_reach_the_run punctual go feb01
              (shop active feb15) disguise) as (_ & Hsteps & _).
  - intros u. reflexivity.
  - exact Hsteps.
Defined.

Lemma second_send_cannot_fail_the_helper_witness :
  exists w',
    @sendReminderEmail punctual (Some "ada@example.com")
      (Some "7 days before reminder") (document (snapshot active feb15))
      (start go feb01 (shop active feb15)) = (Ok undefined, w') /\
    length (outbox w') = 2%nat.
Proof.
  destruct (@second_send_cannot_fail_the_helper punctual "ada@example.com"
              "7 days before reminder" (snapshot active feb15)
              (select_name_email ada) (template 7)
              (mkInfo accountEmail "ada@example.com"
                 "<1706745600000@mail>" "250 2.0.0 OK")
              (start go feb01 (shop active feb15)))
    as (w' & Hrun & Hout & _).
  - discriminate.
  - discriminate.
  - reflexivity.
  - reflexivity.
  - reflexivity.
  - exists w'. split; [exact Hrun|]. rewrite Hout. reflexivity.
Defined.

Lemma pre_save_again_later_witness :
  pre_save mar01 (pre_save feb01 (netflix active feb15))
  = pre_save mar01 (netflix active feb15).
Proof. apply pre_save_again_later. by vm_compute. Defined.

Lemma created_document_round_trip_witness :
  exists doc,
    subscriptions
      (Handlers.createSubscription outside jan15
         (mkRequest None caller wanted) vacant).2 !! "s1" = Some doc /\
    user doc = "u1" /\
    is_Some (renewalDate doc).
Proof.
  destruct (created_document_round_trip outside jan15
              (mkRequest None caller wanted) vacant)
    as (doc & Hdoc & _ & Hu & Hr & _).
  - reflexivity.
  - exists doc. split; [exact Hdoc|]. split; [exact Hu|exact Hr].
Defined.

Lemma born_expired_gets_no_reminder_witness :
  exists doc st' w',
    Handlers.createSubscription outside mar01
      (mkRequest None caller wanted) vacant
    = (res_json 201 true "Subscription created successfully" (one doc)
         (Some "wfr_1"), st') /\
    status doc = expired /\
    @serve punctual go mar01 st' = (Ok tt, w') /\
    outbox w' = [].
Proof.
  destruct (@born_expired_gets_no_reminder punctual outside mar01
              (mkRequest None caller wanted) vacant "wfr_1" mar01)
    as (doc & st' & w' & Hrun & _ & Hst & Hserve & Hout).
  - reflexivity.
  - reflexivity.
  - reflexivity.
  - by vm_compute.
  - exists doc, st', w'. split; [exact Hrun|]. split; [exact Hst|].
    split; [exact Hserve|exact Hout].
Defined.

Lemma created_then_reminded_witness :
  exists doc st' w',
    Handlers.createSubscription outside jan15
      (mkRequest None caller wanted) vacant
    = (res_json 201 true "Subscription created successfully" (one doc)
         (Some "wfr_1"), st') /\
    @serve punctual go jan16 st' = (Ok tt, w') /\
    length (reminder_log (outbox w')) = 4%nat /\
    length (outbox w') = 8%nat.
Proof.
  destruct (@created_then_reminded punctual outside jan15
              (mkRequest None caller wanted) vacant "wfr_1" jan16 ada
              "ada@example.com")
    as (doc & st' & w' & s & entries & Hrun & Hserve & _ & _ & Hdue & Hlog
        & Hlen).
  - exact punctual_prompt.
  - exact punctual_brisk.
  - exact punctual_accepting.
  - exact punctual_templates.
  - reflexivity.
  - reflexivity.
  - reflexivity.
  - reflexivity.
  - reflexivity.
  - reflexivity.
  - discriminate.
  - by vm_compute.
  - by vm_compute.
  - exists doc, st', w'. split; [exact Hrun|]. split; [exact Hserve|].
    split; [|exact Hlen]. rewrite Hlog.
    symmetry. exact (Forall2_length _ _ _ Hdue).
Defined.

Lemma created_is_readable_by_any_requester_witness :
  exists doc,
    Handlers.getSubscription (mkRequest (Some "s1") stranger tt)
      (Handlers.createSubscription outside jan15
         (mkRequest None caller wanted) vacant).2
    = res_json 200 true "Subscription fetched successfully" (one doc) None /\
    user doc = "u1".
Proof.
  destruct (created_is_readable_by_any_requester outside jan15
              (mkRequest None caller wanted) vacant "wfr_1")
    as (doc & st' & Hrun & Huser & _ & Hget).
  - reflexivity.
  - reflexivity.
  - discriminate.
  - exists doc. rewrite Hrun. split; [|exact Huser].
    apply Hget. reflexivity.
Defined.

Lemma deleted_is_gone_witness :
  subscriptions
    (Handlers.deleteSubscription (mkRequest (Some "s1") stranger tt)
       (shop active feb15)).2 !! "s1" = None.
Proof.
  destruct (deleted_is_gone (mkRequest (Some "s1") stranger tt)
              (shop active feb15) "s1" (netflix active feb15))
    as (st' & Hrun & Hgone & _).
  - reflexivity.
  - discriminate.
  - reflexivity.
  - rewrite Hrun. exact Hgone.
Defined.

Lemma cancelled_or_deleted_before_the_run_witness :
  exists w',
    @serve punctual go feb01
      (Handlers.updateSubscription (mkRequest (Some "s1") stranger cancelling)
         (shop active feb15)).2 = (Ok tt, w') /\
    outbox w' = [].
Proof.
  destruct (@cancelled_or_deleted_before_the_run punctual go feb01
              (shop active feb15) (netflix active feb15)) as [Hupd _].
  - discriminate.
  - reflexivity.
  - apply Hupd; reflexivity.
Defined.

Lemma updated_round_trip_witness :
  Handlers.getSubscription (mkRequest (Some "s1") caller tt)
    (Handlers.updateSubscription (mkRequest (Some "s1") stranger cancelling)
       (shop active feb15)).2
  = res_json 200 true "Subscription fetched successfully"
      (one (netflix cancelled feb15)) None.
Proof.
  destruct (updated_round_trip (mkRequest (Some "s1") stranger cancelling)
              (shop active feb15) "s1" (netflix active feb15))
    as (st' & Hrun & _ & Hget & _).
  - reflexivity.
  - discriminate.
  - reflexivity.
  - rewrite Hrun. apply Hget. reflexivity.
Defined.

Lemma update_bypasses_the_save_hook_witness :
  exists doc,
    subscriptions
      (Handlers.updateSubscription (mkRequest (Some "s1") stranger reviving)
         (shop expired feb15)).2 !! "s1" = Some doc /\
    status doc = active /\ renewalDate doc = Some jan15.
Proof.
  destruct (update_bypasses_the_save_hook
              (mkRequest (Some "s1") stranger reviving)
              (shop expired feb15) "s1" (netflix expired feb15) jan15 mar01)
    as (doc & Hdoc & Hst & Hr & _).
  - reflexivity.
  - discriminate.
  - reflexivity.
  - reflexivity.
  - reflexivity.
  - by vm_compute.
  - exists doc. split; [exact Hdoc|]. split; [exact Hst|exact Hr].
Defined.

Lemma failed_creation_witness :
  exists st',
    Handlers.createSubscription unreachable_workflow jan15
      (mkRequest None caller wanted) vacant
    = (next (mkHttpError "fetch failed" None), st') /\
    is_Some (subscriptions st' !! "s1").
Proof.
  destruct (failed_creation unreachable_workflow jan15
              (mkRequest None caller wanted) vacant) as [_ Htrig].
  destruct (Htrig "fetch failed") as (st' & Hrun & Hdoc).
  - reflexivity.
  - reflexivity.
  - exists st'. split; [exact Hrun|]. eexists. exact Hdoc.
Defined.

Lemma authorizeUser_passes_iff_witness :
  authorizeUser verify 1 (Some "Bearer good") (shop active feb15)
  = authorized caller ada.
Proof.
  apply authorizeUser_passes_iff.
  exists "Bearer good", "good", "u1". repeat split; try reflexivity.
  discriminate.
Defined.

Lemma bearer_header_round_trip_witness :
  authorizeUser verify 1 (Some "Bearer good") (shop active feb15)
  = authorized caller ada /\
  authorizeUser verify 1 (Some "Bearer  good") (shop active feb15)
  = refused (mkHttpError "Unauthorized" (Some 401%nat)).
Proof.
  destruct (bearer_header_round_trip verify 1 "good" (shop active feb15))
    as (Hgood & Hdouble & _).
  - reflexivity.
  - discriminate.
  - split; [exact Hgood|exact Hdouble].
Defined.

Lemma only_authenticated_requests_create_witness :
  (user <$> subscriptions
     (post_subscription outside jan15 verify 1 (inl allowed)
        (Some "Bearer good") wanted vacant).2 !! "s1") = Some "u1".
Proof.
  destruct (only_authenticated_requests_create outside jan15 verify 1
              (inl allowed) (Some "Bearer good") wanted vacant
              (post_subscription outside jan15 verify 1 (inl allowed)
                 (Some "Bearer good") wanted vacant).1
              (post_subscription outside jan15 verify 1 (inl allowed)
                 (Some "Bearer good") wanted vacant).2)
    as (_ & header & token & id & u & Hauth & _ & Htok & Hv & _ & Hdoc & _).
  - by destruct (post_subscription _ _ _ _ _ _ _ _).
  - intros Heq. apply (f_equal (fun st => subscriptions st !! "s1")) in Heq.
    by vm_compute in Heq.
  - injection Hauth as <-. vm_compute in Htok. injection Htok as <-.
    vm_compute in Hv. injection Hv as <-.
    change (newId outside vacant) with "s1" in Hdoc. rewrite Hdoc.
    reflexivity.
Defined.
End MoreExamples.
